(** * pysolr-tornado: the request/response translation layer

    A shallow embedding of [pysolrtornado.py] as it runs on Python 3
    ([IS_PY3] is true): text is a list of code points, a byte string a
    list of byte values, exceptions are values of [exn], and a call that
    can raise returns a [result]. *)

From Stdlib Require Import Ascii String.
From Stdlib Require Decimal DecimalFacts DecimalPos DecimalN DecimalZ.
From Stdlib Require Import NArith ZArith List Bool Lia SpecFloat.
Import ListNotations.
Local Open Scope N_scope.
Set Warnings "-register-all".

(** ** Text and byte strings *)

(** A Python [str]: code points, each at most 0x10FFFF. *)
Definition str := list N.

(** A Python [bytes]: values below 256. *)
Definition bytes := list N.

Definition is_code_point (c : N) : bool := c <=? 0x10FFFF.
Definition is_surrogate (c : N) : bool := (0xD800 <=? c) && (c <=? 0xDFFF).

Definition well_formed_str (s : str) : Prop := forallb is_code_point s = true.

(** Text literals of the source are written [L "..."]. *)
Fixpoint L (s : String.string) : str :=
  match s with
  | String.EmptyString => []
  | String.String a r => Ascii.N_of_ascii a :: L r
  end.
Arguments L s%_string.

Fixpoint str_eqb (a b : str) : bool :=
  match a, b with
  | [], [] => true
  | x :: a', y :: b' => (x =? y) && str_eqb a' b'
  | _, _ => false
  end.

(** [s.startswith(p)] *)
Fixpoint startswith (p s : list N) : bool :=
  match p, s with
  | [], _ => true
  | x :: p', y :: s' => (x =? y) && startswith p' s'
  | _ :: _, [] => false
  end.

(** [p in s] for text. *)
Fixpoint contains (p s : list N) : bool :=
  startswith p s || match s with [] => false | _ :: s' => contains p s' end.

(** [s.replace(old, new)] for a non-empty [old]: leftmost occurrences, not
    overlapping.  [skip] counts the characters of a match still to drop. *)
Fixpoint replace_from (old new : list N) (skip : nat) (s : list N) : list N :=
  match s with
  | [] => []
  | c :: s' =>
      match skip with
      | S k => replace_from old new k s'
      | O =>
          if startswith old s
          then new ++ replace_from old new (length old - 1) s'
          else c :: replace_from old new O s'
      end
  end.

Definition replace (old new s : list N) : list N := replace_from old new O s.

(** Python's white space ([str.isspace], [\s] in a text pattern). *)
Definition is_space (c : N) : bool :=
  ((0x09 <=? c) && (c <=? 0x0D)) || ((0x1C <=? c) && (c <=? 0x20))
  || (c =? 0x85) || (c =? 0xA0) || (c =? 0x1680)
  || ((0x2000 <=? c) && (c <=? 0x200A))
  || (c =? 0x2028) || (c =? 0x2029) || (c =? 0x202F) || (c =? 0x205F)
  || (c =? 0x3000).

Fixpoint lstrip_by (p : N -> bool) (s : str) : str :=
  match s with
  | c :: s' => if p c then lstrip_by p s' else s
  | [] => []
  end.

Definition rstrip_by (p : N -> bool) (s : str) : str :=
  rev (lstrip_by p (rev s)).

(** [s.strip()] *)
Definition strip (s : str) : str := rstrip_by is_space (lstrip_by is_space s).

(** [s.lower()] and [s.upper()] on the ASCII letters.  The source lowers the
    server header to look for "jetty" and "coyote" and uppercases the HTTP
    method; no character outside ASCII lowers to a letter of those words.
    On a method with letters outside ASCII [str.upper] does more than
    [upper] (it writes SS for the sharp s): what is stated of a method in
    upper case is stated of ASCII methods. *)
Definition lower_char (c : N) : N :=
  if (0x41 <=? c) && (c <=? 0x5A) then c + 32 else c.
Definition upper_char (c : N) : N :=
  if (0x61 <=? c) && (c <=? 0x7A) then c - 32 else c.
Definition lower (s : str) : str := map lower_char s.
Definition upper (s : str) : str := map upper_char s.

(** ** UTF-8 *)

Definition hex_digit (d : N) : N := if d <? 10 then 0x30 + d else 0x61 + (d - 10).

(** The text the [backslashreplace] handler writes for a code point that
    UTF-8 cannot carry (only surrogates reach it: [\udXXX]). *)
Definition backslash_escape (c : N) : str :=
  [0x5C; 0x75; hex_digit (c / 4096 mod 16); hex_digit (c / 256 mod 16);
   hex_digit (c / 16 mod 16); hex_digit (c mod 16)].

(** The UTF-8 bytes of one code point that is not a surrogate. *)
Definition utf8_char (c : N) : bytes :=
  if c <? 0x80 then [c]
  else if c <? 0x800 then [0xC0 + c / 64; 0x80 + c mod 64]
  else if c <? 0x10000 then [0xE0 + c / 4096; 0x80 + c / 64 mod 64; 0x80 + c mod 64]
  else [0xF0 + c / 262144; 0x80 + c / 4096 mod 64; 0x80 + c / 64 mod 64; 0x80 + c mod 64].

(** [s.encode('utf-8', 'backslashreplace')] *)
Definition encode_backslashreplace (s : str) : bytes :=
  flat_map (fun c => if is_surrogate c then backslash_escape c else utf8_char c) s.

Definition is_continuation (b : N) : bool := (0x80 <=? b) && (b <? 0xC0).

(** The UTF-8 decoder of CPython: each item is a decoded code point, or
    [None] for one maximal ill-formed run of bytes (an invalid start byte,
    a sequence cut by a byte that does not continue it, or a sequence cut
    by the end of the data). *)
Fixpoint utf8_decode (b : bytes) : list (option N) :=
  match b with
  | [] => []
  | b0 :: r0 =>
    if b0 <? 0x80 then Some b0 :: utf8_decode r0
    else if b0 <? 0xC2 then None :: utf8_decode r0
    else if b0 <? 0xE0 then
      match r0 with
      | [] => [None]
      | b1 :: r1 =>
        if is_continuation b1
        then Some ((b0 - 0xC0) * 64 + (b1 - 0x80)) :: utf8_decode r1
        else None :: utf8_decode r0
      end
    else if b0 <? 0xF0 then
      match r0 with
      | [] => [None]
      | b1 :: r1 =>
        if negb (is_continuation b1)
           || (if b1 <? 0xA0 then b0 =? 0xE0 else b0 =? 0xED)
        then None :: utf8_decode r0
        else
          match r1 with
          | [] => [None]
          | b2 :: r2 =>
            if is_continuation b2
            then Some ((b0 - 0xE0) * 4096 + (b1 - 0x80) * 64 + (b2 - 0x80))
                 :: utf8_decode r2
            else None :: utf8_decode r1
          end
      end
    else if b0 <? 0xF5 then
      match r0 with
      | [] => [None]
      | b1 :: r1 =>
        if negb (is_continuation b1)
           || (if b1 <? 0x90 then b0 =? 0xF0 else b0 =? 0xF4)
        then None :: utf8_decode r0
        else
          match r1 with
          | [] => [None]
          | b2 :: r2 =>
            if negb (is_continuation b2) then None :: utf8_decode r1
            else
              match r2 with
              | [] => [None]
              | b3 :: r3 =>
                if is_continuation b3
                then Some ((b0 - 0xF0) * 262144 + (b1 - 0x80) * 4096
                           + (b2 - 0x80) * 64 + (b3 - 0x80))
                     :: utf8_decode r3
                else None :: utf8_decode r2
              end
          end
      end
    else None :: utf8_decode r0
  end.

(** [b.decode('utf-8', 'replace')]: U+FFFD for each ill-formed run. *)
Definition decode_replace (b : bytes) : str :=
  map (fun o => match o with Some c => c | None => 0xFFFD end) (utf8_decode b).

(** [b.decode()]: strict, [None] when the bytes are not UTF-8
    (Python raises UnicodeDecodeError). *)
Fixpoint all_decoded (l : list (option N)) : option str :=
  match l with
  | [] => Some []
  | Some c :: r => option_map (cons c) (all_decoded r)
  | None :: _ => None
  end.

Definition decode_strict (b : bytes) : option str := all_decoded (utf8_decode b).

(** ** Exceptions and results *)

Record HTTPResponse := {
  resp_code : N;
  resp_reason : str;
  resp_headers : list (str * str);
  resp_body : bytes
}.

Inductive exn :=
| HTTPError (status : N) (response : option HTTPResponse)
| GaiError
| SolrError (msg : str)
| ValueError (msg : str)
| NotImplementedError (msg : str)
| AttributeError
| TypeError
| IndexError
| KeyError
| UnicodeDecodeError
| UnicodeEncodeError
| ParseError
| ExpatError
| SyntaxError
| ConnectionError.

Inductive result (A : Type) :=
| Ok (a : A)
| Raise (e : exn).
Arguments Ok {A} a.
Arguments Raise {A} e.

Definition bind {A B} (r : result A) (f : A -> result B) : result B :=
  match r with
  | Ok a => f a
  | Raise e => Raise e
  end.

Declare Scope py_scope.
Delimit Scope py_scope with py.
Notation "x <- r ;; k" := (bind r (fun x => k))
  (at level 61, r at next level, right associativity) : py_scope.

(** ** Numbers as text *)

Definition is_digit (c : N) : bool := (0x30 <=? c) && (c <=? 0x39).

Fixpoint digits_of_uint (u : Decimal.uint) : str :=
  match u with
  | Decimal.Nil => []
  | Decimal.D0 r => 0x30 :: digits_of_uint r
  | Decimal.D1 r => 0x31 :: digits_of_uint r
  | Decimal.D2 r => 0x32 :: digits_of_uint r
  | Decimal.D3 r => 0x33 :: digits_of_uint r
  | Decimal.D4 r => 0x34 :: digits_of_uint r
  | Decimal.D5 r => 0x35 :: digits_of_uint r
  | Decimal.D6 r => 0x36 :: digits_of_uint r
  | Decimal.D7 r => 0x37 :: digits_of_uint r
  | Decimal.D8 r => 0x38 :: digits_of_uint r
  | Decimal.D9 r => 0x39 :: digits_of_uint r
  end.

(** The digit of value [v] put before the digits [u]. *)
Definition value_cons (v : N) (u : Decimal.uint) : Decimal.uint :=
  match v with
  | 0 => Decimal.D0 u | 1 => Decimal.D1 u | 2 => Decimal.D2 u
  | 3 => Decimal.D3 u | 4 => Decimal.D4 u | 5 => Decimal.D5 u
  | 6 => Decimal.D6 u | 7 => Decimal.D7 u | 8 => Decimal.D8 u
  | _ => Decimal.D9 u
  end.

Definition digit_cons (c : N) (u : Decimal.uint) : Decimal.uint := value_cons (c - 0x30) u.

Fixpoint uint_of_digits (s : str) : option Decimal.uint :=
  match s with
  | [] => Some Decimal.Nil
  | c :: r =>
      if is_digit c then option_map (digit_cons c) (uint_of_digits r) else None
  end.

(** [str(n)] for a natural number, and [int(text)] for a text of digits. *)
Definition str_of_N (n : N) : str := digits_of_uint (N.to_uint n).

Definition int_of_digits (s : str) : option N :=
  match s with
  | [] => None
  | _ => option_map N.of_uint (uint_of_digits s)
  end.

(** [str(z)] for an integer. *)
Definition str_of_Z (z : Z) : str :=
  match Z.to_int z with
  | Decimal.Pos u => digits_of_uint u
  | Decimal.Neg u => 0x2D :: digits_of_uint u
  end.

(** ["%0wd" % n] for a natural number. *)
Definition zero_pad (w : nat) (n : N) : str :=
  let d := str_of_N n in repeat 0x30 (w - length d) ++ d.

(** ** Dates *)

Record date := { year : N; month : N; day : N }.

(** [utcoffset] is what [value.utcoffset()] returns, in whole seconds;
    [None] for a naive value. *)
Record datetime := {
  dt_date : date;
  hour : N; minute : N; second : N; microsecond : N;
  utcoffset : option Z
}.

Definition is_leap (y : N) : bool :=
  (y mod 4 =? 0) && (negb (y mod 100 =? 0) || (y mod 400 =? 0)).

Definition days_in_month (y m : N) : N :=
  match m with
  | 2 => if is_leap y then 29 else 28
  | 4 | 6 | 9 | 11 => 30
  | _ => 31
  end.

Definition valid_date (d : date) : bool :=
  (1 <=? year d) && (year d <=? 9999) && (1 <=? month d) && (month d <=? 12)
  && (1 <=? day d) && (day d <=? days_in_month (year d) (month d)).

Definition valid_datetime (d : datetime) : bool :=
  valid_date (dt_date d) && (hour d <=? 23) && (minute d <=? 59)
  && (second d <=? 59) && (microsecond d <=? 999999)
  && match utcoffset d with
     | None => true
     | Some o => (-86400 <? o)%Z && (o <? 86400)%Z
     end.

(** [datetime.datetime(y, m, d, h, mi, s)]: the constructor checks the
    ranges and raises ValueError outside them. *)
Definition datetime_new (y m d h mi s : N) : result datetime :=
  let v := {| dt_date := {| year := y; month := m; day := d |};
              hour := h; minute := mi; second := s; microsecond := 0;
              utcoffset := None |} in
  if valid_datetime v then Ok v else Raise (ValueError (L "out of range")).

(** [date.isoformat()] *)
Definition date_isoformat (d : date) : str :=
  zero_pad 4 (year d) ++ L "-" ++ zero_pad 2 (month d) ++ L "-" ++ zero_pad 2 (day d).

Definition format_offset (o : option Z) : str :=
  match o with
  | None => []
  | Some z =>
      let a := Z.to_N (Z.abs z) in
      (if (z <? 0)%Z then L "-" else L "+")
      ++ zero_pad 2 (a / 3600) ++ L ":" ++ zero_pad 2 (a mod 3600 / 60)
      ++ (if a mod 60 =? 0 then [] else L ":" ++ zero_pad 2 (a mod 60))
  end.

(** [datetime.isoformat(sep)]: the fraction is written only when the
    microsecond is not zero, the offset only for an aware value. *)
Definition datetime_isoformat (sep : str) (d : datetime) : str :=
  date_isoformat (dt_date d) ++ sep
  ++ zero_pad 2 (hour d) ++ L ":" ++ zero_pad 2 (minute d) ++ L ":" ++ zero_pad 2 (second d)
  ++ (if microsecond d =? 0 then [] else L "." ++ zero_pad 6 (microsecond d))
  ++ format_offset (utcoffset d).

(** ** Python values *)

Inductive value :=
| PyNone
| PyBool (b : bool)
| PyInt (z : Z)
| PyFloat (f : spec_float)
| PyStr (s : str)
| PyBytes (b : bytes)
| PyDatetime (d : datetime)
| PyDate (d : date)
| PyList (l : list value)
| PyTuple (l : list value).

(** A decoded JSON document. *)
Inductive json :=
| JNull
| JBool (b : bool)
| JInt (z : Z)
| JFloat (f : spec_float)
| JStr (s : str)
| JList (l : list json)
| JDict (items : list (str * json)).

(** ** XML elements ([xml.etree.ElementTree.Element]) *)

Inductive Element :=
| Elem (tag : str) (attrib : list (str * str)) (text : option str)
       (children : list Element).

Definition tag (e : Element) : str := let 'Elem t _ _ _ := e in t.
Definition attrib (e : Element) : list (str * str) := let 'Elem _ a _ _ := e in a.
Definition text (e : Element) : option str := let 'Elem _ _ t _ := e in t.
Definition children (e : Element) : list Element := let 'Elem _ _ _ c := e in c.

Fixpoint assoc {A} (k : str) (l : list (str * A)) : option A :=
  match l with
  | [] => None
  | (k', v) :: r => if str_eqb k k' then Some v else assoc k r
  end.

(** [Element.find(path)] for the paths of the source: a path is a list of
    steps, each a child tag with an optional [[@key="value"]] predicate;
    the result is the first element in document order. *)
Record step := { step_tag : str; step_attr : option (str * str) }.

Definition step_matches (st : step) (e : Element) : bool :=
  str_eqb (tag e) (step_tag st)
  && match step_attr st with
     | None => true
     | Some (k, v) =>
         match assoc k (attrib e) with
         | Some v' => str_eqb v' v
         | None => false
         end
     end.

Definition select (st : step) (es : list Element) : list Element :=
  flat_map (fun e => filter (step_matches st) (children e)) es.

Definition find (path : list step) (e : Element) : option Element :=
  hd_error (fold_left (fun es st => select st es) path [e]).

(** ** Regular expressions ([re]): a backtracking matcher *)

Module Re.

Inductive re :=
| Eps
| Chr (p : N -> bool)
| Seq (a b : re)
| Alt (a b : re)
| Star (greedy : bool) (a : re)
| Group (n : nat) (a : re)
| Backref (n : nat)
| Bol
| Eol.

(** A position in the subject: the characters consumed so far, the rest,
    and the text of the groups closed so far (latest first). *)
Record state := { pos : nat; rest : str; groups : list (nat * str) }.

Fixpoint group (n : nat) (g : list (nat * str)) : option str :=
  match g with
  | [] => None
  | (m, t) :: r => if Nat.eqb n m then Some t else group n r
  end.

Definition advance (n : nat) (st : state) : state :=
  {| pos := pos st + n; rest := skipn n (rest st); groups := groups st |}.

Definition same_char (ignorecase : bool) (a b : N) : bool :=
  if ignorecase then lower_char a =? lower_char b else a =? b.

Fixpoint prefix_by (eq : N -> N -> bool) (p s : str) : bool :=
  match p, s with
  | [], _ => true
  | x :: p', y :: s' => eq x y && prefix_by eq p' s'
  | _ :: _, [] => false
  end.

(** One more iteration of a starred [body], or leave to [k]: the greedy
    star iterates first, the lazy one leaves first.  An iteration that
    consumes nothing ends the loop; [n] bounds the iterations by the
    length of the rest. *)
Fixpoint star_loop (greedy : bool)
  (body : (state -> option state) -> state -> option state)
  (k : state -> option state) (n : nat) (st : state) {struct n} : option state :=
  match n with
  | O => k st
  | S n' =>
      let more :=
        body (fun st' => if Nat.ltb (pos st) (pos st')
                         then star_loop greedy body k n' st' else None) st in
      if greedy
      then match more with Some x => Some x | None => k st end
      else match k st with Some x => Some x | None => more end
  end.

(** [run r k st]: match [r] at [st], then the continuation [k];
    alternatives are tried in the order of [re]. *)
Fixpoint run (ignorecase : bool) (r : re) (k : state -> option state) (st : state)
  {struct r} : option state :=
  match r with
  | Eps => k st
  | Chr p =>
      match rest st with
      | c :: s' =>
          if p c
          then k {| pos := S (pos st); rest := s'; groups := groups st |}
          else None
      | [] => None
      end
  | Seq a b => run ignorecase a (run ignorecase b k) st
  | Alt a b =>
      match run ignorecase a k st with
      | Some x => Some x
      | None => run ignorecase b k st
      end
  | Star greedy a =>
      star_loop greedy (run ignorecase a) k (S (length (rest st))) st
  | Group n a =>
      run ignorecase a
          (fun st' =>
             k {| pos := pos st'; rest := rest st';
                  groups := (n, firstn (pos st' - pos st) (rest st)) :: groups st' |})
          st
  | Backref n =>
      match group n (groups st) with
      | Some t =>
          if prefix_by (same_char ignorecase) t (rest st)
          then k (advance (length t) st)
          else None
      | None => None
      end
  | Bol => if Nat.eqb (pos st) 0 then k st else None
  | Eol =>
      match rest st with
      | [] => k st
      | [0x0A] => k st
      | _ => None
      end
  end.

(** [pattern.search(s)]: the first start position with a match. *)
Fixpoint search_from (ignorecase : bool) (r : re) (p : nat) (s : str) : option state :=
  match run ignorecase r (fun st => Some st) {| pos := p; rest := s; groups := [] |} with
  | Some st => Some st
  | None =>
      match s with
      | [] => None
      | _ :: s' => search_from ignorecase r (S p) s'
      end
  end.

Definition search (ignorecase : bool) (r : re) (s : str) : option state :=
  search_from ignorecase r 0 s.

Definition seq (l : list re) : re := fold_right Seq Eps l.
Definition lit (ignorecase : bool) (c : N) : re := Chr (same_char ignorecase c).
Definition plus (greedy : bool) (a : re) : re := Seq a (Star greedy a).
Definition opt (a : re) : re := Alt a Eps.
Definition times (n : nat) (a : re) : re := seq (repeat a n).

(** The classes of the source's patterns.  [\d] is taken on the ASCII
    digits (Python's also takes the other decimal digits of Unicode). *)
Definition dot (c : N) : bool := negb (c =? 0x0A).
Definition space (c : N) : bool := is_space c.
Definition digit (c : N) : bool := is_digit c.
Definition other_than (x c : N) : bool := negb (c =? x).

End Re.

(** [DATETIME_REGEX]: groups 1 to 6 are year, month, day, hour, minute and
    second; group 7 is the fraction. *)
Definition DATETIME_REGEX : Re.re :=
  let d n := Re.times n (Re.Chr Re.digit) in
  let c x := Re.lit false x in
  Re.seq [Re.Bol; Re.Group 1 (d 4%nat); c 0x2D; Re.Group 2 (d 2%nat); c 0x2D;
          Re.Group 3 (d 2%nat); c 0x54; Re.Group 4 (d 2%nat); c 0x3A;
          Re.Group 5 (d 2%nat); c 0x3A; Re.Group 6 (d 2%nat);
          Re.opt (Re.Group 7 (Re.Seq (c 0x2E) (Re.plus true (Re.Chr Re.digit))));
          c 0x5A; Re.Eol].

(** The heading pattern of the Tomcat branch, under [re.IGNORECASE]:
    [<(h1)[^>]*>\s*(.+?)\s*</\1>]. *)
Definition H1_REGEX : Re.re :=
  let c x := Re.lit true x in
  Re.seq [c 0x3C; Re.Group 1 (Re.Seq (c 0x68) (c 0x31));
          Re.Star true (Re.Chr (Re.other_than 0x3E)); c 0x3E;
          Re.Star true (Re.Chr Re.space);
          Re.Group 2 (Re.plus false (Re.Chr Re.dot));
          Re.Star true (Re.Chr Re.space);
          c 0x3C; c 0x2F; Re.Backref 1; c 0x3E].

(** ** The libraries the source calls

    What Python's own libraries compute is not part of the repository; the
    model takes it as given: the shortest [repr] of a finite non-zero float,
    the [repr] that [str()] falls back on for byte strings and containers,
    [ast.literal_eval] outside the texts fixed in [literal_eval] below, the
    XML parser and serializer of ElementTree, [urllib]'s [urlencode] (with
    its [doseq] flag) and the JSON decoder. *)
Class Libraries := {
  float_repr : bool -> positive -> Z -> str;
  repr : value -> str;
  literal_eval_other : str -> result (option value);
  ET_fromstring : str -> result Element;
  ET_tostring : Element -> bytes;
  urlencode : list (str * value) -> bool -> result str;
  json_decode : str -> result json
}.

Section Client.
Context {lib : Libraries}.

(** ** Text coercions *)

(** [str(f)] for a float. *)
Definition float_str (f : spec_float) : str :=
  match f with
  | S754_nan => L "nan"
  | S754_infinity false => L "inf"
  | S754_infinity true => L "-inf"
  | S754_zero false => L "0.0"
  | S754_zero true => L "-0.0"
  | S754_finite s m e => float_repr s m e
  end.

(** [str(value)] *)
Definition py_str (v : value) : str :=
  match v with
  | PyNone => L "None"
  | PyBool true => L "True"
  | PyBool false => L "False"
  | PyInt z => str_of_Z z
  | PyFloat f => float_str f
  | PyStr s => s
  | PyDatetime d => datetime_isoformat (L " ") d
  | PyDate d => date_isoformat d
  | PyBytes _ | PyList _ | PyTuple _ => repr v
  end.

Definition force_unicode (v : value) : str :=
  match v with
  | PyBytes b => decode_replace b
  | PyStr s => s
  | _ => py_str v
  end.

Definition force_bytes (v : value) : value :=
  match v with
  | PyStr s => PyBytes (encode_backslashreplace s)
  | _ => v
  end.

Definition is_valid_xml_char_ordinal (i : N) : bool :=
  ((0x20 <=? i) && (i <=? 0xD7FF))
  || (i =? 0x9) || (i =? 0xA) || (i =? 0xD)
  || ((0xE000 <=? i) && (i <=? 0xFFFD))
  || ((0x10000 <=? i) && (i <=? 0x10FFFF)).

Definition clean_xml_string (s : str) : str := filter is_valid_xml_char_ordinal s.

(** ** Sanitizer *)

Definition REPLACEMENTS : list (bytes * bytes) :=
  map (fun b => ([b], []))
      [0x00; 0x01; 0x02; 0x03; 0x04; 0x05; 0x06; 0x07; 0x08; 0x0b; 0x0c; 0x0e;
       0x0f; 0x10; 0x11; 0x12; 0x13; 0x14; 0x15; 0x16; 0x17; 0x18; 0x19; 0x1a;
       0x1b; 0x1c; 0x1d; 0x1e; 0x1f].

(** [sanitize(data)]: only a byte string has the [replace] that the loop
    calls with byte arguments; dates have a [replace] of their own that
    rejects them, the other values none. *)
Definition sanitize (data : value) : result str :=
  match force_bytes data with
  | PyBytes fixed_string =>
      Ok (force_unicode
            (PyBytes (fold_left (fun acc r => replace (fst r) (snd r) acc)
                                REPLACEMENTS fixed_string)))
  | PyDatetime _ | PyDate _ => Raise TypeError
  | _ => Raise AttributeError
  end.

(** ** Value codec *)

Definition _from_python (v : value) : str :=
  clean_xml_string
    match v with
    | PyDatetime d => datetime_isoformat (L "T") d ++ L "Z"
    | PyDate d => date_isoformat d ++ L "T00:00:00Z"
    | PyBool true => L "true"
    | PyBool false => L "false"
    | PyBytes b => decode_replace b
    | _ => py_str v
    end.

Definition is_ident_start (c : N) : bool :=
  ((0x41 <=? c) && (c <=? 0x5A)) || ((0x61 <=? c) && (c <=? 0x7A)) || (c =? 0x5F).

Definition is_identifier (s : str) : bool :=
  match s with
  | [] => false
  | c :: r => is_ident_start c && forallb (fun x => is_ident_start x || is_digit x) r
  end.

(** The text of an integer as [str] writes it. *)
Definition int_literal (s : str) : option Z :=
  let digits d :=
    match uint_of_digits d with
    | Some u => Some (Z.of_N (N.of_uint u))
    | None => None
    end in
  let z := match s with
           | 0x2D :: d => option_map Z.opp (digits d)
           | _ => digits s
           end in
  match z with
  | Some n => if str_eqb (str_of_Z n) s then Some n else None
  | None => None
  end.

(** [try: return ast.literal_eval(value) except (ValueError, SyntaxError): pass]
    on a text: [Ok (Some v)] when the text evaluates to [v], [Ok None] when
    it raises one of the two exceptions caught.  A decimal integer evaluates
    to itself; a bare ASCII name is one of the three constants or is rejected
    (a name or a keyword is no literal), and so is a name after a sign (a
    sign goes before a number only); the rest is the library's. *)
Definition literal_eval (s : str) : result (option value) :=
  match int_literal s with
  | Some z => Ok (Some (PyInt z))
  | None =>
      if is_identifier s then
        if str_eqb s (L "True") then Ok (Some (PyBool true))
        else if str_eqb s (L "False") then Ok (Some (PyBool false))
        else if str_eqb s (L "None") then Ok (Some PyNone)
        else Ok None
      else
        match s with
        | c :: r =>
            if ((c =? 0x2D) || (c =? 0x2B)) && is_identifier r then Ok None
            else literal_eval_other s
        | [] => literal_eval_other s
        end
  end.

Definition group_int (n : nat) (st : Re.state) : N :=
  match Re.group n (Re.groups st) with
  | Some t => match int_of_digits t with Some i => i | None => 0 end
  | None => 0
  end.

(** The text part of [_to_python]: the date pattern, then the literal. *)
Definition text_to_python (s : str) : result value :=
  match Re.search false DATETIME_REGEX s with
  | Some m =>
      bind (datetime_new (group_int 1 m) (group_int 2 m) (group_int 3 m)
                         (group_int 4 m) (group_int 5 m) (group_int 6 m))
           (fun d => Ok (PyDatetime d))
  | None =>
      bind (literal_eval s)
           (fun r => Ok match r with Some v => v | None => PyStr s end)
  end.

Definition _to_python (v : value) : result value :=
  match v with
  | PyBool _ | PyInt _ | PyFloat _ => Ok v
  | _ =>
      bind match v with
           | PyList l | PyTuple l =>
               match l with x :: _ => Ok x | [] => Raise IndexError end
           | _ => Ok v
           end
           (fun v =>
              match v with
              | PyStr s =>
                  if str_eqb s (L "true") then Ok (PyBool true)
                  else if str_eqb s (L "false") then Ok (PyBool false)
                  else text_to_python s
              | PyBytes b => text_to_python (force_unicode v)
              | _ => Ok v
              end)
  end.

Definition _is_null_value (v : value) : bool :=
  match v with
  | PyNone => true
  | PyStr [] => true
  | _ => false
  end.

(** ** Document builder *)

Fixpoint dict_set {K A} (eqb : K -> K -> bool) (k : K) (v : A) (d : list (K * A))
  : list (K * A) :=
  match d with
  | [] => [(k, v)]
  | (k', v') :: r => if eqb k k' then (k, v) :: r else (k', v') :: dict_set eqb k v r
  end.

(** [Element.set(key, value)] and [Element.append(child)] *)
Definition elem_set (k v : str) (e : Element) : Element :=
  Elem (tag e) (dict_set str_eqb k v (attrib e)) (text e) (children e).

Definition elem_append (c : Element) (e : Element) : Element :=
  Elem (tag e) (attrib e) (text e) (children e ++ [c]).

(** The [field] element for one value [bit] of the field [key]. *)
Definition field_elem (key : str) (boost : option (list (str * value)))
  (fieldUpdates : option (list (str * str))) (bit : value) : Element :=
  let attrs := [(L "name", key)] in
  let attrs :=
    match fieldUpdates with
    | Some m => match assoc key m with
                | Some u => attrs ++ [(L "update", u)]
                | None => attrs
                end
    | None => attrs
    end in
  let attrs :=
    match boost with
    | Some m => match assoc key m with
                | Some b => attrs ++ [(L "boost", force_unicode b)]
                | None => attrs
                end
    | None => attrs
    end in
  Elem (L "field") attrs (Some (_from_python bit)) [].

(** A field maps to one value, or to a list or tuple of values. *)
Definition field_values (v : value) : list value :=
  match v with
  | PyList l | PyTuple l => l
  | _ => [v]
  end.

Definition _build_doc (doc : list (str * value)) (boost : option (list (str * value)))
  (fieldUpdates : option (list (str * str))) : Element :=
  fold_left
    (fun doc_elem kv =>
       let '(key, v) := kv in
       if str_eqb key (L "boost") then elem_set (L "boost") (force_unicode v) doc_elem
       else
         fold_left
           (fun doc_elem bit =>
              if _is_null_value bit then doc_elem
              else elem_append (field_elem key boost fieldUpdates bit) doc_elem)
           (field_values v) doc_elem)
    doc (Elem (L "doc") [] None []).

(** ** Error scraper *)

Definition is_parse_error (e : exn) : bool :=
  match e with ParseError | ExpatError => true | _ => false end.

(** [except (SyntaxError, ExpatError)]: ParseError is a SyntaxError. *)
Definition is_syntax_error (e : exn) : bool :=
  match e with ParseError | ExpatError | SyntaxError => true | _ => false end.

Definition nonempty (s : str) : bool := match s with [] => false | _ => true end.

Definition truthy_text (o : option str) : bool :=
  match o with Some s => nonempty s | None => false end.

Definition solr_msg_path : list step :=
  [ {| step_tag := L "lst"; step_attr := Some (L "name", L "error") |};
    {| step_tag := L "str"; step_attr := Some (L "name", L "msg") |} ].
Definition solr_trace_path : list step :=
  [ {| step_tag := L "lst"; step_attr := Some (L "name", L "error") |};
    {| step_tag := L "str"; step_attr := Some (L "name", L "trace") |} ].
Definition jetty_path : list step :=
  [ {| step_tag := L "body"; step_attr := None |};
    {| step_tag := L "pre"; step_attr := None |} ].
Definition title_path : list step :=
  [ {| step_tag := L "head"; step_attr := None |};
    {| step_tag := L "title"; step_attr := None |} ].

Inductive server_kind := Generic | Jetty | Tomcat.

Definition server_type (headers : list (str * str)) : server_kind :=
  let server_string := match assoc (L "server") headers with Some s => s | None => [] end in
  let t := if nonempty server_string && contains (L "jetty") (lower server_string)
           then Jetty else Generic in
  if nonempty server_string && contains (L "coyote") (lower server_string)
  then Tomcat else t.

(** [node.text.strip()]: AttributeError when the node has no text. *)
Definition text_strip (e : Element) : result str :=
  match text e with
  | Some t => Ok (strip t)
  | None => Raise AttributeError
  end.

(** The strict parse of a body that starts with an XML declaration.  It
    yields the values of [reason] and [full_html] after the block, and
    whether the function returns there. *)
Definition strict_xml (response : str) : result (bool * option str * str) :=
  match ET_fromstring response with
  | Raise e => if is_parse_error e then Ok (false, None, []) else Raise e
  | Ok soup =>
      let reason_node := find solr_msg_path soup in
      let tb_node := find solr_trace_path soup in
      bind match reason_node with
           | Some n => bind (text_strip n) (fun t => Ok (Some t, t))
           | None => Ok (None, [])
           end
           (fun '(reason, full_html) =>
      bind match tb_node with
           | Some n =>
               bind (text_strip n)
                    (fun t => Ok (match reason with None => Some t | _ => reason end, t))
           | None => Ok (reason, full_html)
           end
           (fun '(reason, full_html) =>
      Ok (truthy_text reason && nonempty full_html, reason, full_html)))
  end.

(** The last lines of [_scrape_response]. *)
Definition normalize_detail (full_html : value) : str :=
  strip (replace (L "<br />") []
           (replace (L "<br/>") []
              (replace [0x0D] []
                 (replace [0x0A] [] (force_unicode full_html))))).

(** [response.decode()] when the body has it (a byte string), then
    [response.startswith]: only text has it. *)
Definition decoded_body (response : value) : result str :=
  match response with
  | PyBytes b =>
      match decode_strict b with
      | Some s => Ok s
      | None => Raise UnicodeDecodeError
      end
  | PyStr s => Ok s
  | _ => Raise AttributeError
  end.

Definition _scrape_response (headers : list (str * str)) (response : value)
  : result (option str * str) :=
  let kind := server_type headers in
  bind (decoded_body response)
       (fun response =>
  bind (if startswith (L "<?xml") response
        then strict_xml response
        else Ok (false, None, []))
       (fun '(returns, reason, full_html) =>
  if returns then Ok (reason, full_html)
  else
    bind match kind with
         | Tomcat =>
             match Re.search true H1_REGEX response with
             | Some m => Ok (Re.group 2 (Re.groups m), PyStr full_html)
             | None => Ok (reason, PyStr response)
             end
         | _ =>
             match ET_fromstring response with
             | Ok dom_tree =>
                 let reason_node :=
                   find (match kind with Jetty => jetty_path | _ => title_path end)
                        dom_tree in
                 let reason :=
                   match reason_node with Some n => text n | None => reason end in
                 Ok (reason,
                     match reason with
                     | None => PyBytes (ET_tostring dom_tree)
                     | Some _ => PyStr full_html
                     end)
             | Raise e =>
                 if is_syntax_error e then Ok (reason, PyStr response) else Raise e
             end
         end
         (fun '(reason, full_html) => Ok (reason, normalize_detail full_html)))).

(** ** Request dispatcher *)

Record HTTPRequest := {
  req_url : str;
  req_method : str;
  req_headers : list (str * str);
  req_body : option value;
  request_timeout : N
}.

(** The client's configuration. *)
Record Solr := { url : str; timeout : N }.

(** The transport: what [AsyncHTTPClient.fetch] does with a request. *)
Variable fetch : HTTPRequest -> result HTTPResponse.

(** A call runs against the list of the requests issued so far. *)
Definition IO (A : Type) : Type := list HTTPRequest -> result A * list HTTPRequest.

Definition ret {A} (a : A) : IO A := fun t => (Ok a, t).
Definition raise {A} (e : exn) : IO A := fun t => (Raise e, t).
Definition lift {A} (r : result A) : IO A := fun t => (r, t).
Definition bindIO {A B} (m : IO A) (f : A -> IO B) : IO B :=
  fun t => match m t with
           | (Ok a, t') => f a t'
           | (Raise e, t') => (Raise e, t')
           end.
Definition issue (r : HTTPRequest) : IO HTTPResponse := fun t => (fetch r, t ++ [r]).

(** The outcome of a call started with no request issued, and the
    requests it issued. *)
Definition outcome {A} (m : IO A) : result A := fst (m []).
Definition requests {A} (m : IO A) : list HTTPRequest := snd (m []).

Definition _create_full_url (self : Solr) (path : str) : str :=
  match path with
  | [] => url self
  | _ => rstrip_by (N.eqb 0x2F) (url self) ++ L "/" ++ lstrip_by (N.eqb 0x2F) path
  end.

Definition _FETCH_VALUE_ERROR (u : str) := L "URL is empty or protocol missing: " ++ u.
Definition _FETCH_UNICODE_ERROR (u : str) := L "URL is too long: " ++ u.
Definition _FETCH_SOCKET_ERROR (u : str) := L "Socket error (DNS?) connecting to " ++ u.
Definition _FETCH_KEY_ERROR (m : str) := L "Unknown HTTP method " ++ [0x22] ++ m ++ [0x22].
Definition _FETCH_CONN_ERROR (u : str) := L "Connection error with " ++ u.

(** The [HTTPRequest] that [_send_request] prepares. *)
Definition prepared_request (self : Solr) (method path : str) (body : option value)
  (headers : list (str * str)) : HTTPRequest :=
  {| req_url := _create_full_url self path; req_method := upper method;
     req_headers := headers; req_body := option_map force_bytes body;
     request_timeout := timeout self |}.

Definition _send_request (self : Solr) (method path : str) (body : option value)
  (headers : list (str * str)) (files : option value) : IO str :=
  let url := _create_full_url self path in
  let request := prepared_request self method path body headers in
  let method := upper method in
  match files with
  | Some _ =>
      raise (NotImplementedError
               (L "The " ++ [0x22] ++ L "files" ++ [0x22]
                ++ L " parameter in _send_request() does not work in Tornado yet"))
  | None =>
      fun t =>
        match issue request t with
        | (Ok resp, t') => (Ok (force_unicode (PyBytes (resp_body resp))), t')
        | (Raise e, t') =>
            (match e with
             | UnicodeDecodeError | UnicodeEncodeError =>
                 Raise (SolrError (_FETCH_UNICODE_ERROR url))
             | ValueError _ => Raise (SolrError (_FETCH_VALUE_ERROR url))
             | GaiError => Raise (SolrError (_FETCH_SOCKET_ERROR url))
             | KeyError => Raise (SolrError (_FETCH_KEY_ERROR method))
             | ConnectionError => Raise (SolrError (_FETCH_CONN_ERROR url))
             | HTTPError status response =>
                 match response with
                 | Some r => Raise (SolrError (str_of_N status ++ L ": " ++ resp_reason r))
                 | None => Raise AttributeError
                 end
             | _ => Raise e
             end, t')
        end
  end.

(** ** Facade *)

(** [bool(value)] *)
Definition truthy (v : value) : bool :=
  match v with
  | PyNone => false
  | PyBool b => b
  | PyInt z => negb (z =? 0)%Z
  | PyFloat (S754_zero _) => false
  | PyFloat _ => true
  | PyStr s => nonempty s
  | PyBytes b => nonempty b
  | PyList l | PyTuple l => match l with [] => false | _ => true end
  | PyDatetime _ | PyDate _ => true
  end.

Definition is_none (v : value) : bool :=
  match v with PyNone => true | _ => false end.

(** [str(bool(value)).lower()] *)
Definition bool_text (v : value) : str := if truthy v then L "true" else L "false".

(** ['...%s...' % value]: a tuple is the argument list of the format. *)
Definition percent_s (v : value) : result str :=
  match v with
  | PyTuple [x] => Ok (py_str x)
  | PyTuple _ => Raise TypeError
  | _ => Ok (py_str v)
  end.

Fixpoint join (sep : str) (l : list str) : str :=
  match l with
  | [] => []
  | [x] => x
  | x :: r => x ++ sep ++ join sep r
  end.

Definition form_content_type : list (str * str) :=
  [(L "Content-type", L "application/x-www-form-urlencoded; charset=utf-8")].
Definition xml_content_type : list (str * str) :=
  [(L "Content-type", L "text/xml; charset=utf-8")].

Definition _select (self : Solr) (params : list (str * value)) : IO str :=
  let params := dict_set str_eqb (L "wt") (PyStr (L "json")) params in
  bindIO (lift (urlencode params true))
    (fun params_encoded =>
       if N.of_nat (length params_encoded) <? 1024
       then _send_request self (L "get") (L "select/?" ++ params_encoded) None [] None
       else _send_request self (L "post") (L "select/") (Some (PyStr params_encoded))
                          form_content_type None).

Definition _suggest_terms (self : Solr) (params : list (str * value)) : IO str :=
  let params := dict_set str_eqb (L "wt") (PyStr (L "json")) params in
  bindIO (lift (urlencode params true))
    (fun params_encoded =>
       _send_request self (L "get") (L "terms/?" ++ params_encoded) None [] None).

Definition _update (self : Solr) (message clean_ctrl_chars commit softCommit
                                  waitFlush waitSearcher : value) : IO str :=
  let query_vars :=
    (if negb (is_none commit) then [L "commit=" ++ bool_text commit]
     else if negb (is_none softCommit) then [L "softCommit=" ++ bool_text softCommit]
     else [])
    ++ (if negb (is_none waitFlush) then [L "waitFlush=" ++ bool_text waitFlush] else [])
    ++ (if negb (is_none waitSearcher) then [L "waitSearcher=" ++ bool_text waitSearcher]
        else []) in
  let path :=
    match query_vars with
    | [] => L "update/"
    | _ => L "update/" ++ L "?" ++ join (L "&") query_vars
    end in
  bindIO (if truthy clean_ctrl_chars
          then lift (bind (sanitize message) (fun m => Ok (PyStr m)))
          else ret message)
    (fun message => _send_request self (L "post") path (Some message) xml_content_type None).

Definition delete_neither : str :=
  L "You must specify " ++ [0x22] ++ L "id" ++ [0x22] ++ L " or " ++ [0x22] ++ L "q"
    ++ [0x22] ++ L ".".
Definition delete_both : str :=
  L "You many only specify " ++ [0x22] ++ L "id" ++ [0x22] ++ L " OR " ++ [0x22] ++ L "q"
    ++ [0x22] ++ L ", not both.".

(** [delete(id, q, commit, waitFlush, waitSearcher)]; an argument left out
    is [PyNone], but [commit], which defaults to [True]. *)
Definition delete (self : Solr) (id q commit waitFlush waitSearcher : value) : IO str :=
  if is_none id && is_none q then raise (ValueError delete_neither)
  else if negb (is_none id) && negb (is_none q) then raise (ValueError delete_both)
  else
    bindIO (lift (if negb (is_none id)
                  then bind (percent_s id)
                            (fun t => Ok (L "<delete><id>" ++ t ++ L "</id></delete>"))
                  else bind (percent_s q)
                            (fun t => Ok (L "<delete><query>" ++ t ++ L "</query></delete>"))))
      (fun m => _update self (PyStr m) (PyBool true) commit (PyBool false)
                        waitFlush waitSearcher).

(** *** Term suggestions *)

Definition float_int (f : spec_float) : option Z :=
  match f with
  | S754_zero _ => Some 0%Z
  | S754_finite s m e =>
      let v := if (0 <=? e)%Z then Some (Z.pos m * 2 ^ e)%Z
               else if (Z.pos m mod 2 ^ (- e) =? 0)%Z then Some (Z.pos m / 2 ^ (- e))%Z
               else None in
      option_map (fun z => if s then (- z)%Z else z) v
  | _ => None
  end.

Definition json_int (j : json) : option Z :=
  match j with
  | JBool b => Some (if b then 1 else 0)%Z
  | JInt z => Some z
  | JFloat f => float_int f
  | _ => None
  end.

(** [a == b] for two dictionary keys: numbers compare by value. *)
Definition key_eqb (a b : json) : bool :=
  match a, b with
  | JNull, JNull => true
  | JStr x, JStr y => str_eqb x y
  | JFloat x, JFloat y => SFeqb x y
  | _, _ =>
      match json_int a, json_int b with
      | Some x, Some y => (x =? y)%Z
      | _, _ => false
      end
  end.

Definition hashable (j : json) : bool :=
  match j with JList _ | JDict _ => false | _ => true end.

Definition json_truthy (j : json) : bool :=
  match j with
  | JNull => false
  | JBool b => b
  | JInt z => negb (z =? 0)%Z
  | JFloat (S754_zero _) => false
  | JFloat _ => true
  | JStr s => nonempty s
  | JList l => match l with [] => false | _ => true end
  | JDict d => match d with [] => false | _ => true end
  end.

(** [zip(terms[0::2], terms[1::2])] *)
Fixpoint zip_alternating (l : list json) : list (json * json) :=
  match l with
  | a :: b :: r => (a, b) :: zip_alternating r
  | _ => []
  end.

(** [dict(pairs)]: a list or a mapping cannot be a key. *)
Fixpoint dict_of_pairs (l : list (json * json)) (d : list (json * json))
  : result (list (json * json)) :=
  match l with
  | [] => Ok d
  | (k, v) :: r =>
      if hashable k then dict_of_pairs r (dict_set key_eqb k v d) else Raise TypeError
  end.

(** [while values: tmp.append((values.pop(0), values.pop(0)))] on a list. *)
Fixpoint pop_pairs (values : list json) : result (list (json * json)) :=
  match values with
  | [] => Ok []
  | [_] => Raise IndexError
  | a :: b :: r => bind (pop_pairs r) (fun t => Ok ((a, b) :: t))
  end.

(** The same loop on any decoded value: what is empty or false leaves it at
    once, only a list has [pop()] with an index, and a mapping (its keys are
    text) has no key 0 to pop. *)
Definition term_pairs (values : json) : result (list (json * json)) :=
  match values with
  | JList l => pop_pairs l
  | JDict (_ :: _) => Raise KeyError
  | _ => if json_truthy values then Raise AttributeError else Ok []
  end.

Fixpoint collect_terms (terms : list (json * json)) (res : list (json * list (json * json)))
  : result (list (json * list (json * json))) :=
  match terms with
  | [] => Ok res
  | (field, values) :: r =>
      bind (term_pairs values)
           (fun tmp => collect_terms r (dict_set key_eqb field tmp res))
  end.

(** [suggest_terms] from the decoded response on. *)
Definition normalize_terms (decoded : json) : result (list (json * list (json * json))) :=
  bind match decoded with
       | JDict d => Ok (match assoc (L "terms") d with Some t => t | None => JDict [] end)
       | _ => Raise AttributeError
       end
       (fun terms =>
  bind match terms with
       | JList l => dict_of_pairs (zip_alternating l) []
       | JDict d => Ok (map (fun kv => (JStr (fst kv), snd kv)) d)
       | _ => Raise AttributeError
       end
       (fun terms => collect_terms terms [])).

Definition suggest_terms (self : Solr) (fields prefix : value) (kwargs : list (str * value))
  : IO (list (json * list (json * json))) :=
  let params :=
    fold_left (fun d kv => dict_set str_eqb (fst kv) (snd kv) d) kwargs
              [(L "terms.fl", fields); (L "terms.prefix", prefix)] in
  bindIO (_suggest_terms self params)
    (fun response => lift (bind (json_decode response) normalize_terms)).

End Client.

(** * Notions used in the statements *)

(** The control characters the sanitizer removes, as the specification
    lists them: 0x00-0x08, 0x0B-0x0C, 0x0E-0x1F. *)
Definition removed_control (c : N) : bool :=
  (c <=? 0x08) || (c =? 0x0B) || (c =? 0x0C) || ((0x0E <=? c) && (c <=? 0x1F)).

Definition kept (c : N) : bool := negb (removed_control c).

(** Text with each surrogate code point spelled as its escape. *)
Definition escape_surrogates (s : str) : str :=
  flat_map (fun c => if is_surrogate c then backslash_escape c else [c]) s.

Definition encode_one (c : N) : bytes :=
  if is_surrogate c then backslash_escape c else utf8_char c.

(** Decimal notation by position. *)
Definition digit_value (v : N) : bool := v <=? 9.

Definition uint_of_values (l : list N) : Decimal.uint := fold_right value_cons Decimal.Nil l.

Definition positional (l : list N) : N := fold_left (fun a v => 10 * a + v) l 0.

Fixpoint uint_value (u : Decimal.uint) (acc : N) : N :=
  match u with
  | Decimal.Nil => acc
  | Decimal.D0 r => uint_value r (0 + 10 * acc)
  | Decimal.D1 r => uint_value r (1 + 10 * acc)
  | Decimal.D2 r => uint_value r (2 + 10 * acc)
  | Decimal.D3 r => uint_value r (3 + 10 * acc)
  | Decimal.D4 r => uint_value r (4 + 10 * acc)
  | Decimal.D5 r => uint_value r (5 + 10 * acc)
  | Decimal.D6 r => uint_value r (6 + 10 * acc)
  | Decimal.D7 r => uint_value r (7 + 10 * acc)
  | Decimal.D8 r => uint_value r (8 + 10 * acc)
  | Decimal.D9 r => uint_value r (9 + 10 * acc)
  end.

Definition two_values (n : N) : list N := [n / 10; n mod 10].
Definition four_values (n : N) : list N :=
  [n / 1000; n / 100 mod 10; n / 10 mod 10; n mod 10].
Definition six_values (n : N) : list N :=
  [n / 100000; n / 10000 mod 10; n / 1000 mod 10; n / 100 mod 10; n / 10 mod 10; n mod 10].

Definition as_digits (l : list N) : str := map (N.add 0x30) l.

(** The texts the specification names: YYYY-MM-DD and YYYY-MM-DDThh:mm:ss. *)
Definition iso_date (d : date) : str :=
  as_digits (four_values (year d)) ++ L "-" ++ as_digits (two_values (month d))
  ++ L "-" ++ as_digits (two_values (day d)).

Definition iso_seconds (d : datetime) : str :=
  iso_date (dt_date d) ++ L "T" ++ as_digits (two_values (hour d)) ++ L ":"
  ++ as_digits (two_values (minute d)) ++ L ":" ++ as_digits (two_values (second d)).

(** The fraction that [isoformat] writes. *)
Definition fraction (d : datetime) : str :=
  if microsecond d =? 0 then [] else L "." ++ as_digits (six_values (microsecond d)).

(** The printable ASCII characters. *)
Definition plain (c : N) : bool := (0x20 <=? c) && (c <=? 0x7E).

(** A date-time cut to whole seconds. *)
Definition whole_seconds (d : datetime) : datetime :=
  {| dt_date := dt_date d; hour := hour d; minute := minute d; second := second d;
     microsecond := 0; utcoffset := utcoffset d |}.


(** The characters of the [repr] of a finite float: digits, the point,
    the exponent mark and the signs. *)
Definition float_char (c : N) : bool :=
  is_digit c || (c =? 0x2E) || (c =? 0x65) || (c =? 0x2B) || (c =? 0x2D).

(** A float that is a number: a zero or a finite value. *)
Definition finite_float (f : spec_float) : bool :=
  match f with
  | S754_zero _ | S754_finite _ _ _ => true
  | _ => false
  end.



(** The text of a date pattern match, and its six named groups. *)
Definition dt_text (y1 y2 y3 y4 m1 m2 d1 d2 h1 h2 i1 i2 s1 s2 : N) (frac : str) : str :=
  [y1;y2;y3;y4;0x2D;m1;m2;0x2D;d1;d2;0x54;h1;h2;0x3A;i1;i2;0x3A;s1;s2] ++ frac ++ [0x5A].

Definition dt_groups (st : Re.state) : list (option str) :=
  map (fun n => Re.group n (Re.groups st)) [1;2;3;4;5;6]%nat.


Definition not_null (v : value) : bool := negb (_is_null_value v).

(** The [field] elements one entry of a document contributes. *)
Definition entry_fields {lib : Libraries} (boost : option (list (str * value)))
  (fieldUpdates : option (list (str * str))) (kv : str * value) : list Element :=
  if str_eqb (fst kv) (L "boost") then []
  else map (field_elem (fst kv) boost fieldUpdates) (filter not_null (field_values (snd kv))).

(** What the scraper finds nothing in: the XML parser rejects the body
    wherever the scraper calls it (for a body that starts with an XML
    declaration, and for a server other than Tomcat), and a Tomcat body
    has no heading. *)
Definition unrecognized {lib : Libraries} (headers : list (str * str)) (body : str) : Prop :=
  (startswith (L "<?xml") body = true -> exists e, ET_fromstring body = Raise e)
  /\ match server_type headers with
     | Tomcat => Re.search true H1_REGEX body = None
     | _ => exists e, ET_fromstring body = Raise e
     end.

(** The detail as the specification words it: the text without its line
    feeds and carriage returns, then without [<br/>], then without
    [<br />], and without the white space around what is left. *)
Definition one_line (s : str) : str :=
  strip (replace (L "<br />") []
           (replace (L "<br/>") []
              (filter (fun c => negb (c =? 0x0A) && negb (c =? 0x0D)) s))).

(** The Solr error nodes of a parsed body carry text. *)
Definition error_nodes_have_text (soup : Element) : Prop :=
  (forall n, find solr_msg_path soup = Some n -> text n <> None)
  /\ (forall n, find solr_trace_path soup = Some n -> text n <> None).



(** Text of ASCII characters, on which [lower] and [upper] are Python's
    [str.lower] and [str.upper]. *)
Definition is_ascii (c : N) : bool := c <? 0x80.

(** ** Sample libraries and transports

    Instances on which the model runs on concrete inputs: a library that
    knows one query string, the parse trees of a few bodies and the literal
    [0.0], and rejects everything else. *)
Definition sample_libraries (query : str) (documents : list (str * Element)) : Libraries :=
  {| float_repr := fun _ _ _ => [];
     repr := fun _ => [];
     literal_eval_other := fun s => if str_eqb s (L "0.0")
                                    then Ok (Some (PyFloat (S754_zero false)))
                                    else Ok None;
     ET_fromstring := fun s => match assoc s documents with
                               | Some e => Ok e
                               | None => Raise ParseError
                               end;
     ET_tostring := fun _ => [];
     urlencode := fun _ _ => Ok query;
     json_decode := fun _ => Raise (ValueError []) |}.

Definition no_libraries : Libraries := sample_libraries [] [].

Definition sample_solr : Solr := {| url := L "http://localhost:8983/solr/"; timeout := 60 |}.

Definition tomcat_500 : HTTPResponse :=
  {| resp_code := 500; resp_reason := L "Internal Server Error";
     resp_headers := [(L "server", L "Apache-Coyote/1.1")];
     resp_body := L "boom" |}.

Definition failing_transport (r : HTTPResponse) : HTTPRequest -> result HTTPResponse :=
  fun _ => Raise (HTTPError (resp_code r) (Some r)).

Definition tomcat_headers : list (str * str) := [(L "server", L "Apache-Coyote/1.1")].
Definition jetty_headers : list (str * str) := [(L "server", L "Jetty(9.4.z)")].

(** The two bodies of the specification's examples, and a Solr answer
    whose message node is empty, with the tree of each as ElementTree
    builds it. *)
Definition example_tomcat_body : str :=
  L "<html><body><h1>404</h1><h1>Not Found</h1></body></html>".

Definition example_jetty_body : str :=
  L "<html><body><pre>Problem accessing /solr/select. Reason: bad request</pre></body></html>".

Definition example_jetty_tree : Element :=
  Elem (L "html") [] None
    [Elem (L "body") [] None
       [Elem (L "pre") [] (Some (L "Problem accessing /solr/select. Reason: bad request")) []]].

Definition empty_msg_body : str :=
  L "<?xml version='1.0'?><response><lst name='error'><str name='msg'/></lst></response>".

Definition empty_msg_tree : Element :=
  Elem (L "response") [] None
    [Elem (L "lst") [(L "name", L "error")] None
       [Elem (L "str") [(L "name", L "msg")] None []]].

Definition example_documents : list (str * Element) :=
  [(example_jetty_body, example_jetty_tree); (empty_msg_body, empty_msg_tree)].

Definition aware_datetime : datetime :=
  {| dt_date := {| year := 2020; month := 1; day := 2 |};
     hour := 3; minute := 4; second := 5; microsecond := 0; utcoffset := Some 0%Z |}.

Definition sample_datetime : datetime :=
  {| dt_date := {| year := 2020; month := 1; day := 2 |};
     hour := 3; minute := 4; second := 5; microsecond := 123; utcoffset := None |}.

Definition long_query : str := L "q=" ++ repeat 0x61 1100.

Definition terms_flat : json :=
  JDict [(L "terms", JList [JStr (L "color");
                            JList [JStr (L "red"); JInt 5; JStr (L "blue"); JInt 3]])].

Definition terms_mapping : json :=
  JDict [(L "terms", JDict [(L "color",
                             JList [JStr (L "red"); JInt 5; JStr (L "blue"); JInt 3])])].

Definition terms_normalized : list (json * list (json * json)) :=
  [(JStr (L "color"), [(JStr (L "red"), JInt 5); (JStr (L "blue"), JInt 3)])].

(** * The other operations of the facade

    The dispatcher of [more_like_this], the two commands that take no
    documents, [add], and [search] and [more_like_this] with the [Results]
    they build from the decoded answer. *)

Section Operations.
Context {lib : Libraries}.
Variable fetch : HTTPRequest -> result HTTPResponse.

Definition _mlt (self : Solr) (params : list (str * value)) : IO str :=
  let params := dict_set str_eqb (L "wt") (PyStr (L "json")) params in
  bindIO (lift (urlencode params true))
    (fun params_encoded =>
       _send_request fetch self (L "get") (L "mlt/?" ++ params_encoded) None [] None).

(** [commit(softCommit, waitFlush, waitSearcher, expungeDeletes)]: the call
    of [_update] names [softCommit] and leaves [commit] at its default,
    [True]. *)
Definition commit (self : Solr) (softCommit waitFlush waitSearcher expungeDeletes : value)
  : IO str :=
  let msg :=
    if negb (is_none expungeDeletes)
    then L "<commit expungeDeletes=" ++ [0x22] ++ bool_text expungeDeletes ++ [0x22] ++ L " />"
    else L "<commit />" in
  _update fetch self (PyStr msg) (PyBool true) (PyBool true) softCommit waitFlush waitSearcher.

(** [optimize(waitFlush, waitSearcher, maxSegments)], for [maxSegments] an
    integer or [None] (['%d'] formats an integer in decimal). *)
Definition optimize (self : Solr) (waitFlush waitSearcher : value) (maxSegments : option Z)
  : IO str :=
  let msg :=
    match maxSegments with
    | Some n =>
        if negb (n =? 0)%Z
        then L "<optimize maxSegments=" ++ [0x22] ++ str_of_Z n ++ [0x22] ++ L " />"
        else L "<optimize />"
    | None => L "<optimize />"
    end in
  _update fetch self (PyStr msg) (PyBool true) (PyBool true) (PyBool false)
          waitFlush waitSearcher.

(** [ET.tostring(message, encoding='utf-8')], the serializer as [add] calls
    it, is the library's. *)
Variable ET_tostring_utf8 : Element -> bytes.

(** [add(docs, boost, fieldUpdates, commit, softCommit, commitWithin,
    waitFlush, waitSearcher)], for [commitWithin] a text or [None]. *)
Definition add (self : Solr) (docs : list (list (str * value)))
  (boost : option (list (str * value))) (fieldUpdates : option (list (str * str)))
  (commit softCommit : value) (commitWithin : option str) (waitFlush waitSearcher : value)
  : IO str :=
  let commit := if is_none commit then PyBool true else commit in
  let softCommit := if is_none softCommit then PyBool false else softCommit in
  let message := Elem (L "add") [] None [] in
  let message :=
    match commitWithin with
    | Some (c :: r) => elem_set (L "commitWithin") (c :: r) message
    | _ => message
    end in
  let message :=
    fold_left (fun message doc => elem_append (_build_doc doc boost fieldUpdates) message)
              docs message in
  let m := force_unicode (PyBytes (ET_tostring_utf8 message)) in
  _update fetch self (PyStr m) (PyBool true) commit softCommit waitFlush waitSearcher.

(** ** Results *)

(** [mapping.get(key, default)]: only a mapping has [get]. *)
Definition json_get (key : str) (default : json) (j : json) : result json :=
  match j with
  | JDict d => Ok (match assoc key d with Some v => v | None => default end)
  | _ => Raise AttributeError
  end.

(** [int(x)] on a decoded value: an integer is itself, a boolean 0 or 1,
    [None] and the containers are rejected; what [int] makes of a float or
    of a text is Python's. *)
Variable int_other : json -> result Z.

Definition py_int (j : json) : result Z :=
  match j with
  | JInt z => Ok z
  | JBool b => Ok (if b then 1 else 0)%Z
  | JNull | JList _ | JDict _ => Raise TypeError
  | JFloat _ | JStr _ => int_other j
  end.

(** The attributes of a [Results] object; [docs] is [None] for the default
    of the source, the empty tuple. *)
Record Results := {
  docs : option json;
  hits : Z;
  debug : json;
  highlighting : json;
  facets : json;
  spellcheck : json;
  stats : json;
  qtime : json;
  grouped : json;
  nextCursorMark : json
}.

(** [x or {}] *)
Definition or_empty (j : json) : json := if json_truthy j then j else JDict [].

(** [Results.__init__(decoded)] *)
Definition Results_init (decoded : json) : result Results :=
  (response <- json_get (L "response") JNull decoded ;;
   let response_part := or_empty response in
   docs <- match response_part with
           | JDict d => Ok (assoc (L "docs") d)
           | _ => Raise AttributeError
           end ;;
   numFound <- json_get (L "numFound") (JInt 0) response_part ;;
   hits <- py_int numFound ;;
   debug <- json_get (L "debug") (JDict []) decoded ;;
   highlighting <- json_get (L "highlighting") (JDict []) decoded ;;
   facets <- json_get (L "facet_counts") (JDict []) decoded ;;
   spellcheck <- json_get (L "spellcheck") (JDict []) decoded ;;
   stats <- json_get (L "stats") (JDict []) decoded ;;
   responseHeader <- json_get (L "responseHeader") (JDict []) decoded ;;
   qtime <- json_get (L "QTime") JNull responseHeader ;;
   grouped <- json_get (L "grouped") (JDict []) decoded ;;
   nextCursorMark <- json_get (L "nextCursorMark") JNull decoded ;;
   Ok {| docs := docs; hits := hits; debug := debug; highlighting := highlighting;
         facets := facets; spellcheck := spellcheck; stats := stats; qtime := qtime;
         grouped := grouped; nextCursorMark := nextCursorMark |})%py.

(** [Results.__bool__] and [Results.__len__] *)
Definition Results_bool (r : Results) : bool := (0 <? hits r)%Z.

Definition Results_len (r : Results) : result nat :=
  match docs r with
  | None => Ok O
  | Some (JList l) => Ok (length l)
  | Some (JStr s) => Ok (length s)
  | Some (JDict d) => Ok (length d)
  | Some _ => Raise TypeError
  end.

(** The argument of the log line of [search] and [more_like_this]:
    [(decoded.get('response', {}) or {}).get('numFound', 0)]. *)
Definition found_for_log (decoded : json) : result json :=
  (response <- json_get (L "response") (JDict []) decoded ;;
   json_get (L "numFound") (JInt 0) (or_empty response))%py.

(** [params.update(kwargs)] *)
Definition dict_update {A} (kwargs : list (str * A)) (params : list (str * A))
  : list (str * A) :=
  fold_left (fun d kv => dict_set str_eqb (fst kv) (snd kv) d) kwargs params.

(** The lines that [search] and [more_like_this] share after the answer:
    [self.decoder.decode(response)], the log line, and
    [self.results_cls(decoded)] for the default class, [Results]. *)
Definition decode_results (response : str) : result Results :=
  (decoded <- json_decode response ;;
   _ <- found_for_log decoded ;;
   Results_init decoded)%py.

Definition search (self : Solr) (q : value) (kwargs : list (str * value)) : IO Results :=
  let params := dict_update kwargs [(L "q", q)] in
  bindIO (_select fetch self params) (fun response => lift (decode_results response)).

Definition more_like_this (self : Solr) (q mltfl : value) (kwargs : list (str * value))
  : IO Results :=
  let params := dict_update kwargs [(L "q", q); (L "mlt.fl", mltfl)] in
  bindIO (_mlt self params) (fun response => lift (decode_results response)).

End Operations.

(** ** Further notions and samples *)

(** A Unicode scalar value: a code point that is no surrogate. *)
Definition scalar (c : N) : bool := is_code_point c && negb (is_surrogate c).

(** The exceptions of the transport that [_send_request] turns into a
    [SolrError] of its own wording. *)
Definition transport_failure (e : exn) : bool :=
  match e with
  | UnicodeDecodeError | UnicodeEncodeError | ValueError _ | GaiError | KeyError
  | ConnectionError => true
  | _ => false
  end.

Definition get_request (self : Solr) (path : str) : HTTPRequest :=
  {| req_url := _create_full_url self path; req_method := L "GET"; req_headers := [];
     req_body := None; request_timeout := timeout self |}.

(** Two parameter lists that are equal but for the value at the first
    entry for [key]. *)
Fixpoint same_but (key : str) {A} (d d' : list (str * A)) : Prop :=
  match d, d' with
  | [], [] => True
  | (a, x) :: r, (b, y) :: r' =>
      a = b /\ if str_eqb key a then r = r' else x = y /\ same_but key r r'
  | _, _ => False
  end.

(** The query string after the commit flag, and the POST of [_update]. *)
Definition wait_vars (waitFlush waitSearcher : value) : str :=
  (if is_none waitFlush then [] else L "&waitFlush=" ++ bool_text waitFlush)
  ++ (if is_none waitSearcher then [] else L "&waitSearcher=" ++ bool_text waitSearcher).

Definition update_request (self : Solr) (query : str) (body : bytes) : HTTPRequest :=
  {| req_url := _create_full_url self (L "update/?" ++ query); req_method := L "POST";
     req_headers := xml_content_type; req_body := Some (PyBytes body);
     request_timeout := timeout self |}.

(** The commit flag of a [delete]: [commit] unless it is [None], when the
    default of [softCommit] shows. *)
Definition delete_flag (commit : value) : str :=
  if is_none commit then L "softCommit=false" else L "commit=" ++ bool_text commit.

(** The [add] element for the documents. *)
Definition add_message {lib : Libraries} (docs : list (list (str * value)))
  (boost : option (list (str * value))) (fieldUpdates : option (list (str * str)))
  (commitWithin : option str) : Element :=
  Elem (L "add")
       match commitWithin with
       | Some (c :: r) => [(L "commitWithin", c :: r)]
       | _ => []
       end
       None (map (fun doc => _build_doc doc boost fieldUpdates) docs).

(** [int(text)] for a text of ASCII digits. *)
Definition digits_value (ds : str) : N := positional (map (fun c => c - 0x30) ds).

(** The decoded [terms] of the newer protocol: each field with its flat
    list of terms and counts. *)
Definition terms_of (d : list (str * list json)) : json :=
  JDict (map (fun kv => (fst kv, JList (snd kv))) d).

Definition paired (d : list (str * list json)) : list (json * list (json * json)) :=
  map (fun kv => (JStr (fst kv), zip_alternating (snd kv))) d.

(** An answer of Solr itself to a bad query, and its tree. *)
Definition solr_error_body : str :=
  L "<?xml version='1.0'?><response><lst name='error'><str name='msg'> undefined field x </str><int name='code'>400</int></lst></response>".

Definition solr_error_tree : Element :=
  Elem (L "response") [] None
    [Elem (L "lst") [(L "name", L "error")] None
       [Elem (L "str") [(L "name", L "msg")] (Some (L " undefined field x ")) [];
        Elem (L "int") [(L "name", L "code")] (Some (L "400")) []]].

(** The message of the [SolrError] for an HTTP error. *)
Definition http_error_message (status : N) (response : HTTPResponse) : str :=
  str_of_N status ++ L ": " ++ resp_reason response.

(** The first instant of a day. *)
Definition midnight (d : date) : datetime :=
  {| dt_date := d; hour := 0; minute := 0; second := 0; microsecond := 0;
     utcoffset := None |}.

(** A library that encodes every query as [query] and decodes every answer
    as [decoded], and a server that answers every request with the same
    response. *)
Definition answering_libraries (query : str) (decoded : json) : Libraries :=
  {| float_repr := fun _ _ _ => [];
     repr := fun _ => [];
     literal_eval_other := fun _ => Ok None;
     ET_fromstring := fun _ => Raise ParseError;
     ET_tostring := fun _ => [];
     urlencode := fun _ _ => Ok query;
     json_decode := fun _ => Ok decoded |}.

Definition answering_transport (r : HTTPResponse) : HTTPRequest -> result HTTPResponse :=
  fun _ => Ok r.

Definition found_two : json :=
  JDict [(L "responseHeader", JDict [(L "QTime", JInt 3)]);
         (L "response",
          JDict [(L "numFound", JInt 7);
                 (L "docs", JList [JDict [(L "id", JInt 1)]; JDict [(L "id", JInt 2)]])])].

(** ** More sample libraries

    A parser that refuses a text with a surrogate code point, as expat does
    (the text is encoded to UTF-8 before it is parsed); and a library whose
    float text is the decimal mantissa and the binary exponent, which its
    literal evaluation reads back. *)
Definition encoding_libraries (documents : list (str * Element)) : Libraries :=
  {| float_repr := fun _ _ _ => [];
     repr := fun _ => [];
     literal_eval_other := fun _ => Ok None;
     ET_fromstring := fun s => if existsb is_surrogate s then Raise UnicodeEncodeError
                               else match assoc s documents with
                                    | Some e => Ok e
                                    | None => Raise ParseError
                                    end;
     ET_tostring := fun _ => [];
     urlencode := fun _ _ => Ok [];
     json_decode := fun _ => Raise (ValueError []) |}.






Definition short_query : str := L "q=a&wt=json".

(** * Proofs *)

(** ** Tactics *)

(** Name the quotients and remainders, so that [lia] sees natural numbers. *)
Ltac name_divmod :=
  repeat match goal with
  | |- context [?a / ?b] => let q := fresh "q" in set (q := a / b) in *; clearbody q
  | |- context [?a mod ?b] => let q := fresh "m" in set (q := a mod b) in *; clearbody q
  | H : context [?a / ?b] |- _ => let q := fresh "q" in set (q := a / b) in *; clearbody q
  | H : context [?a mod ?b] |- _ => let q := fresh "m" in set (q := a mod b) in *; clearbody q
  end.

(** Settle the comparisons of the goal that the hypotheses decide. *)
Ltac decide_cmp :=
  repeat (match goal with
  | |- context [?a <? ?b] =>
      first [ replace (a <? b) with true by (symmetry; apply N.ltb_lt; lia)
            | replace (a <? b) with false by (symmetry; apply N.ltb_ge; lia) ]
  | |- context [?a <=? ?b] =>
      first [ replace (a <=? b) with true by (symmetry; apply N.leb_le; lia)
            | replace (a <=? b) with false by (symmetry; apply N.leb_gt; lia) ]
  | |- context [?a =? ?b] =>
      first [ replace (a =? b) with true by (symmetry; apply N.eqb_eq; lia)
            | replace (a =? b) with false by (symmetry; apply N.eqb_neq; lia) ]
  end; cbn [negb andb orb]).

(** The ten digit values, one by one. *)
Ltac ten_cases v :=
  destruct v as [|v]; [try reflexivity|];
  do 4 (try (destruct v as [v|v|]; try reflexivity)); try (exfalso; lia).

(** ** Lists and text *)

Lemma filter_filter {A} (p q : A -> bool) (l : list A) :
  filter q (filter p l) = filter (fun x => p x && q x) l.
Proof.
  induction l as [|x l IH]; [reflexivity|]. cbn [filter].
  destruct (p x); cbn [filter andb]; [destruct (q x)|]; rewrite IH; reflexivity.
Qed.

Lemma filter_all {A} (p : A -> bool) (l : list A) :
  (forall x, In x l -> p x = true) -> filter p l = l.
Proof.
  induction l as [|x l IH]; intro H; [reflexivity|]. cbn [filter].
  rewrite (H x (or_introl eq_refl)), IH; [reflexivity|].
  intros y Hy. apply H. right. exact Hy.
Qed.

Lemma str_eqb_refl (s : str) : str_eqb s s = true.
Proof. induction s as [|c s IH]; [reflexivity|]. cbn [str_eqb]. rewrite N.eqb_refl. exact IH. Qed.

Lemma str_eqb_eq (a b : str) : str_eqb a b = true -> a = b.
Proof.
  revert b. induction a as [|x a IH]; intros [|y b] H; try discriminate; [reflexivity|].
  cbn [str_eqb] in H. apply andb_prop in H as [Hx Ha]. apply N.eqb_eq in Hx.
  f_equal; [exact Hx | apply IH, Ha].
Qed.

Lemma replace_single (b : N) (s : list N) :
  replace [b] [] s = filter (fun c => negb (c =? b)) s.
Proof.
  unfold replace. induction s as [|c s IH]; [reflexivity|].
  cbn [replace_from startswith length Nat.sub app filter].
  rewrite andb_true_r, N.eqb_sym.
  destruct (c =? b); cbn [negb]; rewrite IH; reflexivity.
Qed.

Lemma replace_all_singles (bs : list N) (s : list N) :
  fold_left (fun acc r => replace (fst r) (snd r) acc) (map (fun b => ([b], [])) bs) s
  = filter (fun c => negb (existsb (N.eqb c) bs)) s.
Proof.
  revert s. induction bs as [|b bs IH]; intro s.
  - cbn [map fold_left existsb negb]. symmetry. apply filter_all. reflexivity.
  - cbn [map fold_left fst snd]. rewrite IH, replace_single, filter_filter.
    apply filter_ext. intro c. cbn [existsb]. rewrite negb_orb. reflexivity.
Qed.

Lemma lstrip_by_repeat (p : N -> bool) (c : N) (n : nat) (s : str) :
  p c = true -> lstrip_by p (repeat c n ++ s) = lstrip_by p s.
Proof.
  intro H. induction n as [|n IH]; [reflexivity|]. cbn [repeat app lstrip_by].
  rewrite H. exact IH.
Qed.

Lemma lstrip_by_head (p : N -> bool) (s : str) :
  p (hd 0 s) = false -> lstrip_by p s = s.
Proof. destruct s as [|c s]; [reflexivity|]. cbn [hd lstrip_by]. intros ->. reflexivity. Qed.

Lemma rev_repeat_same (c : N) (n : nat) : rev (repeat c n) = repeat c n.
Proof.
  induction n as [|n IH]; [reflexivity|]. cbn [repeat rev]. rewrite IH.
  symmetry. apply repeat_cons.
Qed.

Lemma rstrip_by_repeat (p : N -> bool) (c : N) (n : nat) (s : str) :
  p c = true -> rstrip_by p (s ++ repeat c n) = rstrip_by p s.
Proof.
  intro H. unfold rstrip_by. rewrite rev_app_distr, rev_repeat_same, lstrip_by_repeat by exact H.
  reflexivity.
Qed.

Lemma rstrip_by_last (p : N -> bool) (s : str) :
  p (last s 0) = false -> rstrip_by p s = s.
Proof.
  intro H. unfold rstrip_by. destruct s as [|c s] using rev_ind; [reflexivity|].
  rewrite last_last in H. rewrite rev_app_distr. cbn [rev app lstrip_by]. rewrite H.
  cbn [rev]. rewrite rev_involutive. reflexivity.
Qed.

(** ** UTF-8: decoding what was encoded *)

Lemma utf8_decode_char (c : N) (r : bytes) :
  is_code_point c = true -> is_surrogate c = false ->
  utf8_decode (utf8_char c ++ r) = Some c :: utf8_decode r.
Proof.
  unfold is_code_point, is_surrogate, utf8_char. intros Hc Hs.
  apply N.leb_le in Hc.
  assert (Hs' : c < 0xD800 \/ 0xDFFF < c).
  { destruct (N.leb_spec 0xD800 c), (N.leb_spec c 0xDFFF); simpl in Hs;
      try discriminate; lia. }
  clear Hs.
  pose proof (N.div_mod c 64 ltac:(lia)). pose proof (N.mod_lt c 64 ltac:(lia)).
  pose proof (N.div_mod (c / 64) 64 ltac:(lia)).
  pose proof (N.mod_lt (c / 64) 64 ltac:(lia)).
  pose proof (N.div_mod (c / 64 / 64) 64 ltac:(lia)).
  pose proof (N.mod_lt (c / 64 / 64) 64 ltac:(lia)).
  assert (E : c / 4096 = c / 64 / 64) by (rewrite N.Div0.div_div; reflexivity).
  assert (E2 : c / 262144 = c / 64 / 64 / 64) by (rewrite !N.Div0.div_div; reflexivity).
  rewrite E, E2. clear E E2.
  destruct (N.ltb_spec c 0x80);
    [|destruct (N.ltb_spec c 0x800); [|destruct (N.ltb_spec c 0x10000)]];
    cbn [app utf8_decode]; unfold is_continuation; name_divmod; decide_cmp;
    try (match goal with |- context [?a <? ?b] => destruct (N.ltb_spec a b) end;
         decide_cmp);
    do 2 f_equal; lia.
Qed.

Lemma utf8_decode_ascii (l : list N) (r : bytes) :
  (forall x, In x l -> x < 0x80) ->
  utf8_decode (l ++ r) = map Some l ++ utf8_decode r.
Proof.
  induction l as [|a l IH]; intro H; [reflexivity|].
  cbn [app map utf8_decode].
  assert (Ha : (a <? 0x80) = true) by (apply N.ltb_lt; apply H; left; reflexivity).
  rewrite Ha, IH; [reflexivity|]. intros x Hx. apply H. right. exact Hx.
Qed.

Lemma hex_digit_range (d : N) : d < 16 -> 0x30 <= hex_digit d < 0x80.
Proof. unfold hex_digit. intro H. destruct (N.ltb_spec d 10); lia. Qed.

Lemma escape_chars (c x : N) : In x (backslash_escape c) -> 0x30 <= x < 0x80.
Proof.
  unfold backslash_escape. cbn [In].
  pose proof (fun a => hex_digit_range (a mod 16) (N.mod_lt a 16 ltac:(lia))) as Hh.
  intros [E|[E|[E|[E|[E|[E|[]]]]]]]; subst x; try apply Hh; lia.
Qed.

Lemma utf8_char_bytes (c x : N) : 0x80 <= c -> In x (utf8_char c) -> 0x80 <= x.
Proof.
  unfold utf8_char. intros Hc.
  repeat match goal with |- context [?a <? ?b] => destruct (N.ltb_spec a b) end;
    cbn [In]; intuition (subst; name_divmod; lia).
Qed.

Lemma decode_encode (s : str) :
  well_formed_str s ->
  decode_replace (encode_backslashreplace s) = escape_surrogates s.
Proof.
  unfold well_formed_str, decode_replace, encode_backslashreplace, escape_surrogates.
  induction s as [|c s IH]; [reflexivity|].
  cbn [forallb flat_map]. intro H. apply andb_prop in H as [Hc Hs].
  destruct (is_surrogate c) eqn:E.
  - rewrite utf8_decode_ascii.
    + rewrite map_app, map_map, map_id, IH; [reflexivity | assumption].
    + intros x Hx. apply escape_chars in Hx. lia.
  - rewrite utf8_decode_char by assumption. cbn [map app]. rewrite IH by assumption.
    reflexivity.
Qed.

Lemma encode_ascii (s : str) :
  forallb plain s = true -> encode_backslashreplace s = s.
Proof.
  unfold encode_backslashreplace. induction s as [|c s IH]; [reflexivity|].
  cbn [forallb flat_map]. intro H. apply andb_prop in H as [Hc Hs]. rewrite (IH Hs).
  unfold plain in Hc. apply andb_prop in Hc as [H1 H2]. apply N.leb_le in H1, H2.
  unfold is_surrogate, utf8_char. decide_cmp. reflexivity.
Qed.

(** ** The sanitizer as a filter *)

Lemma kept_above (b : N) : 0x20 <= b -> kept b = true.
Proof. unfold kept, removed_control. intro H. decide_cmp. reflexivity. Qed.

Lemma filter_encode_one (c : N) :
  filter kept (encode_one c) = if kept c then encode_one c else [].
Proof.
  unfold encode_one. destruct (is_surrogate c) eqn:Hs.
  - assert (kept c = true) as ->.
    { apply kept_above. unfold is_surrogate in Hs. apply andb_prop in Hs as [H _].
      apply N.leb_le in H. lia. }
    apply filter_all. intros x Hx. apply kept_above. apply escape_chars in Hx. lia.
  - destruct (N.ltb_spec c 0x80) as [H|H].
    + unfold utf8_char. apply N.ltb_lt in H. rewrite H. cbn [filter].
      destruct (kept c); reflexivity.
    + assert (kept c = true) as -> by (apply kept_above; lia).
      apply filter_all. intros x Hx. apply kept_above.
      pose proof (utf8_char_bytes c x H Hx). lia.
Qed.

Lemma filter_encode (s : str) :
  filter kept (encode_backslashreplace s) = encode_backslashreplace (filter kept s).
Proof.
  unfold encode_backslashreplace. induction s as [|c s IH]; [reflexivity|].
  cbn [flat_map filter]. rewrite filter_app, IH.
  change (filter kept (if is_surrogate c then backslash_escape c else utf8_char c))
    with (filter kept (encode_one c)).
  rewrite filter_encode_one. destruct (kept c); reflexivity.
Qed.

Lemma escape_surrogates_chars (s : str) (x : N) :
  In x (escape_surrogates s) ->
  (In x s /\ is_surrogate x = false) \/ (0x30 <= x < 0x80).
Proof.
  unfold escape_surrogates. rewrite in_flat_map. intros [c [Hc Hx]].
  destruct (is_surrogate c) eqn:E.
  - right. eapply escape_chars. exact Hx.
  - left. destruct Hx as [<-|[]]. split; assumption.
Qed.

Lemma escape_surrogates_none (s : str) :
  (forall x, In x s -> is_surrogate x = false) -> escape_surrogates s = s.
Proof.
  unfold escape_surrogates. induction s as [|c s IH]; intro H; [reflexivity|].
  cbn [flat_map]. rewrite (H c (or_introl eq_refl)), IH; [reflexivity|].
  intros x Hx. apply H. right. exact Hx.
Qed.

Lemma printable_ascii (x : N) :
  0x30 <= x < 0x80 -> is_code_point x = true /\ kept x = true /\ is_surrogate x = false.
Proof.
  intro H. unfold is_code_point, is_surrogate. repeat split.
  - apply N.leb_le. lia.
  - apply kept_above. lia.
  - decide_cmp. reflexivity.
Qed.

Section SanitizerFacts.
Context {lib : Libraries}.

Lemma removed_control_table (c : N) :
  existsb (N.eqb c) (map (fun r => hd 0 (fst r)) REPLACEMENTS) = removed_control c.
Proof.
  unfold removed_control.
  destruct (N.leb_spec c 0x1F) as [H|H].
  - destruct c as [|p]; [reflexivity|].
    do 5 (try destruct p as [p|p|]); try reflexivity; exfalso; lia.
  - cbn [REPLACEMENTS map fst hd existsb].
    decide_cmp. reflexivity.
Qed.

Lemma sanitize_text (s : str) :
  sanitize (PyStr s) = Ok (decode_replace (filter kept (encode_backslashreplace s))).
Proof.
  unfold sanitize, force_bytes, force_unicode, REPLACEMENTS.
  rewrite replace_all_singles. do 2 f_equal.
  apply filter_ext. intro c. unfold kept. f_equal.
  exact (removed_control_table c).
Qed.

Lemma sanitize_result (s : str) :
  well_formed_str s -> sanitize (PyStr s) = Ok (escape_surrogates (filter kept s)).
Proof.
  intro H. rewrite sanitize_text, filter_encode, decode_encode; [reflexivity|].
  unfold well_formed_str in *. rewrite forallb_forall in *.
  intros x Hx. apply filter_In in Hx as [Hx _]. apply H. exact Hx.
Qed.

End SanitizerFacts.

(** ** Decimal notation *)

Lemma of_lu_revapp_value (u d : Decimal.uint) :
  DecimalPos.Unsigned.of_lu (Decimal.revapp u d)
  = uint_value u (DecimalPos.Unsigned.of_lu d).
Proof.
  revert d. induction u; intro d; cbn [Decimal.revapp uint_value]; [reflexivity|..];
    rewrite IHu; reflexivity.
Qed.

Lemma of_uint_value (u : Decimal.uint) : N.of_uint u = uint_value u 0.
Proof.
  unfold N.of_uint. rewrite DecimalPos.Unsigned.of_uint_alt. unfold Decimal.rev.
  rewrite of_lu_revapp_value. reflexivity.
Qed.

Lemma value_cons_digits (v : N) (u : Decimal.uint) :
  v <= 9 -> digits_of_uint (value_cons v u) = (0x30 + v) :: digits_of_uint u.
Proof. intro H. ten_cases v. Qed.

Lemma value_cons_value (v : N) (u : Decimal.uint) (acc : N) :
  v <= 9 -> uint_value (value_cons v u) acc = uint_value u (v + 10 * acc).
Proof. intro H. ten_cases v. Qed.

Lemma value_cons_nb (v : N) (u : Decimal.uint) :
  Decimal.nb_digits (value_cons v u) = S (Decimal.nb_digits u).
Proof. ten_cases v. Qed.

Lemma uint_of_values_digits (l : list N) :
  forallb digit_value l = true ->
  digits_of_uint (uint_of_values l) = as_digits l.
Proof.
  induction l as [|v l IH]; [reflexivity|].
  cbn [forallb uint_of_values fold_right as_digits map].
  intro H. apply andb_prop in H as [Hv Hl]. apply N.leb_le in Hv.
  rewrite value_cons_digits by exact Hv. f_equal. apply IH, Hl.
Qed.

Lemma uint_of_values_value (l : list N) (acc : N) :
  forallb digit_value l = true ->
  uint_value (uint_of_values l) acc = fold_left (fun a v => 10 * a + v) l acc.
Proof.
  revert acc. induction l as [|v l IH]; intros acc H; [reflexivity|].
  cbn [forallb uint_of_values fold_right fold_left] in *.
  apply andb_prop in H as [Hv Hl]. apply N.leb_le in Hv.
  rewrite value_cons_value by exact Hv. rewrite (IH _ Hl). f_equal. lia.
Qed.

Lemma uint_of_values_nb (l : list N) : Decimal.nb_digits (uint_of_values l) = length l.
Proof.
  induction l as [|v l IH]; [reflexivity|]. cbn [uint_of_values fold_right length].
  rewrite value_cons_nb. f_equal. exact IH.
Qed.

Lemma digits_of_uint_length (u : Decimal.uint) :
  length (digits_of_uint u) = Decimal.nb_digits u.
Proof. induction u; cbn [digits_of_uint length Decimal.nb_digits]; congruence. Qed.

Lemma digits_of_uint_iter_D0 (k : nat) (u : Decimal.uint) :
  digits_of_uint (Nat.iter k Decimal.D0 u) = repeat 0x30 k ++ digits_of_uint u.
Proof.
  induction k as [|k IH]; [reflexivity|].
  change (Nat.iter (S k) Decimal.D0 u) with (Decimal.D0 (Nat.iter k Decimal.D0 u)).
  cbn [digits_of_uint repeat app]. f_equal. exact IH.
Qed.

Lemma zero_pad_of_uint (u : Decimal.uint) :
  u <> Decimal.Nil ->
  zero_pad (Decimal.nb_digits u) (N.of_uint u) = digits_of_uint u.
Proof.
  intro H. unfold zero_pad, str_of_N. rewrite DecimalN.Unsigned.to_of.
  rewrite digits_of_uint_length, <- digits_of_uint_iter_D0.
  rewrite DecimalFacts.iter_D0_unorm by exact H. reflexivity.
Qed.

Lemma digits_of_uint_are_digits (u : Decimal.uint) :
  forallb is_digit (digits_of_uint u) = true.
Proof.
  induction u; cbn [digits_of_uint forallb]; [reflexivity|..]; rewrite IHu; reflexivity.
Qed.

Lemma uint_of_digits_of_uint (u : Decimal.uint) :
  uint_of_digits (digits_of_uint u) = Some u.
Proof.
  induction u; cbn [digits_of_uint uint_of_digits]; [reflexivity|..];
    rewrite IHu; reflexivity.
Qed.

(** Zero padding writes a number by position, and [int] reads it back. *)
Lemma zero_pad_positional (l : list N) :
  l <> [] -> forallb digit_value l = true ->
  zero_pad (length l) (positional l) = as_digits l
  /\ int_of_digits (as_digits l) = Some (positional l).
Proof.
  intros Hne Hl.
  assert (Hu : uint_of_values l <> Decimal.Nil).
  { intro E. apply (f_equal Decimal.nb_digits) in E. rewrite uint_of_values_nb in E.
    destruct l; [congruence | discriminate]. }
  assert (Hv : N.of_uint (uint_of_values l) = positional l).
  { rewrite of_uint_value. apply uint_of_values_value. exact Hl. }
  split.
  - rewrite <- Hv, <- uint_of_values_nb, zero_pad_of_uint by exact Hu.
    apply uint_of_values_digits. exact Hl.
  - rewrite <- uint_of_values_digits by exact Hl.
    unfold int_of_digits. rewrite uint_of_digits_of_uint. cbn [option_map]. rewrite Hv.
    destruct (digits_of_uint (uint_of_values l)) eqn:E; [|reflexivity].
    apply (f_equal (@length N)) in E. rewrite digits_of_uint_length, uint_of_values_nb in E.
    destruct l; [congruence | discriminate].
Qed.

Lemma as_digits_are_digits (l : list N) :
  forallb digit_value l = true -> forallb is_digit (as_digits l) = true.
Proof.
  intro H. rewrite <- uint_of_values_digits by exact H. apply digits_of_uint_are_digits.
Qed.

Lemma two_values_ok (n : N) :
  n <= 99 -> forallb digit_value (two_values n) = true /\ positional (two_values n) = n.
Proof.
  intro H. unfold two_values, positional, digit_value. cbn [forallb fold_left].
  pose proof (N.div_mod n 10 ltac:(lia)). pose proof (N.mod_lt n 10 ltac:(lia)).
  name_divmod. split; [decide_cmp; reflexivity | lia].
Qed.

Lemma four_values_ok (n : N) :
  n <= 9999 -> forallb digit_value (four_values n) = true /\ positional (four_values n) = n.
Proof.
  intro H. unfold four_values, positional, digit_value. cbn [forallb fold_left].
  assert (E1 : n / 100 = n / 10 / 10) by (rewrite N.Div0.div_div; reflexivity).
  assert (E2 : n / 1000 = n / 10 / 10 / 10) by (rewrite !N.Div0.div_div; reflexivity).
  rewrite E1, E2.
  pose proof (N.div_mod n 10 ltac:(lia)). pose proof (N.mod_lt n 10 ltac:(lia)).
  pose proof (N.div_mod (n / 10) 10 ltac:(lia)). pose proof (N.mod_lt (n / 10) 10 ltac:(lia)).
  pose proof (N.div_mod (n / 10 / 10) 10 ltac:(lia)).
  pose proof (N.mod_lt (n / 10 / 10) 10 ltac:(lia)).
  name_divmod. split; [decide_cmp; reflexivity | lia].
Qed.

Lemma six_values_ok (n : N) :
  n <= 999999 -> forallb digit_value (six_values n) = true /\ positional (six_values n) = n.
Proof.
  intro H. unfold six_values, positional, digit_value. cbn [forallb fold_left].
  assert (E1 : n / 100 = n / 10 / 10) by (rewrite N.Div0.div_div; reflexivity).
  assert (E2 : n / 1000 = n / 10 / 10 / 10) by (rewrite !N.Div0.div_div; reflexivity).
  assert (E3 : n / 10000 = n / 10 / 10 / 10 / 10) by (rewrite !N.Div0.div_div; reflexivity).
  assert (E4 : n / 100000 = n / 10 / 10 / 10 / 10 / 10)
    by (rewrite !N.Div0.div_div; reflexivity).
  rewrite E1, E2, E3, E4.
  pose proof (N.div_mod n 10 ltac:(lia)). pose proof (N.mod_lt n 10 ltac:(lia)).
  pose proof (N.div_mod (n / 10) 10 ltac:(lia)). pose proof (N.mod_lt (n / 10) 10 ltac:(lia)).
  pose proof (N.div_mod (n / 10 / 10) 10 ltac:(lia)).
  pose proof (N.mod_lt (n / 10 / 10) 10 ltac:(lia)).
  pose proof (N.div_mod (n / 10 / 10 / 10) 10 ltac:(lia)).
  pose proof (N.mod_lt (n / 10 / 10 / 10) 10 ltac:(lia)).
  pose proof (N.div_mod (n / 10 / 10 / 10 / 10) 10 ltac:(lia)).
  pose proof (N.mod_lt (n / 10 / 10 / 10 / 10) 10 ltac:(lia)).
  name_divmod. split; [decide_cmp; reflexivity | lia].
Qed.

Lemma zero_pad_2 (n : N) : n <= 99 -> zero_pad 2 n = as_digits (two_values n).
Proof.
  intro H. destruct (two_values_ok n H) as [Hd Hp].
  destruct (zero_pad_positional (two_values n)) as [Hz _]; [discriminate | exact Hd |].
  rewrite Hp in Hz. exact Hz.
Qed.

Lemma zero_pad_4 (n : N) : n <= 9999 -> zero_pad 4 n = as_digits (four_values n).
Proof.
  intro H. destruct (four_values_ok n H) as [Hd Hp].
  destruct (zero_pad_positional (four_values n)) as [Hz _]; [discriminate | exact Hd |].
  rewrite Hp in Hz. exact Hz.
Qed.

Lemma zero_pad_6 (n : N) : n <= 999999 -> zero_pad 6 n = as_digits (six_values n).
Proof.
  intro H. destruct (six_values_ok n H) as [Hd Hp].
  destruct (zero_pad_positional (six_values n)) as [Hz _]; [discriminate | exact Hd |].
  rewrite Hp in Hz. exact Hz.
Qed.

(** ** The matcher, step by step *)

Lemma run_chr (ci : bool) (p : N -> bool) k ps c s gs :
  Re.run ci (Re.Chr p) k {| Re.pos := ps; Re.rest := c :: s; Re.groups := gs |}
  = if p c then k {| Re.pos := S ps; Re.rest := s; Re.groups := gs |} else None.
Proof. reflexivity. Qed.

Lemma run_chr_nil (ci : bool) (p : N -> bool) k ps gs :
  Re.run ci (Re.Chr p) k {| Re.pos := ps; Re.rest := []; Re.groups := gs |} = None.
Proof. reflexivity. Qed.

Lemma run_seq ci a b k st : Re.run ci (Re.Seq a b) k st = Re.run ci a (Re.run ci b k) st.
Proof. reflexivity. Qed.

Lemma run_eps ci k st : Re.run ci Re.Eps k st = k st.
Proof. reflexivity. Qed.

Lemma run_group ci n a k st :
  Re.run ci (Re.Group n a) k st
  = Re.run ci a
      (fun st' => k {| Re.pos := Re.pos st'; Re.rest := Re.rest st';
                       Re.groups := (n, firstn (Re.pos st' - Re.pos st) (Re.rest st))
                                      :: Re.groups st' |}) st.
Proof. reflexivity. Qed.

Lemma run_alt ci a b k st :
  Re.run ci (Re.Alt a b) k st
  = match Re.run ci a k st with Some x => Some x | None => Re.run ci b k st end.
Proof. reflexivity. Qed.

Lemma run_bol ci k s gs :
  Re.run ci Re.Bol k {| Re.pos := 0; Re.rest := s; Re.groups := gs |}
  = k {| Re.pos := 0; Re.rest := s; Re.groups := gs |}.
Proof. reflexivity. Qed.

Lemma run_bol_later ci k p s gs :
  Re.run ci Re.Bol k {| Re.pos := S p; Re.rest := s; Re.groups := gs |} = None.
Proof. reflexivity. Qed.

Lemma run_eol ci k ps gs :
  Re.run ci Re.Eol k {| Re.pos := ps; Re.rest := []; Re.groups := gs |}
  = k {| Re.pos := ps; Re.rest := []; Re.groups := gs |}.
Proof. reflexivity. Qed.

Lemma run_star ci g a k st :
  Re.run ci (Re.Star g a) k st
  = Re.star_loop g (Re.run ci a) k (S (length (Re.rest st))) st.
Proof. reflexivity. Qed.

Lemma run_lit_same ci c k ps s gs :
  Re.run ci (Re.lit false c) k {| Re.pos := ps; Re.rest := c :: s; Re.groups := gs |}
  = k {| Re.pos := S ps; Re.rest := s; Re.groups := gs |}.
Proof.
  unfold Re.lit. rewrite run_chr. unfold Re.same_char. rewrite N.eqb_refl. reflexivity.
Qed.

Lemma run_lit_other ci c x k ps s gs :
  (c =? x) = false ->
  Re.run ci (Re.lit false c) k {| Re.pos := ps; Re.rest := x :: s; Re.groups := gs |} = None.
Proof.
  intro H. unfold Re.lit. rewrite run_chr. unfold Re.same_char. rewrite H. reflexivity.
Qed.

Ltac re_step :=
  first [ rewrite run_seq | rewrite run_eps | rewrite run_group | rewrite run_bol
        | rewrite run_eol | rewrite run_lit_same
        | rewrite run_lit_other by reflexivity
        | rewrite run_alt
        | rewrite run_chr;
          match goal with
          | H : ?p ?c = true |- context [if ?p ?c then _ else _] => rewrite H
          end ];
  cbv beta iota; cbn [Re.pos Re.rest Re.groups].

(** A greedy star over a class takes the whole run of the class when the
    continuation succeeds after it. *)
Lemma star_class_greedy (ci : bool) (p : N -> bool) (k : Re.state -> option Re.state)
  (ds tl : str) (r : Re.state) :
  forallb p ds = true ->
  match tl with t :: _ => p t = false | [] => True end ->
  forall (n : nat) (ps : nat) (gs : list (nat * str)),
  (length ds < n)%nat ->
  k {| Re.pos := ps + length ds; Re.rest := tl; Re.groups := gs |} = Some r ->
  Re.star_loop true (Re.run ci (Re.Chr p)) k n
               {| Re.pos := ps; Re.rest := ds ++ tl; Re.groups := gs |} = Some r.
Proof.
  intros Hp Htl. induction ds as [|c ds IH]; intros n ps gs Hn Hk.
  - destruct n as [|n]; [inversion Hn|]. cbn [Re.star_loop app].
    cbn [length] in Hk. rewrite Nat.add_0_r in Hk.
    destruct tl as [|t tl].
    + rewrite run_chr_nil. exact Hk.
    + rewrite run_chr, Htl. exact Hk.
  - destruct n as [|n]; [inversion Hn|]. cbn [forallb] in Hp.
    apply andb_prop in Hp as [Hc Hp].
    cbn [Re.star_loop app]. rewrite run_chr, Hc. cbn [Re.pos].
    replace (Nat.ltb ps (S ps)) with true by (symmetry; apply Nat.ltb_lt; lia).
    rewrite (IH Hp n (S ps) gs); [reflexivity | cbn [length] in Hn; lia |].
    cbn [length] in Hk. rewrite <- Hk. do 2 f_equal. lia.
Qed.

Lemma search_from_hit ci r p s st :
  Re.run ci r (fun st => Some st) {| Re.pos := p; Re.rest := s; Re.groups := [] |} = Some st ->
  Re.search_from ci r p s = Some st.
Proof. intro H. destruct s; cbn [Re.search_from]; rewrite H; reflexivity. Qed.

(** An anchored pattern matches at the start or not at all. *)
Lemma search_from_anchored ci r s p :
  Re.search_from ci (Re.Seq Re.Bol r) (S p) s = None.
Proof.
  revert p. induction s as [|c s IH]; intro p; cbn [Re.search_from];
    rewrite run_seq, run_bol_later; [reflexivity | apply IH].
Qed.

Lemma search_anchored_miss ci r s :
  Re.run ci r (fun st => Some st) {| Re.pos := 0; Re.rest := s; Re.groups := [] |} = None ->
  Re.search ci (Re.Seq Re.Bol r) s = None.
Proof.
  intro H. unfold Re.search. destruct s as [|c s]; cbn [Re.search_from];
    rewrite run_seq, run_bol, H; [reflexivity | apply search_from_anchored].
Qed.

(** ** The date pattern *)

Lemma datetime_regex_matches (y1 y2 y3 y4 m1 m2 d1 d2 h1 h2 i1 i2 s1 s2 : N) (frac : str) :
  forallb is_digit [y1;y2;y3;y4;m1;m2;d1;d2;h1;h2;i1;i2;s1;s2] = true ->
  (frac = [] \/ exists f fs, frac = 0x2E :: f :: fs /\ forallb is_digit (f :: fs) = true) ->
  exists st,
    Re.search false DATETIME_REGEX (dt_text y1 y2 y3 y4 m1 m2 d1 d2 h1 h2 i1 i2 s1 s2 frac)
    = Some st
    /\ dt_groups st = [Some [y1;y2;y3;y4]; Some [m1;m2]; Some [d1;d2];
                       Some [h1;h2]; Some [i1;i2]; Some [s1;s2]].
Proof.
  intros Hd Hf. cbn [forallb] in Hd.
  repeat (apply andb_prop in Hd as [?H Hd]). clear Hd.
  change is_digit with Re.digit in *.
  assert (Hrun : exists st,
    Re.run false DATETIME_REGEX (fun st => Some st)
      {| Re.pos := 0; Re.groups := [];
         Re.rest := dt_text y1 y2 y3 y4 m1 m2 d1 d2 h1 h2 i1 i2 s1 s2 frac |} = Some st
    /\ dt_groups st = [Some [y1;y2;y3;y4]; Some [m1;m2]; Some [d1;d2];
                       Some [h1;h2]; Some [i1;i2]; Some [s1;s2]]).
  { unfold dt_text.
    cbv [DATETIME_REGEX Re.seq Re.times Re.opt Re.plus fold_right repeat].
    destruct Hf as [->|(f & fs & -> & Hfs)].
    - cbn [app]. repeat re_step. eexists. split; reflexivity.
    - cbn [forallb] in Hfs. apply andb_prop in Hfs as [Hf Hfs].
      cbn [app]. eexists. split.
      + repeat re_step. rewrite run_star. cbn [Re.rest].
        erewrite star_class_greedy; cycle 1;
          [exact Hfs | reflexivity | rewrite length_app; cbn [length]; lia
          | repeat re_step; reflexivity |].
        reflexivity.
      + reflexivity. }
  destruct Hrun as (st & Hrun & Hg). exists st. split; [|exact Hg].
  apply search_from_hit. exact Hrun.
Qed.


(** ** Dates as text *)

Lemma clean_plain (s : str) : forallb plain s = true -> clean_xml_string s = s.
Proof.
  intro H. apply filter_all. rewrite forallb_forall in H. intros x Hx.
  apply H in Hx. unfold plain in Hx. apply andb_prop in Hx as [H1 H2].
  apply N.leb_le in H1, H2. unfold is_valid_xml_char_ordinal. decide_cmp. reflexivity.
Qed.

Lemma digit_plain (c : N) : is_digit c = true -> plain c = true.
Proof.
  unfold is_digit, plain. intro H. apply andb_prop in H as [H1 H2].
  apply N.leb_le in H1, H2. decide_cmp. reflexivity.
Qed.

Lemma digits_plain (s : str) : forallb is_digit s = true -> forallb plain s = true.
Proof.
  rewrite !forallb_forall. intros H x Hx. apply digit_plain, H, Hx.
Qed.

Lemma as_digits_plain (l : list N) :
  forallb digit_value l = true -> forallb plain (as_digits l) = true.
Proof. intro H. apply digits_plain, as_digits_are_digits, H. Qed.

Lemma valid_date_bounds (d : date) :
  valid_date d = true -> year d <= 9999 /\ month d <= 99 /\ day d <= 99.
Proof.
  unfold valid_date. intro H.
  repeat (apply andb_prop in H as [H ?H]).
  repeat match goal with H : (_ <=? _) = true |- _ => apply N.leb_le in H end.
  assert (days_in_month (year d) (month d) <= 31).
  { unfold days_in_month. destruct (month d) as [|p]; [lia|].
    do 4 (try destruct p as [p|p|]); try lia; destruct (is_leap (year d)); lia. }
  lia.
Qed.

Lemma date_isoformat_text (d : date) :
  valid_date d = true -> date_isoformat d = iso_date d.
Proof.
  intro H. apply valid_date_bounds in H as (Hy & Hm & Hd).
  unfold date_isoformat, iso_date.
  rewrite zero_pad_4, !zero_pad_2 by assumption. reflexivity.
Qed.

Lemma valid_datetime_bounds (d : datetime) :
  valid_datetime d = true ->
  valid_date (dt_date d) = true /\ hour d <= 99 /\ minute d <= 99 /\ second d <= 99
  /\ microsecond d <= 999999.
Proof.
  unfold valid_datetime. intro H.
  do 5 (apply andb_prop in H as [H ?H]).
  repeat match goal with H : (_ <=? _) = true |- _ => apply N.leb_le in H end.
  repeat split; try assumption; lia.
Qed.

Lemma datetime_isoformat_text (d : datetime) :
  valid_datetime d = true -> utcoffset d = None ->
  datetime_isoformat (L "T") d = iso_seconds d ++ fraction d.
Proof.
  intros H Hz. apply valid_datetime_bounds in H as (Hd & Hh & Hm & Hs & Hu).
  unfold datetime_isoformat, iso_seconds, fraction.
  rewrite date_isoformat_text, !zero_pad_2, zero_pad_6, Hz by assumption.
  cbn [format_offset]. rewrite app_nil_r, <- !app_assoc. reflexivity.
Qed.

Lemma iso_date_plain (d : date) :
  valid_date d = true -> forallb plain (iso_date d) = true.
Proof.
  intro H. apply valid_date_bounds in H as (Hy & Hm & Hd). unfold iso_date.
  rewrite !forallb_app.
  rewrite !as_digits_plain
    by (first [apply four_values_ok | apply two_values_ok]; assumption).
  reflexivity.
Qed.

Lemma iso_seconds_plain (d : datetime) :
  valid_datetime d = true -> forallb plain (iso_seconds d ++ fraction d ++ L "Z") = true.
Proof.
  intro H. apply valid_datetime_bounds in H as (Hd & Hh & Hm & Hs & Hu).
  unfold iso_seconds, fraction. rewrite !forallb_app, iso_date_plain by exact Hd.
  rewrite !as_digits_plain by (apply two_values_ok; assumption).
  destruct (microsecond d =? 0); [reflexivity|].
  rewrite forallb_app, as_digits_plain by (apply six_values_ok; assumption).
  reflexivity.
Qed.

Section CodecFacts.
Context {lib : Libraries}.

Lemma from_python_datetime (d : datetime) :
  valid_datetime d = true -> utcoffset d = None ->
  _from_python (PyDatetime d) = iso_seconds d ++ fraction d ++ L "Z".
Proof.
  intros H Hz. unfold _from_python.
  rewrite datetime_isoformat_text, <- app_assoc by assumption.
  apply clean_plain, iso_seconds_plain, H.
Qed.

Lemma from_python_date (d : date) :
  valid_date d = true -> _from_python (PyDate d) = iso_date d ++ L "T00:00:00Z".
Proof.
  intro H. unfold _from_python. rewrite date_isoformat_text by exact H.
  apply clean_plain. rewrite forallb_app, iso_date_plain by exact H. reflexivity.
Qed.

End CodecFacts.



Lemma digit_first_not_bool (c : N) (s : str) :
  (is_digit c = true \/ c = 0x2D) ->
  str_eqb (c :: s) (L "true") = false /\ str_eqb (c :: s) (L "false") = false.
Proof.
  intro H.
  assert (Hc : c <= 0x39).
  { destruct H as [H| ->]; [|lia]. unfold is_digit in H.
    apply andb_prop in H as [_ H]. apply N.leb_le in H. exact H. }
  split; cbn [str_eqb L]; match goal with |- (c =? ?x) && _ = false =>
    replace (c =? x) with false by (symmetry; apply N.eqb_neq; cbn; lia) end; reflexivity.
Qed.

Section RoundTrip.
Context {lib : Libraries}.


Lemma str_of_Z_shape (z : Z) :
  exists ds, forallb is_digit ds = true /\ (str_of_Z z = ds \/ str_of_Z z = 0x2D :: ds).
Proof.
  unfold str_of_Z. destruct (Z.to_int z) as [u|u]; exists (digits_of_uint u);
    (split; [apply digits_of_uint_are_digits|]); [left | right]; reflexivity.
Qed.




Lemma float_char_plain (c : N) : float_char c = true -> plain c = true.
Proof.
  unfold float_char, plain. intro H.
  repeat (apply orb_prop in H as [H|H]);
    [ apply digit_plain in H; exact H | apply N.eqb_eq in H; subst c; reflexivity .. ].
Qed.

Lemma float_text_not_bool (s : str) :
  forallb float_char s = true ->
  str_eqb s (L "true") = false /\ str_eqb s (L "false") = false.
Proof.
  destruct s as [|c s]; [split; reflexivity|]. cbn [forallb]. intro H.
  apply andb_prop in H as [H _].
  assert (Hc : c <= 0x65).
  { unfold float_char, is_digit in H.
    repeat (apply orb_prop in H as [H|H]);
      [ apply andb_prop in H as [_ H]; apply N.leb_le in H; lia
      | apply N.eqb_eq in H; lia .. ]. }
  assert (He : c <> 0x66).
  { intros ->. discriminate H. }
  split; cbn [str_eqb L]; match goal with |- (c =? ?x) && _ = false =>
    replace (c =? x) with false by (symmetry; apply N.eqb_neq; cbn; lia) end; reflexivity.
Qed.

(** The text of a float is no date: the pattern wants a [T] in it. *)
Lemma datetime_regex_rejects_float_text (s : str) :
  forallb float_char s = true -> Re.search false DATETIME_REGEX s = None.
Proof.
  intro Hs.
  change DATETIME_REGEX with
    (Re.Seq Re.Bol (Re.seq (tl [Re.Bol; Re.Group 1 (Re.times 4 (Re.Chr Re.digit));
       Re.lit false 0x2D; Re.Group 2 (Re.times 2 (Re.Chr Re.digit)); Re.lit false 0x2D;
       Re.Group 3 (Re.times 2 (Re.Chr Re.digit)); Re.lit false 0x54;
       Re.Group 4 (Re.times 2 (Re.Chr Re.digit)); Re.lit false 0x3A;
       Re.Group 5 (Re.times 2 (Re.Chr Re.digit)); Re.lit false 0x3A;
       Re.Group 6 (Re.times 2 (Re.Chr Re.digit));
       Re.opt (Re.Group 7 (Re.Seq (Re.lit false 0x2E) (Re.plus true (Re.Chr Re.digit))));
       Re.lit false 0x5A; Re.Eol]))).
  apply search_anchored_miss.
  cbv [tl Re.seq Re.times Re.opt Re.plus fold_right repeat Re.lit].
  do 10 (repeat (first [rewrite run_seq | rewrite run_group | rewrite run_eps];
                 cbv beta iota; cbn [Re.pos Re.rest Re.groups]);
         destruct s as [|?c s]; [reflexivity|];
         cbn [forallb] in Hs; apply andb_prop in Hs as [?H Hs];
         rewrite run_chr;
         match goal with |- (if ?b then _ else _) = None =>
           destruct b; [|reflexivity] end).
  repeat (first [rewrite run_seq | rewrite run_group | rewrite run_eps];
          cbv beta iota; cbn [Re.pos Re.rest Re.groups]).
  destruct s as [|t s]; [reflexivity|].
  cbn [forallb] in Hs. apply andb_prop in Hs as [Ht Hs].
  rewrite run_chr. unfold Re.same_char.
  destruct (N.eqb_spec 0x54 t) as [<-|_]; [discriminate Ht | reflexivity].
Qed.

Lemma codec_float (f : spec_float) :
  forallb float_char (float_str f) = true ->
  literal_eval (float_str f) = Ok (Some (PyFloat f)) ->
  _to_python (PyStr (_from_python (PyFloat f))) = Ok (PyFloat f).
Proof.
  intros Hc Hl.
  assert (E : _from_python (PyFloat f) = float_str f).
  { unfold _from_python, py_str. apply clean_plain. rewrite forallb_forall in *.
    intros x Hx. apply float_char_plain, Hc, Hx. }
  rewrite E. unfold _to_python. cbn [bind].
  destruct (float_text_not_bool _ Hc) as [-> ->].
  unfold text_to_python. rewrite (datetime_regex_rejects_float_text _ Hc), Hl. reflexivity.
Qed.


End RoundTrip.

(** * The claims *)

(** Whatever the libraries do, a float that is no number decodes to its
    text: [inf], [-inf] or [nan]. *)
Lemma nonfinite_decodes_to_text {lib : Libraries} (f : spec_float) :
  finite_float f = false ->
  _to_python (PyStr (_from_python (PyFloat f))) = Ok (PyStr (float_str f)).
Proof. destruct f as [s|s| |s m e]; try discriminate; [destruct s|]; reflexivity. Qed.











(** C4, as amended: a date-time without a time zone is written
    YYYY-MM-DDThh:mm:ssZ when its microsecond is zero, and with a fraction
    of six digits before the Z otherwise; a date is written
    YYYY-MM-DDT00:00:00Z. *)
Theorem from_python_dates {lib : Libraries} (d : datetime) (day : date) :
  valid_datetime d = true -> utcoffset d = None -> valid_date day = true ->
  _from_python (PyDatetime d)
  = iso_seconds d
    ++ (if microsecond d =? 0 then [] else L "." ++ as_digits (six_values (microsecond d)))
    ++ L "Z"
  /\ _from_python (PyDate day) = iso_date day ++ L "T00:00:00Z".
Proof.
  intros Hv Hz Hd. split.
  - exact (from_python_datetime d Hv Hz).
  - exact (from_python_date day Hd).
Qed.

Lemma from_python_dates_witness :
  _from_python (lib := no_libraries) (PyDatetime (whole_seconds sample_datetime))
  = L "2020-01-02T03:04:05Z"
  /\ _from_python (lib := no_libraries) (PyDate (dt_date sample_datetime))
     = L "2020-01-02T00:00:00Z".
Proof.
  exact (@from_python_dates no_libraries (whole_seconds sample_datetime)
           (dt_date sample_datetime) eq_refl eq_refl eq_refl).
Defined.

(** C4 as stated fails when the microsecond is not zero: the text carries
    a fraction; and an aware date-time carries its offset. *)
Lemma from_python_writes_fraction :
  _from_python (lib := no_libraries) (PyDatetime sample_datetime)
  = L "2020-01-02T03:04:05.000123Z"
  /\ _from_python (lib := no_libraries) (PyDatetime sample_datetime)
     <> iso_seconds sample_datetime ++ L "Z"
  /\ _from_python (lib := no_libraries) (PyDatetime aware_datetime)
     = L "2020-01-02T03:04:05+00:00Z".
Proof. split; [reflexivity | split; [discriminate | reflexivity]]. Qed.

(** C5, as amended: sanitizing twice is sanitizing once, for every text;
    and a text with none of the removed control characters and no
    surrogate code point is returned unchanged. *)
Theorem sanitize_idempotent {lib : Libraries} (s : str) :
  well_formed_str s ->
  exists t, sanitize (PyStr s) = Ok t
    /\ sanitize (PyStr t) = Ok t
    /\ (forallb (fun c => negb (removed_control c) && negb (is_surrogate c)) s = true
        -> t = s).
Proof.
  intro Hwf. exists (escape_surrogates (filter kept s)).
  assert (Hall : forall x, In x (escape_surrogates (filter kept s)) ->
                           is_code_point x = true /\ kept x = true /\ is_surrogate x = false).
  { intros x Hx. apply escape_surrogates_chars in Hx as [[Hx Hs]|Hx].
    - apply filter_In in Hx as [Hx Hk]. repeat split; try assumption.
      unfold well_formed_str in Hwf. rewrite forallb_forall in Hwf. apply Hwf, Hx.
    - apply printable_ascii, Hx. }
  split; [apply sanitize_result, Hwf|]. split.
  - rewrite sanitize_result.
    + rewrite (filter_all kept) by (intros x Hx; apply Hall, Hx).
      rewrite escape_surrogates_none by (intros x Hx; apply Hall, Hx). reflexivity.
    + unfold well_formed_str. apply forallb_forall. intros x Hx. apply Hall, Hx.
  - intro Hclean. rewrite forallb_forall in Hclean.
    rewrite (filter_all kept).
    + apply escape_surrogates_none. intros x Hx. apply Hclean in Hx.
      apply andb_prop in Hx as [_ Hx]. apply negb_true_iff, Hx.
    + intros x Hx. apply Hclean in Hx. apply andb_prop in Hx as [Hx _]. exact Hx.
Qed.

Lemma sanitize_idempotent_witness :
  well_formed_str (L "a" ++ [0x07; 0xD800; 0x20AC])
  /\ exists t, sanitize (lib := no_libraries) (PyStr (L "a" ++ [0x07; 0xD800; 0x20AC])) = Ok t
       /\ sanitize (lib := no_libraries) (PyStr t) = Ok t
       /\ (forallb (fun c => negb (removed_control c) && negb (is_surrogate c))
                   (L "a" ++ [0x07; 0xD800; 0x20AC]) = true
           -> t = L "a" ++ [0x07; 0xD800; 0x20AC]).
Proof.
  split; [reflexivity|].
  exact (@sanitize_idempotent no_libraries (L "a" ++ [0x07; 0xD800; 0x20AC]) eq_refl).
Defined.

(** C5 as stated fails on a lone surrogate: the text has none of the
    removed control characters, and the sanitizer returns its escape. *)
Lemma sanitize_rewrites_surrogate :
  forallb (fun c => negb (removed_control c)) [0xD800] = true
  /\ sanitize (lib := no_libraries) (PyStr [0xD800]) = Ok (L "\ud800")
  /\ L "\ud800" <> [0xD800].
Proof. split; [reflexivity | split; [reflexivity | discriminate]]. Qed.

(** ** Term suggestions: the two wire shapes *)

Lemma zip_flat (d : list (str * json)) :
  zip_alternating (flat_map (fun kv => [JStr (fst kv); snd kv]) d)
  = map (fun kv => (JStr (fst kv), snd kv)) d.
Proof.
  induction d as [|[k v] d IH]; [reflexivity|].
  cbn [flat_map app zip_alternating map fst snd]. f_equal. exact IH.
Qed.

Lemma dict_set_fresh (k : str) (v : json) (acc : list (str * json)) :
  ~ In k (map fst acc) ->
  dict_set key_eqb (JStr k) v (map (fun kv => (JStr (fst kv), snd kv)) acc)
  = map (fun kv => (JStr (fst kv), snd kv)) (acc ++ [(k, v)]).
Proof.
  induction acc as [|[k' v'] acc IH]; intro H; [reflexivity|].
  cbn [map fst snd dict_set app key_eqb].
  destruct (str_eqb k k') eqn:E.
  - exfalso. apply H. left. symmetry. apply str_eqb_eq, E.
  - f_equal. apply IH. intro Hin. apply H. right. exact Hin.
Qed.

Lemma dict_of_text_pairs (d acc : list (str * json)) :
  NoDup (map fst (acc ++ d)) ->
  dict_of_pairs (map (fun kv => (JStr (fst kv), snd kv)) d)
                (map (fun kv => (JStr (fst kv), snd kv)) acc)
  = Ok (map (fun kv => (JStr (fst kv), snd kv)) (acc ++ d)).
Proof.
  revert acc. induction d as [|[k v] d IH]; intros acc H.
  - rewrite app_nil_r. reflexivity.
  - cbn [map dict_of_pairs hashable fst snd].
    rewrite dict_set_fresh.
    + rewrite IH; rewrite <- app_assoc; [reflexivity | exact H].
    + rewrite map_app in H. apply NoDup_remove_2 in H.
      intro Hin. apply H. apply in_or_app. left. exact Hin.
Qed.

(** A mapping and its flat list of alternating names and values normalize
    alike, when no name is repeated. *)
Lemma flat_and_mapping_agree (d : list (str * json)) :
  NoDup (map fst d) ->
  normalize_terms (JDict [(L "terms",
                           JList (flat_map (fun kv => [JStr (fst kv); snd kv]) d))])
  = normalize_terms (JDict [(L "terms", JDict d)]).
Proof.
  intro H. unfold normalize_terms. cbn [assoc bind]. rewrite str_eqb_refl. cbn [bind].
  rewrite zip_flat.
  change [] with (map (fun kv : str * json => (JStr (fst kv), snd kv)) []) at 1.
  rewrite (dict_of_text_pairs d [] H). reflexivity.
Qed.

(** C8: a call of [suggest_terms] whose answer decodes to the flat list of
    the older protocol, or to the mapping of the newer one, returns the
    same result: the terms of the field, each with its count. *)
Theorem suggest_terms_both_shapes {lib : Libraries}
  (fetch : HTTPRequest -> result HTTPResponse) (self : Solr) (fields prefix : value)
  (kwargs : list (str * value)) (params_encoded : str) (resp : HTTPResponse)
  (decoded : json) :
  urlencode
    (dict_set str_eqb (L "wt") (PyStr (L "json"))
       (fold_left (fun d kv => dict_set str_eqb (fst kv) (snd kv) d) kwargs
                  [(L "terms.fl", fields); (L "terms.prefix", prefix)]))
    true = Ok params_encoded ->
  (forall request, fetch request = Ok resp) ->
  json_decode (force_unicode (PyBytes (resp_body resp))) = Ok decoded ->
  decoded = terms_flat \/ decoded = terms_mapping ->
  outcome (suggest_terms fetch self fields prefix kwargs)
  = Ok [(JStr (L "color"), [(JStr (L "red"), JInt 5); (JStr (L "blue"), JInt 3)])]
  /\ length (requests (suggest_terms fetch self fields prefix kwargs)) = 1%nat.
Proof.
  intros Hu Hf Hj Hd.
  assert (Hm : normalize_terms terms_mapping = Ok terms_normalized) by reflexivity.
  assert (Hl : normalize_terms terms_flat = Ok terms_normalized).
  { rewrite <- Hm.
    apply (flat_and_mapping_agree
             [(L "color", JList [JStr (L "red"); JInt 5; JStr (L "blue"); JInt 3])]).
    repeat constructor. intros []. }
  assert (Hn : normalize_terms decoded = Ok terms_normalized)
    by (destruct Hd as [-> | ->]; assumption).
  unfold outcome, requests, suggest_terms, _suggest_terms, bindIO, lift. rewrite Hu.
  cbn [force_unicode] in Hj.
  unfold _send_request, issue. rewrite Hf. cbn [fst snd force_unicode]. rewrite Hj.
  cbn [bind]. rewrite Hn. split; reflexivity.
Qed.

Lemma suggest_terms_both_shapes_witness :
  (outcome (suggest_terms (lib := answering_libraries (L "terms.fl=color&wt=json") terms_flat)
              (answering_transport tomcat_500) sample_solr (PyStr (L "color")) (PyStr [])
              [])
   = Ok [(JStr (L "color"), [(JStr (L "red"), JInt 5); (JStr (L "blue"), JInt 3)])]
   /\ length (requests (suggest_terms
                          (lib := answering_libraries (L "terms.fl=color&wt=json") terms_flat)
                          (answering_transport tomcat_500) sample_solr (PyStr (L "color"))
                          (PyStr []) [])) = 1%nat)
  /\ (outcome (suggest_terms
                 (lib := answering_libraries (L "terms.fl=color&wt=json") terms_mapping)
                 (answering_transport tomcat_500) sample_solr (PyStr (L "color")) (PyStr [])
                 [])
      = Ok [(JStr (L "color"), [(JStr (L "red"), JInt 5); (JStr (L "blue"), JInt 3)])]
      /\ length (requests (suggest_terms
                             (lib := answering_libraries (L "terms.fl=color&wt=json")
                                       terms_mapping)
                             (answering_transport tomcat_500) sample_solr
                             (PyStr (L "color")) (PyStr []) [])) = 1%nat).
Proof.
  split.
  - apply (suggest_terms_both_shapes
             (lib := answering_libraries (L "terms.fl=color&wt=json") terms_flat)
             (answering_transport tomcat_500) sample_solr (PyStr (L "color")) (PyStr []) []
             (L "terms.fl=color&wt=json") tomcat_500 terms_flat);
      try reflexivity.
    left. reflexivity.
  - apply (suggest_terms_both_shapes
             (lib := answering_libraries (L "terms.fl=color&wt=json") terms_mapping)
             (answering_transport tomcat_500) sample_solr (PyStr (L "color")) (PyStr []) []
             (L "terms.fl=color&wt=json") tomcat_500 terms_mapping);
      try reflexivity.
    right. reflexivity.
Defined.

(** ** The document builder, entry by entry *)

Section BuilderFacts.
Context {lib : Libraries}.
Variables (boost : option (list (str * value))) (fieldUpdates : option (list (str * str))).

Lemma append_values (key : str) (vs : list value) (e : Element) :
  children
    (fold_left
       (fun doc_elem bit =>
          if _is_null_value bit then doc_elem
          else elem_append (field_elem key boost fieldUpdates bit) doc_elem) vs e)
  = children e ++ map (field_elem key boost fieldUpdates) (filter not_null vs).
Proof.
  revert e. induction vs as [|v vs IH]; intro e; cbn [fold_left filter map].
  - rewrite app_nil_r. reflexivity.
  - rewrite IH. unfold not_null at 2. destruct (_is_null_value v); cbn [negb map].
    + reflexivity.
    + destruct e as [t a x c]. cbn [elem_append children tag attrib text].
      rewrite <- app_assoc. reflexivity.
Qed.

Lemma build_from (doc : list (str * value)) (e : Element) :
  children
    (fold_left
       (fun doc_elem kv =>
          let '(key, v) := kv in
          if str_eqb key (L "boost") then elem_set (L "boost") (force_unicode v) doc_elem
          else
            fold_left
              (fun doc_elem bit =>
                 if _is_null_value bit then doc_elem
                 else elem_append (field_elem key boost fieldUpdates bit) doc_elem)
              (field_values v) doc_elem) doc e)
  = children e ++ flat_map (entry_fields boost fieldUpdates) doc.
Proof.
  revert e. induction doc as [|[key v] doc IH]; intro e; cbn [fold_left flat_map].
  - rewrite app_nil_r. reflexivity.
  - rewrite IH. unfold entry_fields at 2. cbn [fst snd].
    destruct (str_eqb key (L "boost")).
    + destruct e as [t a x c]. reflexivity.
    + rewrite append_values, <- app_assoc. reflexivity.
Qed.

Lemma build_doc_children (doc : list (str * value)) :
  children (_build_doc doc boost fieldUpdates) = flat_map (entry_fields boost fieldUpdates) doc.
Proof. unfold _build_doc. rewrite build_from. reflexivity. Qed.

End BuilderFacts.










(** ** The dispatcher and the facade *)

Section DispatchFacts.
Context {lib : Libraries}.
Variable fetch : HTTPRequest -> result HTTPResponse.

(** A call of [_send_request] without files issues exactly the prepared
    request. *)
Lemma send_request_issues (self : Solr) (method path : str) (body : option value)
  (headers : list (str * str)) (t : list HTTPRequest) :
  snd (_send_request fetch self method path body headers None t)
  = t ++ [prepared_request self method path body headers].
Proof.
  unfold _send_request, issue.
  destruct (fetch (prepared_request self method path body headers)); reflexivity.
Qed.

End DispatchFacts.

(** C6: a call of [delete] with neither or with both of [id] and [q]
    raises ValueError, which is not the client's SolrError, and leaves the
    list of issued requests as it was: no request is sent. *)
Theorem delete_validates_first {lib : Libraries} (fetch : HTTPRequest -> result HTTPResponse)
  (self : Solr) (id q commit waitFlush waitSearcher : value) (t : list HTTPRequest) :
  is_none id = is_none q ->
  (exists msg,
     delete fetch self id q commit waitFlush waitSearcher t = (Raise (ValueError msg), t))
  /\ requests (delete fetch self id q commit waitFlush waitSearcher) = []
  /\ (forall msg, outcome (delete fetch self id q commit waitFlush waitSearcher)
                  <> Raise (SolrError msg)).
Proof.
  intro H. unfold requests, outcome, delete.
  destruct (is_none id) eqn:Ei; rewrite <- H; cbn [andb negb];
    (split; [eexists; reflexivity | split; [reflexivity | intros msg E; discriminate E]]).
Qed.

Lemma delete_validates_first_witness :
  (exists msg,
     delete (lib := no_libraries) (failing_transport tomcat_500) sample_solr
            (PyStr (L "doc_12")) (PyStr (L "*:*")) (PyBool true) PyNone PyNone []
     = (Raise (ValueError msg), []))
  /\ requests (delete (lib := no_libraries) (failing_transport tomcat_500) sample_solr
                 (PyStr (L "doc_12")) (PyStr (L "*:*")) (PyBool true) PyNone PyNone) = []
  /\ (forall msg,
        outcome (delete (lib := no_libraries) (failing_transport tomcat_500) sample_solr
                   (PyStr (L "doc_12")) (PyStr (L "*:*")) (PyBool true) PyNone PyNone)
        <> Raise (SolrError msg)).
Proof.
  exact (@delete_validates_first no_libraries (failing_transport tomcat_500) sample_solr
           (PyStr (L "doc_12")) (PyStr (L "*:*")) (PyBool true) PyNone PyNone [] eq_refl).
Defined.

(** The URL of a request: the base without the slashes that end it, a
    slash, and the path. *)
Lemma create_full_url_path (base : str) (slashes : nat) (tm : N) (c : N) (path : str) :
  last base 0 <> 0x2F -> c <> 0x2F ->
  _create_full_url {| url := base ++ repeat 0x2F slashes; timeout := tm |} (c :: path)
  = base ++ L "/" ++ c :: path.
Proof.
  intros Hb Hc. unfold _create_full_url. cbn [url].
  rewrite rstrip_by_repeat by reflexivity.
  rewrite rstrip_by_last by (apply N.eqb_neq; congruence).
  rewrite lstrip_by_head by (apply N.eqb_neq; cbn [hd]; congruence). reflexivity.
Qed.

(** C9: with [wt=json] added, parameters whose encoded form has 1024
    bytes or more are sent by POST to the select path, with the encoded
    form as the body and the content type of a form; a shorter form is
    sent by GET, with the encoded form in the URL after [select/?].  One
    request is issued either way. *)
Theorem select_routing {lib : Libraries} (fetch : HTTPRequest -> result HTTPResponse)
  (base : str) (slashes : nat) (tm : N) (params : list (str * value))
  (params_encoded : str) :
  last base 0 <> 0x2F ->
  urlencode (dict_set str_eqb (L "wt") (PyStr (L "json")) params) true = Ok params_encoded ->
  forallb plain params_encoded = true ->
  requests (_select fetch {| url := base ++ repeat 0x2F slashes; timeout := tm |} params)
  = if 1024 <=? N.of_nat (length params_encoded)
    then [ {| req_url := base ++ L "/select/"; req_method := L "POST";
              req_headers :=
                [(L "Content-type", L "application/x-www-form-urlencoded; charset=utf-8")];
              req_body := Some (PyBytes params_encoded); request_timeout := tm |} ]
    else [ {| req_url := base ++ L "/select/?" ++ params_encoded; req_method := L "GET";
              req_headers := []; req_body := None; request_timeout := tm |} ].
Proof.
  intros Hb He Hp. unfold requests, _select, bindIO, lift. rewrite He.
  rewrite N.leb_antisym. destruct (N.of_nat (length params_encoded) <? 1024);
    cbn [negb]; rewrite send_request_issues; unfold prepared_request;
    cbn [app L]; rewrite create_full_url_path by (assumption || discriminate);
    cbn [option_map force_bytes timeout]; rewrite ?(encode_ascii _ Hp); reflexivity.
Qed.

Lemma select_routing_witness :
  requests (_select (lib := sample_libraries long_query []) (failing_transport tomcat_500)
              sample_solr [(L "q", PyStr (repeat 0x61 1100))])
  = [ {| req_url := L "http://localhost:8983/solr/select/"; req_method := L "POST";
         req_headers :=
           [(L "Content-type", L "application/x-www-form-urlencoded; charset=utf-8")];
         req_body := Some (PyBytes long_query); request_timeout := 60 |} ]
  /\ requests (_select (lib := sample_libraries short_query []) (failing_transport tomcat_500)
                 sample_solr [(L "q", PyStr (L "a"))])
     = [ {| req_url := L "http://localhost:8983/solr/select/?q=a&wt=json";
            req_method := L "GET"; req_headers := []; req_body := None;
            request_timeout := 60 |} ].
Proof.
  split.
  - apply (select_routing (lib := sample_libraries long_query [])
             (failing_transport tomcat_500) (L "http://localhost:8983/solr") 1 60
             [(L "q", PyStr (repeat 0x61 1100))] long_query);
      [discriminate | reflexivity | reflexivity].
  - apply (select_routing (lib := sample_libraries short_query [])
             (failing_transport tomcat_500) (L "http://localhost:8983/solr") 1 60
             [(L "q", PyStr (L "a"))] short_query);
      [discriminate | reflexivity | reflexivity].
Defined.

(** C1, as amended: when the transport raises an HTTP error that carries
    a response, [_send_request] raises SolrError with the message
    [<status code>: <reason phrase of the response>], after issuing the one
    request; the error scraper takes no part in it. *)
Theorem send_request_http_error {lib : Libraries} (fetch : HTTPRequest -> result HTTPResponse)
  (self : Solr) (method path : str) (body : option value) (headers : list (str * str))
  (status : N) (response : HTTPResponse) :
  fetch (prepared_request self method path body headers)
  = Raise (HTTPError status (Some response)) ->
  outcome (_send_request fetch self method path body headers None)
  = Raise (SolrError (str_of_N status ++ L ": " ++ resp_reason response))
  /\ requests (_send_request fetch self method path body headers None)
     = [prepared_request self method path body headers].
Proof.
  intro H. unfold outcome, requests, _send_request, issue. rewrite H. split; reflexivity.
Qed.

Lemma send_request_http_error_witness :
  outcome (_send_request (lib := no_libraries) (failing_transport tomcat_500) sample_solr
             (L "get") (L "select/?q=x") None [] None)
  = Raise (SolrError (L "500: Internal Server Error"))
  /\ requests (_send_request (lib := no_libraries) (failing_transport tomcat_500) sample_solr
                 (L "get") (L "select/?q=x") None [] None)
     = [prepared_request sample_solr (L "get") (L "select/?q=x") None []].
Proof.
  exact (@send_request_http_error no_libraries (failing_transport tomcat_500) sample_solr
           (L "get") (L "select/?q=x") None [] 500 tomcat_500 eq_refl).
Defined.

(** C1 as stated fails: for a Tomcat answer whose body is [boom], the
    scraper gives the detail [boom], and the message raised, made of the
    status code and the reason phrase, does not include it. *)
Lemma send_request_ignores_scraper :
  _scrape_response (lib := no_libraries) (resp_headers tomcat_500)
                   (PyBytes (resp_body tomcat_500)) = Ok (None, L "boom")
  /\ outcome (_send_request (lib := no_libraries) (failing_transport tomcat_500) sample_solr
                (L "get") (L "select/?q=x") None [] None)
     = Raise (SolrError (L "500: Internal Server Error"))
  /\ contains (L "boom") (L "500: Internal Server Error") = false.
Proof. split; [reflexivity | split; reflexivity]. Qed.

(** ** The error scraper *)

Section ScraperFacts.
Context {lib : Libraries}.

Lemma parse_error_is_syntax_error (e : exn) :
  is_parse_error e = true -> is_syntax_error e = true.
Proof. destruct e; intro H; try discriminate H; reflexivity. Qed.

Lemma strict_xml_total (body : str) :
  (forall e, ET_fromstring body = Raise e -> is_parse_error e = true) ->
  (forall soup, ET_fromstring body = Ok soup -> error_nodes_have_text soup) ->
  exists r, strict_xml body = Ok r.
Proof.
  intros Hp Ht. unfold strict_xml.
  destruct (ET_fromstring body) as [soup|e] eqn:E.
  - destruct (Ht soup eq_refl) as [Hm Htr].
    unfold text_strip.
    destruct (find solr_msg_path soup) as [n|].
    + specialize (Hm n eq_refl). destruct (text n) as [t|]; [|contradiction].
      cbn [bind]. destruct (find solr_trace_path soup) as [n'|].
      * specialize (Htr n' eq_refl). destruct (text n') as [t'|]; [|contradiction].
        cbn [bind]. eexists. reflexivity.
      * cbn [bind]. eexists. reflexivity.
    + cbn [bind]. destruct (find solr_trace_path soup) as [n'|].
      * specialize (Htr n' eq_refl). destruct (text n') as [t'|]; [|contradiction].
        cbn [bind]. eexists. reflexivity.
      * cbn [bind]. eexists. reflexivity.
  - rewrite (Hp e eq_refl). eexists. reflexivity.
Qed.

End ScraperFacts.

Section DetailShape.
Context {lib : Libraries}.

(** The last lines of the scraper compute the detail of the specification. *)
Lemma normalize_detail_text (s : str) : normalize_detail (PyStr s) = one_line s.
Proof.
  unfold normalize_detail, one_line, force_unicode. do 3 f_equal.
  rewrite !replace_single, filter_filter. apply filter_ext. intro c. reflexivity.
Qed.

End DetailShape.

(** C2, as amended: for every headers mapping and every body that is
    text, or bytes that are UTF-8, the scraper returns a (reason, detail)
    pair and does not raise, provided that the XML parser, where the
    scraper calls it, fails only with the errors caught there, and that the
    Solr error nodes of a body with an XML declaration carry text; and
    when nothing is recognized in the body, the reason is absent and the
    detail is the body without its line feeds and carriage returns, without
    [<br/>] and [<br />], and without the white space around it. *)
Theorem scrape_response_total {lib : Libraries} (headers : list (str * str))
  (response : value) (body : str) :
  decoded_body response = Ok body ->
  (startswith (L "<?xml") body = true ->
   forall e, ET_fromstring body = Raise e -> is_parse_error e = true) ->
  (server_type headers <> Tomcat ->
   forall e, ET_fromstring body = Raise e -> is_syntax_error e = true) ->
  (startswith (L "<?xml") body = true ->
   forall soup, ET_fromstring body = Ok soup -> error_nodes_have_text soup) ->
  (exists reason detail, _scrape_response headers response = Ok (reason, detail))
  /\ (unrecognized headers body ->
      _scrape_response headers response = Ok (None, one_line body)).
Proof.
  intros Hb Hp Hq Ht. unfold _scrape_response, unrecognized. rewrite Hb. cbn [bind].
  assert (Hsecond : forall reason full_html,
    exists r d,
      bind match server_type headers with
           | Tomcat =>
               match Re.search true H1_REGEX body with
               | Some m => Ok (Re.group 2 (Re.groups m), PyStr full_html)
               | None => Ok (reason, PyStr body)
               end
           | _ =>
               match ET_fromstring body with
               | Ok dom_tree =>
                   let reason_node :=
                     find (match server_type headers with
                           | Jetty => jetty_path
                           | _ => title_path
                           end) dom_tree in
                   let reason :=
                     match reason_node with Some n => text n | None => reason end in
                   Ok (reason,
                       match reason with
                       | None => PyBytes (ET_tostring dom_tree)
                       | Some _ => PyStr full_html
                       end)
               | Raise e =>
                   if is_syntax_error e then Ok (reason, PyStr body) else Raise e
               end
           end
           (fun '(reason, full_html) => Ok (reason, normalize_detail full_html))
      = Ok (r, d)).
  { intros reason full_html.
    destruct (server_type headers).
    - destruct (ET_fromstring body) as [t|e] eqn:E.
      + cbn [bind]. do 2 eexists. reflexivity.
      + rewrite (Hq ltac:(discriminate) e eq_refl). do 2 eexists. reflexivity.
    - destruct (ET_fromstring body) as [t|e] eqn:E.
      + cbn [bind]. do 2 eexists. reflexivity.
      + rewrite (Hq ltac:(discriminate) e eq_refl). do 2 eexists. reflexivity.
    - destruct (Re.search true H1_REGEX body); do 2 eexists; reflexivity. }
  assert (Hnone : (match server_type headers with
                   | Tomcat => Re.search true H1_REGEX body = None
                   | _ => exists e, ET_fromstring body = Raise e
                   end) ->
    bind match server_type headers with
         | Tomcat =>
             match Re.search true H1_REGEX body with
             | Some m => Ok (Re.group 2 (Re.groups m), PyStr [])
             | None => Ok (None, PyStr body)
             end
         | _ =>
             match ET_fromstring body with
             | Ok dom_tree =>
                 let reason_node :=
                   find (match server_type headers with
                         | Jetty => jetty_path
                         | _ => title_path
                         end) dom_tree in
                 let reason :=
                   match reason_node with Some n => text n | None => None end in
                 Ok (reason,
                     match reason with
                     | None => PyBytes (ET_tostring dom_tree)
                     | Some _ => PyStr []
                     end)
             | Raise e =>
                 if is_syntax_error e then Ok (None, PyStr body) else Raise e
             end
         end
         (fun '(reason, full_html) => Ok (reason, normalize_detail full_html))
    = Ok (None, one_line body)).
  { intro Hu. rewrite <- normalize_detail_text.
    destruct (server_type headers).
    - destruct Hu as [e He]. rewrite He, (Hq ltac:(discriminate) e He). reflexivity.
    - destruct Hu as [e He]. rewrite He, (Hq ltac:(discriminate) e He). reflexivity.
    - rewrite Hu. reflexivity. }
  destruct (startswith (L "<?xml") body) eqn:Ex.
  - split.
    + destruct (strict_xml_total body (Hp eq_refl) (Ht eq_refl))
        as [[[returns reason] full_html] Hs].
      rewrite Hs. cbn [bind]. destruct returns.
      * do 2 eexists. reflexivity.
      * apply Hsecond.
    + intros [Hx Hu]. destruct (Hx eq_refl) as [e He].
      pose proof (Hnone Hu) as G. unfold strict_xml. rewrite He in G |- *.
      rewrite (Hp eq_refl e He). cbn [bind]. exact G.
  - cbn [bind]. split; [apply Hsecond|]. intros [_ Hu]. exact (Hnone Hu).
Qed.

Lemma scrape_response_total_witness :
  _scrape_response (lib := no_libraries) []
                   (PyBytes (L " boom<br/>" ++ [0x0D; 0x0A] ++ L "<br />bang "))
  = Ok (None, L "boombang")
  /\ _scrape_response (lib := no_libraries) tomcat_headers (PyStr (L "<?xml a" ++ [0x0A]))
     = Ok (None, L "<?xml a")
  /\ exists reason detail,
       _scrape_response (lib := sample_libraries [] [(solr_error_body, solr_error_tree)])
                        jetty_headers (PyStr solr_error_body)
       = Ok (reason, detail).
Proof.
  split; [|split].
  - apply (@scrape_response_total no_libraries []
             (PyBytes (L " boom<br/>" ++ [0x0D; 0x0A] ++ L "<br />bang "))
             (L " boom<br/>" ++ [0x0D; 0x0A] ++ L "<br />bang ") eq_refl).
    + intro H. discriminate H.
    + intros _ e H. injection H as <-. reflexivity.
    + intro H. discriminate H.
    + split; [intro H; discriminate H | exists ParseError; reflexivity].
  - apply (@scrape_response_total no_libraries tomcat_headers
             (PyStr (L "<?xml a" ++ [0x0A])) (L "<?xml a" ++ [0x0A]) eq_refl).
    + intros _ e H. injection H as <-. reflexivity.
    + intro H. exfalso. apply H. reflexivity.
    + intros _ soup H. discriminate H.
    + split; [intros _; exists ParseError; reflexivity | reflexivity].
  - apply (@scrape_response_total (sample_libraries [] [(solr_error_body, solr_error_tree)])
             jetty_headers (PyStr solr_error_body) solr_error_body eq_refl).
    + intros _ e H. discriminate H.
    + intros _ e H. discriminate H.
    + intros _ soup H. injection H as <-. split; intros n Hn; [|discriminate Hn].
      injection Hn as <-. discriminate.
Defined.

(** C2 as stated fails: the detail of a body in which nothing is
    recognized is the body without its line breaks, not the raw body.
    And the scraper raises on bytes that are not UTF-8, on a Solr answer
    whose message node is empty, and on a text that the parser cannot
    encode. *)
Lemma scrape_response_raises :
  _scrape_response (lib := no_libraries) tomcat_headers (PyStr [0x61; 0x0A; 0x62])
  = Ok (None, L "ab")
  /\ L "ab" <> [0x61; 0x0A; 0x62]
  /\ _scrape_response (lib := no_libraries) [] (PyBytes [0xFF]) = Raise UnicodeDecodeError
  /\ _scrape_response (lib := sample_libraries [] example_documents) []
                      (PyStr empty_msg_body) = Raise AttributeError
  /\ _scrape_response (lib := encoding_libraries []) [] (PyStr [0xD800])
     = Raise UnicodeEncodeError
  /\ _scrape_response (lib := encoding_libraries []) tomcat_headers
                      (PyStr (L "<?xml " ++ [0xD800])) = Raise UnicodeEncodeError.
Proof. repeat split; discriminate. Qed.

(** ** The examples of the specification *)

Example tomcat_first_heading :
  _scrape_response (lib := no_libraries) tomcat_headers (PyStr example_tomcat_body)
  = Ok (Some (L "404"), []).
Proof. reflexivity. Qed.

Example jetty_pre :
  _scrape_response (lib := sample_libraries [] example_documents) jetty_headers
                   (PyStr example_jetty_body)
  = Ok (Some (L "Problem accessing /solr/select. Reason: bad request"), []).
Proof. reflexivity. Qed.

Example heading_is_trimmed :
  option_map (fun st => Re.group 2 (Re.groups st))
             (Re.search true H1_REGEX (L "x<H1 class='a'>  a b  </h1>"))
  = Some (Some (L "a b")).
Proof. reflexivity. Qed.

Example url_joining :
  _create_full_url {| url := L "http://host/solr/"; timeout := 60 |} (L "/select/?q=*")
  = L "http://host/solr/select/?q=*".
Proof. reflexivity. Qed.

Example null_elision :
  children (_build_doc (lib := no_libraries) [(L "a", PyNone); (L "b", PyStr [])] None None)
  = [].
Proof. reflexivity. Qed.

Example zero_round_trips :
  _to_python (lib := no_libraries)
    (PyStr (_from_python (lib := no_libraries) (PyFloat (S754_zero false))))
  = Ok (PyFloat (S754_zero false)).
Proof.
  apply (@codec_float no_libraries (S754_zero false)); reflexivity.
Qed.

(** * Further properties of the code *)

(** ** UTF-8: what the decoder accepts *)

Lemma divmod_64 (q r : N) :
  r < 64 -> (q * 64 + r) / 64 = q /\ (q * 64 + r) mod 64 = r.
Proof.
  intro H. split.
  - symmetry. apply N.div_unique with (r := r); lia.
  - symmetry. apply N.mod_unique with (q := q); lia.
Qed.

Lemma utf8_char_2 (x0 x1 : N) :
  2 <= x0 < 32 -> x1 < 64 ->
  utf8_char (x0 * 64 + x1) = [0xC0 + x0; 0x80 + x1].
Proof.
  intros H0 H1. unfold utf8_char.
  destruct (divmod_64 x0 x1 H1) as [Ed Em]. rewrite Ed, Em.
  decide_cmp. reflexivity.
Qed.

Lemma utf8_char_3 (x0 x1 x2 : N) :
  x0 < 16 -> x1 < 64 -> x2 < 64 -> 32 <= x0 * 64 + x1 ->
  utf8_char ((x0 * 64 + x1) * 64 + x2) = [0xE0 + x0; 0x80 + x1; 0x80 + x2].
Proof.
  intros H0 H1 H2 H. unfold utf8_char.
  replace (((x0 * 64 + x1) * 64 + x2) / 4096) with (((x0 * 64 + x1) * 64 + x2) / 64 / 64)
    by (rewrite N.Div0.div_div; reflexivity).
  destruct (divmod_64 (x0 * 64 + x1) x2 H2) as [Ed Em]. rewrite Ed, Em.
  destruct (divmod_64 x0 x1 H1) as [Ed' Em']. rewrite Ed', Em'.
  decide_cmp. reflexivity.
Qed.

Lemma utf8_char_4 (x0 x1 x2 x3 : N) :
  x0 < 8 -> x1 < 64 -> x2 < 64 -> x3 < 64 -> 16 <= x0 * 64 + x1 ->
  utf8_char (((x0 * 64 + x1) * 64 + x2) * 64 + x3)
  = [0xF0 + x0; 0x80 + x1; 0x80 + x2; 0x80 + x3].
Proof.
  intros H0 H1 H2 H3 H. unfold utf8_char.
  set (c := ((x0 * 64 + x1) * 64 + x2) * 64 + x3).
  replace (c / 262144) with (c / 64 / 64 / 64) by (rewrite !N.Div0.div_div; reflexivity).
  replace (c / 4096) with (c / 64 / 64) by (rewrite N.Div0.div_div; reflexivity).
  unfold c.
  destruct (divmod_64 ((x0 * 64 + x1) * 64 + x2) x3 H3) as [Ed Em]. rewrite Ed, Em.
  destruct (divmod_64 (x0 * 64 + x1) x2 H2) as [Ed' Em']. rewrite Ed', Em'.
  destruct (divmod_64 x0 x1 H1) as [Ed'' Em'']. rewrite Ed'', Em''.
  decide_cmp. reflexivity.
Qed.

(** One item of the decoder's output: the bytes it stands for, and the rest. *)
Lemma utf8_decode_step (b : bytes) :
  match utf8_decode b with
  | [] => b = []
  | o :: l =>
      exists p r, b = p ++ r /\ p <> [] /\ l = utf8_decode r
        /\ match o with
           | Some c => p = utf8_char c /\ is_code_point c = true /\ is_surrogate c = false
           | None => True
           end
  end.
Proof.
  destruct b as [|b0 r0]; [reflexivity|]. cbn [utf8_decode].
  destruct (N.ltb_spec b0 0x80) as [L0|L0].
  { exists [b0], r0. repeat split; try discriminate.
    - unfold utf8_char. decide_cmp. reflexivity.
    - unfold is_code_point. decide_cmp. reflexivity.
    - unfold is_surrogate. decide_cmp. reflexivity. }
  destruct (N.ltb_spec b0 0xC2) as [L1|L1].
  { exists [b0], r0. repeat split; discriminate. }
  destruct (N.ltb_spec b0 0xE0) as [L2|L2].
  { destruct r0 as [|b1 r1].
    { exists [b0], []. repeat split; discriminate. }
    unfold is_continuation.
    destruct (N.leb_spec 0x80 b1) as [C1|C1]; [destruct (N.ltb_spec b1 0xC0) as [C1'|C1']|];
      cbn [andb]; try (exists [b0], (b1 :: r1); repeat split; discriminate).
    exists [b0; b1], r1. split; [reflexivity|]. split; [discriminate|]. split; [reflexivity|].
    rewrite (utf8_char_2 (b0 - 0xC0) (b1 - 0x80)) by lia.
    unfold is_code_point, is_surrogate. repeat split.
    - repeat (f_equal; try lia).
    - apply N.leb_le. lia.
    - decide_cmp. reflexivity. }
  destruct (N.ltb_spec b0 0xF0) as [L3|L3].
  { destruct r0 as [|b1 r1].
    { exists [b0], []. repeat split; discriminate. }
    unfold is_continuation.
    destruct (N.leb_spec 0x80 b1) as [C1|C1]; [destruct (N.ltb_spec b1 0xC0) as [C1'|C1']|];
      cbn [andb negb orb]; try (exists [b0], (b1 :: r1); repeat split; discriminate).
    destruct (N.ltb_spec b1 0xA0) as [A|A]; destruct (N.eqb_spec b0 0xE0) as [E0|E0];
      destruct (N.eqb_spec b0 0xED) as [E1|E1];
      try (exists [b0], (b1 :: r1); repeat split; discriminate); try (exfalso; lia).
    all: destruct r1 as [|b2 r2]; [exists [b0; b1], []; repeat split; discriminate|].
    all: destruct (N.leb_spec 0x80 b2) as [C2|C2];
      [destruct (N.ltb_spec b2 0xC0) as [C2'|C2']|];
      cbn [andb]; try (exists [b0; b1], (b2 :: r2); repeat split; discriminate).
    all: exists [b0; b1; b2], r2; split; [reflexivity|]; split; [discriminate|];
      split; [reflexivity|].
    all: replace ((b0 - 0xE0) * 4096 + (b1 - 0x80) * 64 + (b2 - 0x80))
           with (((b0 - 0xE0) * 64 + (b1 - 0x80)) * 64 + (b2 - 0x80)) by lia.
    all: rewrite utf8_char_3 by lia.
    all: set (c := ((b0 - 0xE0) * 64 + (b1 - 0x80)) * 64 + (b2 - 0x80)).
    all: unfold is_code_point, is_surrogate; repeat split;
      [ repeat (f_equal; try lia)
      | apply N.leb_le; subst c; lia
      | destruct (N.leb_spec 55296 c); destruct (N.leb_spec c 57343);
        cbn [andb]; try reflexivity; exfalso; subst c; lia ]. }
  destruct (N.ltb_spec b0 0xF5) as [L4|L4].
  { destruct r0 as [|b1 r1].
    { exists [b0], []. repeat split; discriminate. }
    unfold is_continuation.
    destruct (N.leb_spec 0x80 b1) as [C1|C1]; [destruct (N.ltb_spec b1 0xC0) as [C1'|C1']|];
      cbn [andb negb orb]; try (exists [b0], (b1 :: r1); repeat split; discriminate).
    destruct (N.ltb_spec b1 0x90) as [A|A]; destruct (N.eqb_spec b0 0xF0) as [E0|E0];
      destruct (N.eqb_spec b0 0xF4) as [E1|E1];
      try (exists [b0], (b1 :: r1); repeat split; discriminate); try (exfalso; lia).
    all: destruct r1 as [|b2 r2]; [exists [b0; b1], []; repeat split; discriminate|].
    all: destruct (N.leb_spec 0x80 b2) as [C2|C2];
      [destruct (N.ltb_spec b2 0xC0) as [C2'|C2']|];
      cbn [andb negb]; try (exists [b0; b1], (b2 :: r2); repeat split; discriminate).
    all: destruct r2 as [|b3 r3]; [exists [b0; b1; b2], []; repeat split; discriminate|].
    all: destruct (N.leb_spec 0x80 b3) as [C3|C3];
      [destruct (N.ltb_spec b3 0xC0) as [C3'|C3']|];
      cbn [andb]; try (exists [b0; b1; b2], (b3 :: r3); repeat split; discriminate).
    all: exists [b0; b1; b2; b3], r3; split; [reflexivity|]; split; [discriminate|];
      split; [reflexivity|].
    all: replace ((b0 - 0xF0) * 262144 + (b1 - 0x80) * 4096 + (b2 - 0x80) * 64 + (b3 - 0x80))
           with ((((b0 - 0xF0) * 64 + (b1 - 0x80)) * 64 + (b2 - 0x80)) * 64 + (b3 - 0x80))
           by lia.
    all: rewrite utf8_char_4 by lia.
    all: set (c := (((b0 - 0xF0) * 64 + (b1 - 0x80)) * 64 + (b2 - 0x80)) * 64 + (b3 - 0x80)).
    all: unfold is_code_point, is_surrogate; repeat split;
      [ repeat (f_equal; try lia)
      | apply N.leb_le; subst c; lia
      | destruct (N.leb_spec 55296 c); destruct (N.leb_spec c 57343);
        cbn [andb]; try reflexivity; exfalso; subst c; lia ]. }
  exists [b0], r0. repeat split; discriminate.
Qed.

(** Induction on the decoder's output. *)
Lemma utf8_decode_ind (P : bytes -> list (option N) -> Prop) :
  P [] [] ->
  (forall p r o, p <> [] ->
     match o with
     | Some c => p = utf8_char c /\ is_code_point c = true /\ is_surrogate c = false
     | None => True
     end ->
     P r (utf8_decode r) -> P (p ++ r) (o :: utf8_decode r)) ->
  forall b, P b (utf8_decode b).
Proof.
  intros H0 Hs b.
  assert (G : forall n b, (length b <= n)%nat -> P b (utf8_decode b)).
  { clear b. induction n as [|n IH]; intros b Hn.
    - destruct b; [exact H0 | cbn in Hn; lia].
    - pose proof (utf8_decode_step b) as Hb.
      destruct (utf8_decode b) as [|o l].
      + subst b. exact H0.
      + destruct Hb as (p & r & -> & Hp & -> & Ho).
        apply Hs; [exact Hp | exact Ho |].
        apply IH. rewrite length_app in Hn. destruct p; [contradiction|]. cbn in Hn. lia. }
  exact (G (length b) b (le_n _)).
Qed.

Lemma decode_strict_encode (b : bytes) (s : str) :
  decode_strict b = Some s ->
  encode_backslashreplace s = b /\ forallb scalar s = true.
Proof.
  unfold decode_strict. revert s.
  apply (utf8_decode_ind (fun b l => forall s, all_decoded l = Some s ->
           encode_backslashreplace s = b /\ forallb scalar s = true)).
  - intros s H. injection H as <-. split; reflexivity.
  - intros p r [c|] Hp Ho IH s H; [|discriminate].
    cbn [all_decoded] in H. destruct (all_decoded (utf8_decode r)) as [t|]; [|discriminate].
    injection H as <-. destruct Ho as (-> & Hc & Hn). destruct (IH t eq_refl) as [E F].
    unfold encode_backslashreplace in *. cbn [flat_map forallb]. rewrite Hn, E.
    split; [reflexivity|]. unfold scalar at 1. rewrite Hc, Hn, F. reflexivity.
Qed.

Lemma decode_replace_scalar (b : bytes) : forallb scalar (decode_replace b) = true.
Proof.
  unfold decode_replace.
  apply (utf8_decode_ind (fun _ l =>
           forallb scalar (map (fun o => match o with Some c => c | None => 0xFFFD end) l)
           = true)).
  - reflexivity.
  - intros p r [c|] _ Ho IH; cbn [map forallb]; rewrite IH.
    + destruct Ho as (_ & Hc & Hn). unfold scalar. rewrite Hc, Hn. reflexivity.
    + reflexivity.
Qed.

Lemma decode_replace_kept (b : bytes) :
  forallb kept b = true -> forallb kept (decode_replace b) = true.
Proof.
  unfold decode_replace.
  apply (utf8_decode_ind (fun b l =>
           forallb kept b = true ->
           forallb kept (map (fun o => match o with Some c => c | None => 0xFFFD end) l)
           = true)).
  - reflexivity.
  - intros p r o _ Ho IH H. rewrite forallb_app in H. apply andb_prop in H as [Hp Hr].
    cbn [map forallb]. rewrite (IH Hr), andb_true_r.
    destruct o as [c|]; [|reflexivity].
    destruct Ho as (-> & _ & _).
    destruct (N.ltb_spec c 0x80) as [Hc|Hc].
    + unfold utf8_char in Hp. apply N.ltb_lt in Hc. rewrite Hc in Hp.
      cbn [forallb] in Hp. rewrite andb_true_r in Hp. exact Hp.
    + apply kept_above. lia.
Qed.

Lemma all_decoded_replace (l : list (option N)) (s : str) :
  all_decoded l = Some s ->
  map (fun o => match o with Some c => c | None => 0xFFFD end) l = s.
Proof.
  revert s. induction l as [|[c|] l IH]; intros s H; cbn [all_decoded] in H.
  - injection H as <-. reflexivity.
  - destruct (all_decoded l) as [t|]; [|discriminate]. injection H as <-.
    cbn [map]. rewrite (IH t eq_refl). reflexivity.
  - discriminate.
Qed.

Lemma scalar_text (s : str) :
  forallb scalar s = true ->
  well_formed_str s /\ (forall x, In x s -> is_surrogate x = false).
Proof.
  unfold well_formed_str. rewrite !forallb_forall. intro H. split.
  - intros x Hx. specialize (H x Hx). unfold scalar in H. apply andb_prop in H as [H _].
    exact H.
  - intros x Hx. specialize (H x Hx). unfold scalar in H. apply andb_prop in H as [_ H].
    destruct (is_surrogate x); [discriminate | reflexivity].
Qed.

Lemma filter_forallb {A} (p : A -> bool) (l : list A) : forallb p (filter p l) = true.
Proof.
  apply forallb_forall. intros x Hx. apply filter_In in Hx as [_ Hx]. exact Hx.
Qed.

Lemma forallb_filter_id {A} (p : A -> bool) (l : list A) :
  forallb p l = true -> filter p l = l.
Proof. intro H. apply filter_all. apply forallb_forall. exact H. Qed.

Lemma valid_xml_char (c : N) :
  is_valid_xml_char_ordinal c = true -> scalar c = true /\ kept c = true.
Proof.
  unfold is_valid_xml_char_ordinal, scalar, is_code_point, is_surrogate, kept, removed_control.
  intro H.
  assert (H' : 0x20 <= c <= 0xD7FF \/ c = 9 \/ c = 10 \/ c = 13
               \/ 0xE000 <= c <= 0xFFFD \/ 0x10000 <= c <= 0x10FFFF).
  { repeat match type of H with
           | _ || _ = true => apply orb_prop in H as [H|H]
           | _ && _ = true => apply andb_prop in H as [H ?H]
           end;
    repeat match goal with
           | H : (_ <=? _) = true |- _ => apply N.leb_le in H
           | H : (_ =? _) = true |- _ => apply N.eqb_eq in H
           end; lia. }
  clear H. destruct H' as [H|[H|[H|[H|[H|H]]]]]; split; decide_cmp; reflexivity.
Qed.

Section TextFacts.
Context {lib : Libraries}.

Lemma sanitize_bytes (b : bytes) :
  sanitize (PyBytes b) = Ok (decode_replace (filter kept b)).
Proof.
  unfold sanitize, force_bytes, force_unicode, REPLACEMENTS.
  rewrite replace_all_singles. do 2 f_equal.
  apply filter_ext. intro c. unfold kept. f_equal.
  exact (removed_control_table c).
Qed.

Lemma sanitize_scalar (s : str) :
  forallb scalar s = true -> forallb kept s = true -> sanitize (PyStr s) = Ok s.
Proof.
  intros Hs Hk. destruct (scalar_text s Hs) as [Hw Hn].
  rewrite sanitize_result by exact Hw.
  rewrite forallb_filter_id by exact Hk. rewrite escape_surrogates_none by exact Hn.
  reflexivity.
Qed.

Lemma from_python_valid (v : value) :
  forallb is_valid_xml_char_ordinal (_from_python v) = true.
Proof. unfold _from_python, clean_xml_string. apply filter_forallb. Qed.

End TextFacts.

(** X1: Text of Unicode scalar values survives [force_bytes] followed by
    [force_unicode]. *)
Theorem force_unicode_of_force_bytes {lib : Libraries} (s : str) :
  forallb scalar s = true -> force_unicode (force_bytes (PyStr s)) = s.
Proof.
  intro H. destruct (scalar_text s H) as [Hw Hn].
  unfold force_bytes, force_unicode. rewrite decode_encode by exact Hw.
  apply escape_surrogates_none. exact Hn.
Qed.

Lemma force_unicode_of_force_bytes_witness :
  forallb scalar [0x61; 0xE9; 0x20AC; 0x1F600] = true
  /\ force_unicode (lib := no_libraries) (force_bytes (PyStr [0x61; 0xE9; 0x20AC; 0x1F600]))
     = [0x61; 0xE9; 0x20AC; 0x1F600].
Proof.
  split; [reflexivity|].
  apply (force_unicode_of_force_bytes (lib := no_libraries)). reflexivity.
Defined.

(** X2: A byte string that is UTF-8 survives [force_unicode] followed by
    [force_bytes]: the decoder accepts only what the encoder writes. *)
Theorem force_bytes_of_force_unicode {lib : Libraries} (b : bytes) (s : str) :
  decode_strict b = Some s ->
  force_unicode (PyBytes b) = s
  /\ force_bytes (PyStr (force_unicode (PyBytes b))) = PyBytes b
  /\ forallb scalar s = true.
Proof.
  intro H. destruct (decode_strict_encode b s H) as [E F].
  assert (D : force_unicode (PyBytes b) = s).
  { unfold force_unicode, decode_replace. apply all_decoded_replace. exact H. }
  rewrite D. unfold force_bytes. rewrite E. repeat split. exact F.
Qed.

Lemma force_bytes_of_force_unicode_witness :
  decode_strict [0x61; 0xC3; 0xA9; 0xE2; 0x82; 0xAC] = Some [0x61; 0xE9; 0x20AC]
  /\ force_unicode (lib := no_libraries) (PyBytes [0x61; 0xC3; 0xA9; 0xE2; 0x82; 0xAC])
  = [0x61; 0xE9; 0x20AC]
  /\ force_bytes (PyStr (force_unicode (lib := no_libraries)
                           (PyBytes [0x61; 0xC3; 0xA9; 0xE2; 0x82; 0xAC])))
     = PyBytes [0x61; 0xC3; 0xA9; 0xE2; 0x82; 0xAC]
  /\ forallb scalar [0x61; 0xE9; 0x20AC] = true.
Proof.
  split; [reflexivity|].
  apply (force_bytes_of_force_unicode (lib := no_libraries)). reflexivity.
Defined.

Lemma sanitize_kept {lib : Libraries} (data : value) (t : str) :
  sanitize data = Ok t -> forallb kept t = true.
Proof.
  intro H. destruct data; try discriminate H.
  - rewrite sanitize_text in H. injection H as <-.
    apply decode_replace_kept. apply filter_forallb.
  - rewrite sanitize_bytes in H. injection H as <-.
    apply decode_replace_kept. apply filter_forallb.
Qed.

(** X3: Whatever [sanitize] returns holds none of the control characters
    of [REPLACEMENTS], for text and for byte strings alike. *)
Theorem sanitize_removes_controls {lib : Libraries} (data : value) (t : str) :
  sanitize data = Ok t -> forallb (fun c => negb (removed_control c)) t = true.
Proof. exact (sanitize_kept data t). Qed.

Lemma sanitize_removes_controls_witness :
  sanitize (lib := no_libraries) (PyBytes [0x61; 0x00; 0x1F; 0x62]) = Ok (L "ab")
  /\ forallb (fun c => negb (removed_control c)) (L "ab") = true.
Proof.
  split; [reflexivity|].
  apply (sanitize_removes_controls (lib := no_libraries) (PyBytes [0x61; 0x00; 0x1F; 0x62])).
  reflexivity.
Defined.

(** X4: The sanitizer leaves the text of the codec as it is. *)
Theorem sanitize_keeps_from_python {lib : Libraries} (v : value) :
  sanitize (PyStr (_from_python v)) = Ok (_from_python v).
Proof.
  pose proof (from_python_valid v) as H. rewrite forallb_forall in H.
  apply sanitize_scalar; apply forallb_forall; intros x Hx;
    destruct (valid_xml_char x (H x Hx)); assumption.
Qed.

(** ** Joining the URL *)

(** X5: Slashes at the joint do not count: whatever the number of slashes
    that end the base URL and start the path, the full URL has one. *)
Theorem create_full_url_one_slash (u p : str) (n m : nat) (t : N) :
  last u 0 <> 0x2F -> hd 0 p <> 0x2F -> (0 < m + length p)%nat ->
  _create_full_url {| url := u ++ repeat 0x2F n; timeout := t |} (repeat 0x2F m ++ p)
  = u ++ L "/" ++ p.
Proof.
  intros Hu Hp Hl. unfold _create_full_url. cbn [url].
  destruct (repeat 0x2F m ++ p) eqn:E.
  - apply (f_equal (@length N)) in E. rewrite length_app, repeat_length in E.
    cbn [length] in E. lia.
  - rewrite <- E. rewrite rstrip_by_repeat by reflexivity.
    rewrite lstrip_by_repeat by reflexivity.
    rewrite rstrip_by_last by (apply N.eqb_neq; congruence).
    rewrite lstrip_by_head by (apply N.eqb_neq; congruence). reflexivity.
Qed.

Lemma create_full_url_one_slash_witness :
  _create_full_url {| url := L "http://host/solr" ++ repeat 0x2F 2; timeout := 60 |}
                   (repeat 0x2F 3 ++ L "select/?q=a")
  = L "http://host/solr" ++ L "/" ++ L "select/?q=a".
Proof.
  apply create_full_url_one_slash; [discriminate | discriminate | cbn; lia].
Defined.

(** ** The dispatcher *)

Lemma startswith_app (p s : str) : startswith p (p ++ s) = true.
Proof.
  induction p as [|c p IH]; [reflexivity|]. cbn [app startswith].
  rewrite N.eqb_refl. exact IH.
Qed.

Lemma contains_app (a p s : str) : contains p (a ++ p ++ s) = true.
Proof.
  induction a as [|c a IH].
  - cbn [app]. destruct (p ++ s) eqn:E; cbn [contains]; rewrite <- E, startswith_app;
      reflexivity.
  - cbn [app contains]. rewrite IH. apply orb_true_r.
Qed.

(** X6: A failure of the transport (a URL that cannot be encoded or is
    malformed, a name that does not resolve, an unknown method, a broken
    connection) reaches the caller as a [SolrError] with the message of its
    kind, which names the URL, or the method in upper case when it is the
    method that is unknown; one request was issued.  The method is ASCII
    text. *)
Theorem send_request_transport_failure {lib : Libraries}
  (fetch : HTTPRequest -> result HTTPResponse) (self : Solr) (method path : str)
  (body : option value) (headers : list (str * str)) (e : exn) :
  forallb is_ascii method = true ->
  fetch (prepared_request self method path body headers) = Raise e ->
  transport_failure e = true ->
  exists msg,
    outcome (_send_request fetch self method path body headers None) = Raise (SolrError msg)
    /\ msg = match e with
             | UnicodeDecodeError | UnicodeEncodeError =>
                 L "URL is too long: " ++ _create_full_url self path
             | ValueError _ =>
                 L "URL is empty or protocol missing: " ++ _create_full_url self path
             | GaiError => L "Socket error (DNS?) connecting to " ++ _create_full_url self path
             | KeyError => L "Unknown HTTP method " ++ [0x22] ++ upper method ++ [0x22]
             | _ => L "Connection error with " ++ _create_full_url self path
             end
    /\ contains (match e with
                 | KeyError => upper method
                 | _ => _create_full_url self path
                 end) msg = true
    /\ requests (_send_request fetch self method path body headers None)
       = [prepared_request self method path body headers].
Proof.
  intros _ H Ht. unfold outcome, requests, _send_request, issue. cbn [app]. rewrite H.
  pose proof (fun a => contains_app a (_create_full_url self path) []) as Hu.
  setoid_rewrite app_nil_r in Hu.
  destruct e; try discriminate Ht; cbn [fst snd]; eexists;
    (split; [reflexivity | split; [reflexivity | split; [|reflexivity]]]); try apply Hu.
  unfold _FETCH_KEY_ERROR. rewrite app_assoc. apply contains_app.
Qed.

Lemma send_request_transport_failure_witness :
  (exists msg,
     outcome (_send_request (lib := no_libraries) (fun _ => Raise GaiError) sample_solr
                (L "get") (L "select/?q=x") None [] None) = Raise (SolrError msg)
     /\ msg = L "Socket error (DNS?) connecting to http://localhost:8983/solr/select/?q=x"
     /\ contains (L "http://localhost:8983/solr/select/?q=x") msg = true
     /\ requests (_send_request (lib := no_libraries) (fun _ => Raise GaiError) sample_solr
                    (L "get") (L "select/?q=x") None [] None)
        = [ {| req_url := L "http://localhost:8983/solr/select/?q=x"; req_method := L "GET";
               req_headers := []; req_body := None; request_timeout := 60 |} ])
  /\ (exists msg,
        outcome (_send_request (lib := no_libraries) (fun _ => Raise KeyError) sample_solr
                   (L "frob") (L "select/?q=x") None [] None) = Raise (SolrError msg)
        /\ msg = L "Unknown HTTP method " ++ [0x22] ++ L "FROB" ++ [0x22]
        /\ contains (L "FROB") msg = true
        /\ requests (_send_request (lib := no_libraries) (fun _ => Raise KeyError) sample_solr
                       (L "frob") (L "select/?q=x") None [] None)
           = [ {| req_url := L "http://localhost:8983/solr/select/?q=x";
                  req_method := L "FROB"; req_headers := []; req_body := None;
                  request_timeout := 60 |} ]).
Proof.
  split.
  - apply (send_request_transport_failure (lib := no_libraries) (fun _ => Raise GaiError)
             sample_solr (L "get") (L "select/?q=x") None [] GaiError); reflexivity.
  - apply (send_request_transport_failure (lib := no_libraries) (fun _ => Raise KeyError)
             sample_solr (L "frob") (L "select/?q=x") None [] KeyError); reflexivity.
Defined.

(** X7: An answer is always returned as text of Unicode scalar values: a
    body that is UTF-8 is returned as its text, and one that is not costs
    no exception (each ill-formed run is read as U+FFFD). *)
Theorem send_request_returns_text {lib : Libraries}
  (fetch : HTTPRequest -> result HTTPResponse) (self : Solr) (method path : str)
  (body : option value) (headers : list (str * str)) (resp : HTTPResponse) :
  fetch (prepared_request self method path body headers) = Ok resp ->
  exists t,
    outcome (_send_request fetch self method path body headers None) = Ok t
    /\ forallb scalar t = true
    /\ (forall s, decode_strict (resp_body resp) = Some s -> t = s).
Proof.
  intro H. unfold outcome, _send_request, issue. rewrite H. cbn [fst force_unicode].
  eexists. split; [reflexivity|]. split.
  - apply decode_replace_scalar.
  - intros s Hs. unfold decode_replace. apply all_decoded_replace. exact Hs.
Qed.

Lemma send_request_returns_text_witness :
  exists t,
    outcome (_send_request (lib := no_libraries) (fun _ => Ok tomcat_500) sample_solr
               (L "get") (L "select/?q=x") None [] None) = Ok t
    /\ forallb scalar t = true
    /\ (forall s, decode_strict (resp_body tomcat_500) = Some s -> t = s).
Proof.
  apply (send_request_returns_text (lib := no_libraries) (fun _ => Ok tomcat_500)
           sample_solr (L "get") (L "select/?q=x") None [] tomcat_500).
  reflexivity.
Defined.

(** X8: [_mlt] and [_suggest_terms] always send a GET with the query in the
    URL: unlike [_select], they have no POST for a long query. *)
Theorem mlt_and_terms_use_get {lib : Libraries}
  (fetch : HTTPRequest -> result HTTPResponse) (self : Solr)
  (params : list (str * value)) (params_encoded : str) :
  urlencode (dict_set str_eqb (L "wt") (PyStr (L "json")) params) true = Ok params_encoded ->
  requests (_mlt fetch self params) = [get_request self (L "mlt/?" ++ params_encoded)]
  /\ requests (_suggest_terms fetch self params)
     = [get_request self (L "terms/?" ++ params_encoded)].
Proof.
  intro H. unfold requests, _mlt, _suggest_terms, bindIO, lift. rewrite H.
  rewrite !send_request_issues. split; reflexivity.
Qed.

Lemma mlt_and_terms_use_get_witness :
  (1024 <= length long_query)%nat
  /\ requests (_mlt (lib := sample_libraries long_query []) (failing_transport tomcat_500)
                 sample_solr [(L "q", PyStr (repeat 0x61 1100))])
     = [get_request sample_solr (L "mlt/?" ++ long_query)]
  /\ requests (_suggest_terms (lib := sample_libraries long_query [])
                 (failing_transport tomcat_500) sample_solr
                 [(L "q", PyStr (repeat 0x61 1100))])
     = [get_request sample_solr (L "terms/?" ++ long_query)].
Proof.
  split; [cbn; lia|].
  apply (mlt_and_terms_use_get (lib := sample_libraries long_query [])). reflexivity.
Defined.

(** ** The response format is not the caller's choice *)

Lemma same_but_refl (key : str) {A} (d : list (str * A)) : same_but key d d.
Proof.
  induction d as [|[a x] d IH]; cbn [same_but]; [exact I|].
  split; [reflexivity|]. destruct (str_eqb key a); auto.
Qed.

Lemma same_but_set_key (key : str) {A} (x y : A) (d : list (str * A)) :
  same_but key (dict_set str_eqb key x d) (dict_set str_eqb key y d).
Proof.
  induction d as [|[a v] d IH]; cbn [dict_set].
  - cbn [same_but]. rewrite str_eqb_refl. auto.
  - destruct (str_eqb key a) eqn:E; cbn [same_but].
    + rewrite str_eqb_refl. auto.
    + rewrite E. auto.
Qed.

Lemma same_but_set (key k : str) {A} (v : A) (d d' : list (str * A)) :
  same_but key d d' -> same_but key (dict_set str_eqb k v d) (dict_set str_eqb k v d').
Proof.
  revert d'. induction d as [|[a x] d IH]; intros [|[b y] d'] H; cbn [same_but] in H;
    try contradiction.
  - apply same_but_refl.
  - destruct H as [<- H]. cbn [dict_set]. destruct (str_eqb k a) eqn:Ek.
    + apply str_eqb_eq in Ek. subst k. cbn [same_but]. split; [reflexivity|].
      destruct (str_eqb key a); [exact H | split; [reflexivity | apply H]].
    + cbn [same_but]. split; [reflexivity|].
      destruct (str_eqb key a).
      * subst d'. reflexivity.
      * destruct H as [<- H]. split; [reflexivity | apply IH; exact H].
Qed.

Lemma same_but_update (key : str) {A} (kwargs d d' : list (str * A)) :
  same_but key d d' -> same_but key (dict_update kwargs d) (dict_update kwargs d').
Proof.
  unfold dict_update. revert d d'.
  induction kwargs as [|[k v] kwargs IH]; intros d d' H; [exact H|].
  cbn [fold_left fst snd]. apply IH. apply same_but_set. exact H.
Qed.

Lemma same_but_forced (key : str) {A} (v : A) (d d' : list (str * A)) :
  same_but key d d' -> dict_set str_eqb key v d = dict_set str_eqb key v d'.
Proof.
  revert d'. induction d as [|[a x] d IH]; intros [|[b y] d'] H; cbn [same_but] in H;
    try contradiction; [reflexivity|].
  destruct H as [<- H]. cbn [dict_set]. destruct (str_eqb key a).
  - subst d'. reflexivity.
  - destruct H as [<- H]. f_equal. apply IH. exact H.
Qed.

Lemma forced_parameter (key : str) {A} (v x y : A) (k1 k2 d : list (str * A)) :
  dict_set str_eqb key v (dict_update (k1 ++ (key, x) :: k2) d)
  = dict_set str_eqb key v (dict_update (k1 ++ (key, y) :: k2) d).
Proof.
  apply same_but_forced. unfold dict_update. rewrite !fold_left_app. cbn [fold_left fst snd].
  apply (same_but_update key k2). apply same_but_set_key.
Qed.

(** X9: The value a caller gives for [wt] never reaches Solr: [search],
    [more_like_this] and [suggest_terms] run the same whatever it is. *)
Theorem wt_is_forced {lib : Libraries} (fetch : HTTPRequest -> result HTTPResponse)
  (int_other : json -> result Z) (self : Solr) (q mltfl fields prefix x y : value)
  (k1 k2 : list (str * value)) :
  search fetch int_other self q (k1 ++ (L "wt", x) :: k2)
  = search fetch int_other self q (k1 ++ (L "wt", y) :: k2)
  /\ more_like_this fetch int_other self q mltfl (k1 ++ (L "wt", x) :: k2)
     = more_like_this fetch int_other self q mltfl (k1 ++ (L "wt", y) :: k2)
  /\ suggest_terms fetch self fields prefix (k1 ++ (L "wt", x) :: k2)
     = suggest_terms fetch self fields prefix (k1 ++ (L "wt", y) :: k2).
Proof.
  unfold search, more_like_this, suggest_terms, _select, _mlt, _suggest_terms.
  repeat split.
  - rewrite (forced_parameter (L "wt") _ x y). reflexivity.
  - rewrite (forced_parameter (L "wt") _ x y). reflexivity.
  - change (fold_left (fun d kv => dict_set str_eqb (fst kv) (snd kv) d) ?k ?d)
      with (dict_update k d).
    rewrite (forced_parameter (L "wt") _ x y). reflexivity.
Qed.

(** ** Updates on the wire *)

Lemma encode_kept (s : str) :
  forallb kept s = true -> forallb kept (encode_backslashreplace s) = true.
Proof.
  intro H. rewrite <- (forallb_filter_id kept s H), <- filter_encode. apply filter_forallb.
Qed.

Lemma plain_scalar_kept (s : str) :
  forallb plain s = true -> forallb scalar s = true /\ forallb kept s = true.
Proof.
  rewrite !forallb_forall. intro H. split; intros x Hx; specialize (H x Hx);
    unfold plain in H; apply andb_prop in H as [H1 H2]; apply N.leb_le in H1, H2.
  - unfold scalar, is_code_point, is_surrogate. decide_cmp. reflexivity.
  - apply kept_above. lia.
Qed.

Section UpdateFacts.
Context {lib : Libraries}.
Variable fetch : HTTPRequest -> result HTTPResponse.

Lemma sanitize_plain (s : str) : forallb plain s = true -> sanitize (PyStr s) = Ok s.
Proof. intro H. destruct (plain_scalar_kept s H). apply sanitize_scalar; assumption. Qed.

(** The one request of an update that carries a commit flag. *)
Lemma update_issues (self : Solr) (message commit softCommit waitFlush waitSearcher : value)
  (m flag : str) :
  sanitize message = Ok m ->
  (if negb (is_none commit) then L "commit=" ++ bool_text commit
   else if negb (is_none softCommit) then L "softCommit=" ++ bool_text softCommit
   else []) = flag ->
  flag <> [] ->
  requests (_update fetch self message (PyBool true) commit softCommit waitFlush waitSearcher)
  = [update_request self (flag ++ wait_vars waitFlush waitSearcher)
                    (encode_backslashreplace m)].
Proof.
  intros H <- Hf.
  unfold requests, _update, bindIO, lift. rewrite H. cbn [truthy bind].
  rewrite send_request_issues. unfold wait_vars, update_request, prepared_request.
  destruct (is_none commit); [destruct (is_none softCommit); [contradiction|]|];
    destruct (is_none waitFlush), (is_none waitSearcher); cbn [negb app join option_map];
    unfold force_bytes; repeat rewrite <- app_assoc; rewrite ?app_nil_r; reflexivity.
Qed.

End UpdateFacts.

(** X10: With [clean_ctrl_chars] on, [_update] sends nothing when the
    sanitizer rejects the message, and raises what the sanitizer raised;
    otherwise it issues one request, a POST with the content type
    [text/xml; charset=utf-8] whose body is a byte string free of the
    control bytes of [REPLACEMENTS]. *)
Theorem update_body_is_clean {lib : Libraries} (fetch : HTTPRequest -> result HTTPResponse)
  (self : Solr) (message clean_ctrl_chars commit softCommit waitFlush waitSearcher : value) :
  truthy clean_ctrl_chars = true ->
  match sanitize message with
  | Raise e =>
      outcome (_update fetch self message clean_ctrl_chars commit softCommit
                       waitFlush waitSearcher) = Raise e
      /\ requests (_update fetch self message clean_ctrl_chars commit softCommit
                           waitFlush waitSearcher) = []
  | Ok _ =>
      exists u b,
        requests (_update fetch self message clean_ctrl_chars commit softCommit
                          waitFlush waitSearcher)
        = [ {| req_url := u; req_method := L "POST";
               req_headers := [(L "Content-type", L "text/xml; charset=utf-8")];
               req_body := Some (PyBytes b); request_timeout := timeout self |} ]
        /\ forallb (fun c => negb (removed_control c)) b = true
  end.
Proof.
  intro Ht. unfold outcome, requests, _update, bindIO, lift. rewrite Ht.
  destruct (sanitize message) as [m|e] eqn:E; cbn [bind fst snd]; [|split; reflexivity].
  rewrite send_request_issues. do 2 eexists. split; [reflexivity|].
  apply encode_kept. exact (sanitize_kept message m E).
Qed.

Lemma update_body_is_clean_witness :
  (exists u b,
     requests (_update (lib := no_libraries) (failing_transport tomcat_500) sample_solr
                 (PyStr (L "<add>" ++ [0x07; 0xD800] ++ L "</add>")) (PyBool true)
                 (PyBool true) (PyBool false) PyNone PyNone)
     = [ {| req_url := u; req_method := L "POST";
            req_headers := [(L "Content-type", L "text/xml; charset=utf-8")];
            req_body := Some (PyBytes b); request_timeout := 60 |} ]
     /\ forallb (fun c => negb (removed_control c)) b = true)
  /\ outcome (_update (lib := no_libraries) (failing_transport tomcat_500) sample_solr
                (PyInt 5) (PyBool true) (PyBool true) (PyBool false) PyNone PyNone)
     = Raise AttributeError
  /\ requests (_update (lib := no_libraries) (failing_transport tomcat_500) sample_solr
                 (PyInt 5) (PyBool true) (PyBool true) (PyBool false) PyNone PyNone)
     = [].
Proof.
  split.
  - apply (update_body_is_clean (lib := no_libraries) (failing_transport tomcat_500)
             sample_solr (PyStr (L "<add>" ++ [0x07; 0xD800] ++ L "</add>")) (PyBool true)
             (PyBool true) (PyBool false) PyNone PyNone eq_refl).
  - apply (update_body_is_clean (lib := no_libraries) (failing_transport tomcat_500)
             sample_solr (PyInt 5) (PyBool true) (PyBool true) (PyBool false) PyNone PyNone
             eq_refl).
Defined.

Section FacadeFacts.
Context {lib : Libraries}.
Variable fetch : HTTPRequest -> result HTTPResponse.

Lemma bool_text_plain (v : value) : forallb plain (bool_text v) = true.
Proof. unfold bool_text. destruct (truthy v); reflexivity. Qed.

Lemma str_of_Z_plain (z : Z) : forallb plain (str_of_Z z) = true.
Proof.
  destruct (str_of_Z_shape z) as (ds & Hd & [E|E]); rewrite E; cbn [forallb];
    rewrite (digits_plain ds Hd); reflexivity.
Qed.

Lemma append_all {A} (f : A -> Element) (l : list A) (e : Element) :
  fold_left (fun message x => elem_append (f x) message) l e
  = Elem (tag e) (attrib e) (text e) (children e ++ map f l).
Proof.
  revert e. induction l as [|x l IH]; intro e; cbn [fold_left map].
  - rewrite app_nil_r. destruct e; reflexivity.
  - rewrite IH. unfold elem_append. cbn [tag attrib text children].
    rewrite <- app_assoc. reflexivity.
Qed.

Lemma sanitize_decoded (b : bytes) :
  sanitize (PyStr (decode_replace b)) = Ok (filter kept (decode_replace b)).
Proof.
  destruct (scalar_text _ (decode_replace_scalar b)) as [Hw Hn].
  rewrite sanitize_result by exact Hw. rewrite escape_surrogates_none; [reflexivity|].
  intros x Hx. apply filter_In in Hx as [Hx _]. apply Hn. exact Hx.
Qed.

End FacadeFacts.

(** X11: [commit] always asks for a hard commit: the request is the POST
    of the commit message to [update/?commit=true], with the wait flags
    that were given, whatever [softCommit] is. *)
Theorem commit_request {lib : Libraries} (fetch : HTTPRequest -> result HTTPResponse)
  (self : Solr) (softCommit waitFlush waitSearcher expungeDeletes : value) :
  requests (commit fetch self softCommit waitFlush waitSearcher expungeDeletes)
  = [update_request self (L "commit=true" ++ wait_vars waitFlush waitSearcher)
       (if is_none expungeDeletes then L "<commit />"
        else L "<commit expungeDeletes=" ++ [0x22] ++ bool_text expungeDeletes ++ [0x22]
             ++ L " />")].
Proof.
  unfold commit.
  set (msg := if negb (is_none expungeDeletes) then _ else _).
  assert (Hp : forallb plain msg = true).
  { unfold msg, bool_text. destruct (is_none expungeDeletes), (truthy expungeDeletes);
      reflexivity. }
  rewrite (update_issues fetch self (PyStr msg) (PyBool true) softCommit waitFlush
             waitSearcher msg (L "commit=true") (sanitize_plain msg Hp) eq_refl)
    by discriminate.
  rewrite (encode_ascii msg Hp). unfold msg. destruct (is_none expungeDeletes); reflexivity.
Qed.

(** X12: [optimize] posts to [update/?commit=true] too; the number of
    segments is written in decimal, and a [maxSegments] of zero is left out
    like one that was not given. *)
Theorem optimize_request {lib : Libraries} (fetch : HTTPRequest -> result HTTPResponse)
  (self : Solr) (waitFlush waitSearcher : value) (maxSegments : option Z) :
  requests (optimize fetch self waitFlush waitSearcher maxSegments)
  = [update_request self (L "commit=true" ++ wait_vars waitFlush waitSearcher)
       match maxSegments with
       | None | Some 0%Z => L "<optimize />"
       | Some n => L "<optimize maxSegments=" ++ [0x22] ++ str_of_Z n ++ [0x22] ++ L " />"
       end].
Proof.
  unfold optimize.
  set (msg := match maxSegments with Some _ => _ | None => _ end).
  assert (Hp : forallb plain msg = true).
  { unfold msg. destruct maxSegments as [n|]; [|reflexivity].
    destruct (negb (n =? 0)%Z); [|reflexivity].
    rewrite !forallb_app, str_of_Z_plain. reflexivity. }
  rewrite (update_issues fetch self (PyStr msg) (PyBool true) (PyBool false) waitFlush
             waitSearcher msg (L "commit=true") (sanitize_plain msg Hp) eq_refl)
    by discriminate.
  rewrite (encode_ascii msg Hp). unfold msg. destruct maxSegments as [[|p|p]|]; reflexivity.
Qed.

(** X13: [add] sends all the documents in one POST: the [add] element has
    one [doc] child for each document, in order; it is serialized,
    decoded, freed of control characters and encoded again.  The commit
    flag is the one given, [true] by default, and [softCommit] is never
    sent. *)
Theorem add_request {lib : Libraries} (fetch : HTTPRequest -> result HTTPResponse)
  (ET_tostring_utf8 : Element -> bytes) (self : Solr) (docs : list (list (str * value)))
  (boost : option (list (str * value))) (fieldUpdates : option (list (str * str)))
  (commit softCommit : value) (commitWithin : option str) (waitFlush waitSearcher : value) :
  requests (add fetch ET_tostring_utf8 self docs boost fieldUpdates commit softCommit
                commitWithin waitFlush waitSearcher)
  = [update_request self
       (L "commit=" ++ (if is_none commit then L "true" else bool_text commit)
        ++ wait_vars waitFlush waitSearcher)
       (encode_backslashreplace
          (filter (fun c => negb (removed_control c))
             (decode_replace
                (ET_tostring_utf8 (add_message docs boost fieldUpdates commitWithin)))))].
Proof.
  unfold add. rewrite append_all.
  replace (Elem _ _ _ _) with (add_message docs boost fieldUpdates commitWithin)
    by (unfold add_message; destruct commitWithin as [[|c r]|]; reflexivity).
  cbn [force_unicode].
  rewrite (update_issues fetch self _ _ _ waitFlush waitSearcher _
             (L "commit=" ++ (if is_none commit then L "true" else bool_text commit))
             (sanitize_decoded _)).
  - rewrite <- app_assoc. reflexivity.
  - destruct (is_none commit) eqn:E; [reflexivity|]. cbn [negb]. rewrite E. reflexivity.
  - discriminate.
Qed.

(** X14: [delete] writes the identifier, or the query, into the message as
    it is, markup included: nothing escapes it. *)
Theorem delete_request {lib : Libraries} (fetch : HTTPRequest -> result HTTPResponse)
  (self : Solr) (t : str) (commit waitFlush waitSearcher : value) :
  forallb scalar t = true ->
  forallb (fun c => negb (removed_control c)) t = true ->
  requests (delete fetch self (PyStr t) PyNone commit waitFlush waitSearcher)
  = [update_request self (delete_flag commit ++ wait_vars waitFlush waitSearcher)
       (encode_backslashreplace (L "<delete><id>" ++ t ++ L "</id></delete>"))]
  /\ requests (delete fetch self PyNone (PyStr t) commit waitFlush waitSearcher)
     = [update_request self (delete_flag commit ++ wait_vars waitFlush waitSearcher)
          (encode_backslashreplace (L "<delete><query>" ++ t ++ L "</query></delete>"))].
Proof.
  intros Hs Hk.
  assert (H : forall a b, forallb plain a = true -> forallb plain b = true ->
                          sanitize (PyStr (a ++ t ++ b)) = Ok (a ++ t ++ b)).
  { intros a b Ha Hb. destruct (plain_scalar_kept a Ha), (plain_scalar_kept b Hb).
    apply sanitize_scalar; rewrite !forallb_app;
      repeat (apply andb_true_intro; split); assumption. }
  unfold delete. cbn [is_none andb negb percent_s py_str bind lift bindIO].
  split.
  - change (requests (_update fetch self (PyStr (L "<delete><id>" ++ t ++ L "</id></delete>"))
                        (PyBool true) commit (PyBool false) waitFlush waitSearcher) = 
            [update_request self (delete_flag commit ++ wait_vars waitFlush waitSearcher)
               (encode_backslashreplace (L "<delete><id>" ++ t ++ L "</id></delete>"))]).
    apply update_issues; [apply H; reflexivity | | ].
    + unfold delete_flag. destruct (is_none commit); reflexivity.
    + unfold delete_flag. destruct (is_none commit); discriminate.
  - change (requests (_update fetch self
                        (PyStr (L "<delete><query>" ++ t ++ L "</query></delete>"))
                        (PyBool true) commit (PyBool false) waitFlush waitSearcher) = 
            [update_request self (delete_flag commit ++ wait_vars waitFlush waitSearcher)
               (encode_backslashreplace (L "<delete><query>" ++ t ++ L "</query></delete>"))]).
    apply update_issues; [apply H; reflexivity | | ].
    + unfold delete_flag. destruct (is_none commit); reflexivity.
    + unfold delete_flag. destruct (is_none commit); discriminate.
Qed.

Lemma delete_request_witness :
  requests (delete (lib := no_libraries) (failing_transport tomcat_500) sample_solr
              (PyStr (L "1</id><id>2")) PyNone (PyBool true) PyNone PyNone)
  = [update_request sample_solr (L "commit=true")
       (L "<delete><id>1</id><id>2</id></delete>")]
  /\ requests (delete (lib := no_libraries) (failing_transport tomcat_500) sample_solr
                 PyNone (PyStr (L "1</id><id>2")) (PyBool true) PyNone PyNone)
     = [update_request sample_solr (L "commit=true")
          (L "<delete><query>1</id><id>2</query></delete>")].
Proof.
  apply (delete_request (lib := no_libraries) (failing_transport tomcat_500) sample_solr
           (L "1</id><id>2") (PyBool true) PyNone PyNone); reflexivity.
Defined.

(** ** Date texts *)

Lemma int_of_digit_text (ds : str) :
  ds <> [] -> forallb is_digit ds = true -> int_of_digits ds = Some (digits_value ds).
Proof.
  intros Hn Hd. unfold digits_value.
  assert (E : as_digits (map (fun c => c - 0x30) ds) = ds
              /\ forallb digit_value (map (fun c => c - 0x30) ds) = true).
  { clear Hn. induction ds as [|c ds IH]; [split; reflexivity|].
    cbn [forallb] in Hd. apply andb_prop in Hd as [Hc Hd]. destruct (IH Hd) as [E F].
    unfold is_digit in Hc. apply andb_prop in Hc as [H1 H2]. apply N.leb_le in H1, H2.
    unfold as_digits in *. cbn [map forallb]. rewrite E, F. split.
    - f_equal. lia.
    - unfold digit_value. decide_cmp. reflexivity. }
  destruct E as [E F].
  destruct (zero_pad_positional (map (fun c => c - 0x30) ds)) as [_ H].
  - destruct ds; [contradiction | discriminate].
  - exact F.
  - rewrite E in H. exact H.
Qed.

Lemma date_text_to_python {lib : Libraries}
  (y1 y2 y3 y4 m1 m2 d1 d2 h1 h2 i1 i2 s1 s2 : N) (frac : str) :
  forallb is_digit [y1;y2;y3;y4;m1;m2;d1;d2;h1;h2;i1;i2;s1;s2] = true ->
  (frac = [] \/ exists f fs, frac = 0x2E :: f :: fs /\ forallb is_digit (f :: fs) = true) ->
  _to_python (PyStr (dt_text y1 y2 y3 y4 m1 m2 d1 d2 h1 h2 i1 i2 s1 s2 frac))
  = bind (datetime_new (digits_value [y1;y2;y3;y4]) (digits_value [m1;m2])
                       (digits_value [d1;d2]) (digits_value [h1;h2])
                       (digits_value [i1;i2]) (digits_value [s1;s2]))
         (fun d => Ok (PyDatetime d)).
Proof.
  intros Hd Hf.
  destruct (datetime_regex_matches y1 y2 y3 y4 m1 m2 d1 d2 h1 h2 i1 i2 s1 s2 frac Hd Hf)
    as (st & Hst & Hg).
  cbn [forallb] in Hd.
  repeat match type of Hd with _ && _ = true => apply andb_prop in Hd as [?H Hd] end.
  unfold _to_python. cbn [bind].
  destruct (digit_first_not_bool y1
              (tl (dt_text y1 y2 y3 y4 m1 m2 d1 d2 h1 h2 i1 i2 s1 s2 frac))) as [Ht Hb];
    [left; assumption|].
  change (y1 :: tl (dt_text y1 y2 y3 y4 m1 m2 d1 d2 h1 h2 i1 i2 s1 s2 frac))
    with (dt_text y1 y2 y3 y4 m1 m2 d1 d2 h1 h2 i1 i2 s1 s2 frac) in Ht, Hb.
  rewrite Ht, Hb. unfold text_to_python. rewrite Hst.
  assert (G1 : Re.group 1 (Re.groups st) = Some [y1;y2;y3;y4])
    by exact (f_equal (fun l => nth 0 l None) Hg).
  assert (G2 : Re.group 2 (Re.groups st) = Some [m1;m2])
    by exact (f_equal (fun l => nth 1 l None) Hg).
  assert (G3 : Re.group 3 (Re.groups st) = Some [d1;d2])
    by exact (f_equal (fun l => nth 2 l None) Hg).
  assert (G4 : Re.group 4 (Re.groups st) = Some [h1;h2])
    by exact (f_equal (fun l => nth 3 l None) Hg).
  assert (G5 : Re.group 5 (Re.groups st) = Some [i1;i2])
    by exact (f_equal (fun l => nth 4 l None) Hg).
  assert (G6 : Re.group 6 (Re.groups st) = Some [s1;s2])
    by exact (f_equal (fun l => nth 5 l None) Hg).
  unfold group_int. rewrite G1, G2, G3, G4, G5, G6.
  rewrite !int_of_digit_text;
    try discriminate;
    try (cbn [forallb];
         repeat match goal with H : ?x = true |- context [?x] => rewrite H end;
         reflexivity).
Qed.

(** X15: Every text of the date pattern is handed to the [datetime]
    constructor: [_to_python] returns the date-time of the six numbers,
    whatever the fraction, and raises the constructor's [ValueError] when
    they are out of range; it never falls back on the text. *)
Theorem to_python_date_text {lib : Libraries}
  (y1 y2 y3 y4 m1 m2 d1 d2 h1 h2 i1 i2 s1 s2 : N) (frac : str) :
  forallb is_digit [y1;y2;y3;y4;m1;m2;d1;d2;h1;h2;i1;i2;s1;s2] = true ->
  (frac = [] \/ exists f fs, frac = 0x2E :: f :: fs /\ forallb is_digit (f :: fs) = true) ->
  _to_python (PyStr (dt_text y1 y2 y3 y4 m1 m2 d1 d2 h1 h2 i1 i2 s1 s2 frac))
  = bind (datetime_new (digits_value [y1;y2;y3;y4]) (digits_value [m1;m2])
                       (digits_value [d1;d2]) (digits_value [h1;h2])
                       (digits_value [i1;i2]) (digits_value [s1;s2]))
         (fun d => Ok (PyDatetime d)).
Proof. exact (date_text_to_python y1 y2 y3 y4 m1 m2 d1 d2 h1 h2 i1 i2 s1 s2 frac). Qed.

Lemma to_python_date_text_witness :
  _to_python (lib := no_libraries) (PyStr (L "2020-13-01T00:00:00.5Z"))
  = Raise (ValueError (L "out of range"))
  /\ _to_python (lib := no_libraries) (PyStr (L "2020-12-01T00:00:00.5Z"))
     = Ok (PyDatetime {| dt_date := {| year := 2020; month := 12; day := 1 |};
                         hour := 0; minute := 0; second := 0; microsecond := 0;
                         utcoffset := None |}).
Proof.
  split.
  - apply (to_python_date_text (lib := no_libraries) 0x32 0x30 0x32 0x30 0x31 0x33 0x30 0x31
             0x30 0x30 0x30 0x30 0x30 0x30 (L ".5")); [reflexivity|].
    right. exists 0x35, []. split; reflexivity.
  - apply (to_python_date_text (lib := no_libraries) 0x32 0x30 0x32 0x30 0x31 0x32 0x30 0x31
             0x30 0x30 0x30 0x30 0x30 0x30 (L ".5")); [reflexivity|].
    right. exists 0x35, []. split; reflexivity.
Defined.

(** ** Term suggestions, field by field *)

Lemma pop_pairs_parity (l : list json) :
  pop_pairs l = if Nat.even (length l) then Ok (zip_alternating l) else Raise IndexError.
Proof.
  assert (G : forall n l, (length l <= n)%nat ->
              pop_pairs l
              = if Nat.even (length l) then Ok (zip_alternating l) else Raise IndexError).
  { clear l. induction n as [|n IH]; intros [|a [|b r]] Hn; try reflexivity;
      cbn [length] in Hn; try lia.
    cbn [pop_pairs zip_alternating length Nat.even]. rewrite IH by lia.
    destruct (Nat.even (length r)); reflexivity. }
  apply (G (length l)). apply le_n.
Qed.

Lemma assoc_absent {A} (k : str) (l : list (str * A)) :
  ~ In k (map fst l) -> assoc k l = None.
Proof.
  induction l as [|[k' v] l IH]; intro H; [reflexivity|]. cbn [assoc].
  destruct (str_eqb k k') eqn:E.
  - apply str_eqb_eq in E. subst k'. exfalso. apply H. left. reflexivity.
  - apply IH. intro Hi. apply H. right. exact Hi.
Qed.

Lemma dict_set_new_field {A} (k : str) (v : A) (acc : list (str * A)) :
  ~ In k (map fst acc) ->
  dict_set key_eqb (JStr k) v (map (fun kv => (JStr (fst kv), snd kv)) acc)
  = map (fun kv => (JStr (fst kv), snd kv)) (acc ++ [(k, v)]).
Proof.
  induction acc as [|[k' v'] acc IH]; intro H; [reflexivity|].
  cbn [map dict_set app fst snd key_eqb].
  destruct (str_eqb k k') eqn:E.
  - apply str_eqb_eq in E. subst k'. exfalso. apply H. left. reflexivity.
  - f_equal. apply IH. intro Hi. apply H. right. exact Hi.
Qed.

Lemma collect_terms_fields (d acc : list (str * list json)) :
  NoDup (map fst (acc ++ d)) ->
  collect_terms (map (fun kv => (JStr (fst kv), JList (snd kv))) d) (paired acc)
  = if forallb (fun kv => Nat.even (length (snd kv))) d
    then Ok (paired (acc ++ d)) else Raise IndexError.
Proof.
  revert acc. induction d as [|[k l] d IH]; intros acc H.
  - rewrite app_nil_r. reflexivity.
  - cbn [map collect_terms term_pairs fst snd forallb]. rewrite pop_pairs_parity.
    destruct (Nat.even (length l)); [|reflexivity]. cbn [bind andb].
    assert (Hk : ~ In k (map fst acc)).
    { rewrite map_app in H. cbn [map fst] in H. apply NoDup_remove_2 in H.
      intro Hi. apply H. apply in_or_app. left. exact Hi. }
    assert (P : forall x, paired x
                = map (fun kv => (JStr (fst kv), snd kv))
                      (map (fun kv => (fst kv, zip_alternating (snd kv))) x)).
    { intro x. unfold paired. rewrite map_map. reflexivity. }
    replace (dict_set key_eqb (JStr k) (zip_alternating l) (paired acc))
      with (paired (acc ++ [(k, l)])).
    + rewrite IH; rewrite <- app_assoc; [reflexivity | exact H].
    + rewrite (P acc), dict_set_new_field, (P (acc ++ [(k, l)])), map_app; [reflexivity|].
      rewrite map_map. exact Hk.
Qed.

(** X16: The newer wire shape, field by field: when the field names are
    distinct, each field's flat list is cut into (term, count) pairs, in
    order, and a list of odd length fails the call with an [IndexError];
    the keys of the answer other than [terms] do not matter. *)
Theorem normalize_terms_fields (top : list (str * json)) (d : list (str * list json)) :
  assoc (L "terms") top = Some (terms_of d) ->
  NoDup (map fst d) ->
  normalize_terms (JDict top)
  = if forallb (fun kv => Nat.even (length (snd kv))) d
    then Ok (paired d) else Raise IndexError.
Proof.
  intros Ht Hn. unfold normalize_terms. rewrite Ht. unfold terms_of. cbn [bind].
  rewrite map_map. cbn [fst snd].
  exact (collect_terms_fields d [] Hn).
Qed.

Lemma normalize_terms_fields_witness :
  normalize_terms
    (JDict [(L "responseHeader", JDict []);
            (L "terms", terms_of [(L "color", [JStr (L "red"); JInt 5; JStr (L "blue")])])])
  = Raise IndexError.
Proof.
  apply (normalize_terms_fields
           [(L "responseHeader", JDict []);
            (L "terms", terms_of [(L "color", [JStr (L "red"); JInt 5; JStr (L "blue")])])]
           [(L "color", [JStr (L "red"); JInt 5; JStr (L "blue")])]).
  - reflexivity.
  - constructor; [intros [] | constructor].
Defined.

(** ** The document element *)

Section DocumentFacts.
Context {lib : Libraries}.
Variables (boost : option (list (str * value))) (fieldUpdates : option (list (str * str))).

Lemma append_values_frame (key : str) (vs : list value) (e : Element) :
  let e' := fold_left
              (fun doc_elem bit =>
                 if _is_null_value bit then doc_elem
                 else elem_append (field_elem key boost fieldUpdates bit) doc_elem) vs e in
  tag e' = tag e /\ attrib e' = attrib e /\ text e' = text e.
Proof.
  revert e. induction vs as [|v vs IH]; intro e; cbn [fold_left]; [repeat split|].
  destruct (_is_null_value v); [apply IH|].
  destruct (IH (elem_append (field_elem key boost fieldUpdates v) e)) as (H1 & H2 & H3).
  cbv zeta. rewrite H1, H2, H3. repeat split.
Qed.

Lemma build_frame (doc : list (str * value)) (e : Element) :
  NoDup (map fst doc) ->
  let e' := fold_left
              (fun doc_elem kv =>
                 let '(key, v) := kv in
                 if str_eqb key (L "boost")
                 then elem_set (L "boost") (force_unicode v) doc_elem
                 else
                   fold_left
                     (fun doc_elem bit =>
                        if _is_null_value bit then doc_elem
                        else elem_append (field_elem key boost fieldUpdates bit) doc_elem)
                     (field_values v) doc_elem) doc e in
  tag e' = tag e /\ text e' = text e
  /\ attrib e' = match assoc (L "boost") doc with
                 | Some v => dict_set str_eqb (L "boost") (force_unicode v) (attrib e)
                 | None => attrib e
                 end.
Proof.
  revert e. induction doc as [|[key v] doc IH]; intros e Hn; cbn [fold_left];
    [repeat split|].
  cbn [map fst] in Hn. apply NoDup_cons_iff in Hn as [Hk Hn]. cbn [assoc].
  destruct (str_eqb key (L "boost")) eqn:E.
  - apply str_eqb_eq in E. subst key. rewrite str_eqb_refl.
    destruct (IH (elem_set (L "boost") (force_unicode v) e) Hn) as (H1 & H2 & H3).
    cbv zeta. rewrite H1, H2, H3, (assoc_absent _ _ Hk). repeat split.
  - assert (E' : str_eqb (L "boost") key = false).
    { destruct (str_eqb (L "boost") key) eqn:E'; [|reflexivity].
      apply str_eqb_eq in E'. subst key. rewrite str_eqb_refl in E. discriminate. }
    rewrite E'.
    destruct (append_values_frame key (field_values v) e) as (F1 & F2 & F3).
    match goal with |- context [fold_left _ doc ?x] => destruct (IH x Hn) as (H1 & H2 & H3) end.
    cbv zeta. rewrite H1, H2, H3, F1, F2, F3. repeat split.
Qed.

End DocumentFacts.

(** X17: The element of a document: a [doc] without text whose only
    attribute is the [boost] of the document, when it has that key. *)
Theorem build_doc_boost_attribute {lib : Libraries} (doc : list (str * value))
  (boost : option (list (str * value))) (fieldUpdates : option (list (str * str))) :
  NoDup (map fst doc) ->
  tag (_build_doc doc boost fieldUpdates) = L "doc"
  /\ text (_build_doc doc boost fieldUpdates) = None
  /\ attrib (_build_doc doc boost fieldUpdates)
     = match assoc (L "boost") doc with
       | Some v => [(L "boost", force_unicode v)]
       | None => []
       end.
Proof.
  intro Hn. unfold _build_doc.
  destruct (build_frame boost fieldUpdates doc (Elem (L "doc") [] None []) Hn)
    as (H1 & H2 & H3).
  cbv zeta in H1, H2, H3. rewrite H1, H2, H3. cbn [tag text attrib dict_set].
  repeat split; destruct (assoc (L "boost") doc); reflexivity.
Qed.

Lemma build_doc_boost_attribute_witness :
  NoDup (map fst [(L "id", PyInt 7); (L "boost", PyFloat (S754_zero false))])
  /\ tag (_build_doc (lib := no_libraries)
            [(L "id", PyInt 7); (L "boost", PyFloat (S754_zero false))] None None) = L "doc"
  /\ text (_build_doc (lib := no_libraries)
             [(L "id", PyInt 7); (L "boost", PyFloat (S754_zero false))] None None) = None
  /\ attrib (_build_doc (lib := no_libraries)
               [(L "id", PyInt 7); (L "boost", PyFloat (S754_zero false))] None None)
     = [(L "boost", L "0.0")].
Proof.
  assert (H : NoDup (map fst [(L "id", PyInt 7); (L "boost", PyFloat (S754_zero false))])).
  { constructor; [|constructor; [intros [] | constructor]].
    intros [E|[]]. discriminate E. }
  split; [exact H|].
  exact (build_doc_boost_attribute (lib := no_libraries)
           [(L "id", PyInt 7); (L "boost", PyFloat (S754_zero false))] None None H).
Defined.

(** X18: Every child of the document element is a [field] without
    children, named after a key of the document, and its text is made of
    valid XML characters only. *)
Theorem build_doc_fields {lib : Libraries} (doc : list (str * value))
  (boost : option (list (str * value))) (fieldUpdates : option (list (str * str))) :
  Forall (fun e => tag e = L "field" /\ children e = []
                   /\ (exists key, In key (map fst doc)
                                   /\ assoc (L "name") (attrib e) = Some key)
                   /\ exists t, text e = Some t
                                /\ forallb is_valid_xml_char_ordinal t = true)
         (children (_build_doc doc boost fieldUpdates)).
Proof.
  rewrite build_doc_children. apply Forall_forall. intros e He.
  apply in_flat_map in He as ([key v] & Hd & He). unfold entry_fields in He.
  cbn [fst snd] in He. destruct (str_eqb key (L "boost")); [contradiction|].
  apply in_map_iff in He as (bit & <- & _). unfold field_elem. cbn [tag children text attrib].
  repeat split.
  - exists key. split.
    + apply in_map_iff. exists (key, v). split; [reflexivity | exact Hd].
    + destruct fieldUpdates as [m|]; [destruct (assoc key m)|];
        (destruct boost as [b|]; [destruct (assoc key b)|]); reflexivity.
  - eexists. split; [reflexivity|]. apply from_python_valid.
Qed.

(** ** What the scraper returns *)

Lemma replace_from_deletes (old : list N) (x : N) (s : list N) (skip : nat) :
  In x (replace_from old [] skip s) -> In x s.
Proof.
  revert skip. induction s as [|c s IH]; intros skip H; [exact H|].
  cbn [replace_from] in H. destruct skip as [|k].
  - destruct (startswith old (c :: s)).
    + right. exact (IH _ H).
    + destruct H as [H|H]; [left; exact H | right; exact (IH _ H)].
  - right. exact (IH _ H).
Qed.

Lemma lstrip_by_suffix (p : N -> bool) (s : str) :
  exists t, s = t ++ lstrip_by p s.
Proof.
  induction s as [|c s [t IH]]; [exists []; reflexivity|]. cbn [lstrip_by].
  destruct (p c); [exists (c :: t); cbn [app]; f_equal; exact IH | exists []; reflexivity].
Qed.

Lemma rstrip_by_prefix (p : N -> bool) (s : str) :
  exists t, s = rstrip_by p s ++ t.
Proof.
  unfold rstrip_by. destruct (lstrip_by_suffix p (rev s)) as [t H].
  exists (rev t). rewrite <- rev_app_distr, <- H, rev_involutive. reflexivity.
Qed.

Lemma lstrip_by_hd (p : N -> bool) (d : N) (s : str) :
  p d = false -> p (hd d (lstrip_by p s)) = false.
Proof.
  intro H. induction s as [|c s IH]; [exact H|]. cbn [lstrip_by].
  destruct (p c) eqn:E; [exact IH | exact E].
Qed.

Lemma hd_rev {A} (d : A) (l : list A) : hd d (rev l) = last l d.
Proof.
  destruct l as [|x l] using rev_ind; [reflexivity|].
  rewrite rev_app_distr, last_last. reflexivity.
Qed.

Lemma strip_trimmed (d : N) (s : str) :
  is_space d = false ->
  is_space (hd d (strip s)) = false /\ is_space (last (strip s) d) = false.
Proof.
  intro H. unfold strip. split.
  - pose proof (lstrip_by_hd is_space d s H) as Hh.
    destruct (rstrip_by_prefix is_space (lstrip_by is_space s)) as [t E].
    destruct (rstrip_by is_space (lstrip_by is_space s)) as [|c r]; [exact H|].
    rewrite E in Hh. exact Hh.
  - unfold rstrip_by. rewrite <- hd_rev, rev_involutive. apply lstrip_by_hd. exact H.
Qed.

Lemma strip_keeps (x : N) (s : str) : In x (strip s) -> In x s.
Proof.
  unfold strip. intro H.
  destruct (rstrip_by_prefix is_space (lstrip_by is_space s)) as [t E].
  destruct (lstrip_by_suffix is_space s) as [u F].
  rewrite F. apply in_or_app. right. rewrite E. apply in_or_app. left. exact H.
Qed.

Section DetailFacts.
Context {lib : Libraries}.

Lemma normalize_detail_one_line (v : value) :
  ~ In 0x0A (normalize_detail v) /\ ~ In 0x0D (normalize_detail v)
  /\ is_space (hd 0x61 (normalize_detail v)) = false
  /\ is_space (last (normalize_detail v) 0x61) = false.
Proof.
  unfold normalize_detail. split; [|split].
  - intro H. apply strip_keeps in H. unfold replace in H.
    do 3 apply replace_from_deletes in H.
    change (In 0x0A (replace [0x0A] [] (force_unicode v))) in H.
    rewrite replace_single in H. apply filter_In in H as [_ H]. discriminate H.
  - intro H. apply strip_keeps in H. unfold replace in H.
    do 2 apply replace_from_deletes in H.
    change (In 0x0D (replace [0x0D] [] (replace [0x0A] [] (force_unicode v)))) in H.
    rewrite replace_single in H. apply filter_In in H as [_ H]. discriminate H.
  - apply strip_trimmed. reflexivity.
Qed.

End DetailFacts.

(** X19: For a body without an XML declaration, the detail that the
    scraper returns is one line without white space around it: it holds no
    line feed and no carriage return, and neither starts nor ends with a
    space. *)
Theorem scrape_detail_one_line {lib : Libraries} (headers : list (str * str))
  (response : value) (body : str) (reason : option str) (detail : str) :
  decoded_body response = Ok body ->
  startswith (L "<?xml") body = false ->
  _scrape_response headers response = Ok (reason, detail) ->
  ~ In 0x0A detail /\ ~ In 0x0D detail
  /\ is_space (hd 0x61 detail) = false /\ is_space (last detail 0x61) = false.
Proof.
  intros Hb Hs H. unfold _scrape_response in H. rewrite Hb in H. cbn [bind] in H.
  rewrite Hs in H. cbn [bind] in H.
  match type of H with bind ?m _ = _ => destruct m as [[r full]|e] end;
    cbn [bind] in H; [|discriminate].
  injection H as _ <-. apply normalize_detail_one_line.
Qed.

Lemma scrape_detail_one_line_witness :
  _scrape_response (lib := no_libraries) tomcat_headers
     (PyBytes (L " boom<br/>" ++ [0x0D; 0x0A] ++ L "bang ")) = Ok (None, L "boombang")
  /\ ~ In 0x0A (L "boombang") /\ ~ In 0x0D (L "boombang")
  /\ is_space (hd 0x61 (L "boombang")) = false
  /\ is_space (last (L "boombang") 0x61) = false.
Proof.
  split; [reflexivity|].
  apply (scrape_detail_one_line (lib := no_libraries) tomcat_headers
           (PyBytes (L " boom<br/>" ++ [0x0D; 0x0A] ++ L "bang "))
           (L " boom<br/>" ++ [0x0D; 0x0A] ++ L "bang ") None (L "boombang"));
    reflexivity.
Defined.

(** X20: An error that Solr itself reports comes first: when the body
    starts with an XML declaration and its [msg] node has text that is not
    blank, the scraper returns that text, trimmed, as the reason, with the
    trimmed trace, or the message again, as the detail, whatever the server
    header says. *)
Theorem scrape_solr_error {lib : Libraries} (headers : list (str * str)) (response : value)
  (body : str) (soup n : Element) (t detail : str) :
  decoded_body response = Ok body ->
  startswith (L "<?xml") body = true ->
  ET_fromstring body = Ok soup ->
  find solr_msg_path soup = Some n ->
  text n = Some t ->
  strip t <> [] ->
  match find solr_trace_path soup with
  | None => detail = strip t
  | Some tb => exists t', text tb = Some t' /\ strip t' <> [] /\ detail = strip t'
  end ->
  _scrape_response headers response = Ok (Some (strip t), detail).
Proof.
  intros Hb Hs Hp Hn Ht Hne Hd. unfold _scrape_response. rewrite Hb. cbn [bind].
  rewrite Hs. unfold strict_xml. rewrite Hp, Hn. unfold text_strip. rewrite Ht.
  cbn [bind]. destruct (strip t) as [|c r] eqn:E; [contradiction|].
  destruct (find solr_trace_path soup) as [tb|].
  - destruct Hd as (t' & Ht' & Hne' & ->). rewrite Ht'. cbn [bind].
    destruct (strip t') as [|c' r'] eqn:E'; [contradiction|]. reflexivity.
  - subst detail. reflexivity.
Qed.

Lemma scrape_solr_error_witness :
  _scrape_response (lib := sample_libraries [] [(solr_error_body, solr_error_tree)])
                   tomcat_headers (PyStr solr_error_body)
  = Ok (Some (L "undefined field x"), L "undefined field x").
Proof.
  apply (scrape_solr_error (lib := sample_libraries [] [(solr_error_body, solr_error_tree)])
           tomcat_headers (PyStr solr_error_body) solr_error_body solr_error_tree
           (Elem (L "str") [(L "name", L "msg")] (Some (L " undefined field x ")) [])
           (L " undefined field x ") (L "undefined field x"));
    try reflexivity.
  discriminate.
Defined.

(** ** Results *)

(** X21: An answer without a [response], or with one that is [null] or
    empty, gives an empty result: no documents, no hits, false as a truth
    value; the header has to be a mapping when it is there. *)
Theorem results_without_response (int_other : json -> result Z) (d : list (str * json)) :
  match assoc (L "response") d with
  | Some r => json_truthy r = false
  | None => True
  end ->
  match assoc (L "responseHeader") d with
  | Some (JDict _) | None => True
  | Some _ => False
  end ->
  exists r, Results_init int_other (JDict d) = Ok r
    /\ docs r = None /\ hits r = 0%Z /\ Results_bool r = false /\ Results_len r = Ok O.
Proof.
  intros Hr Hh. unfold Results_init, json_get, or_empty. cbn [bind].
  assert (E : json_truthy match assoc (L "response") d with Some v => v | None => JNull end
              = false).
  { destruct (assoc (L "response") d); [exact Hr | reflexivity]. }
  rewrite E. cbn [bind assoc py_int].
  destruct (assoc (L "responseHeader") d) as [[| | | | | |h]|]; try contradiction;
    cbn [bind]; eexists; repeat split.
Qed.

Lemma results_without_response_witness :
  exists r, Results_init (fun _ => Raise (ValueError []))
              (JDict [(L "responseHeader", JDict [(L "QTime", JInt 3)]);
                      (L "response", JNull)]) = Ok r
    /\ docs r = None /\ hits r = 0%Z /\ Results_bool r = false /\ Results_len r = Ok O.
Proof.
  apply (results_without_response (fun _ => Raise (ValueError []))
           [(L "responseHeader", JDict [(L "QTime", JInt 3)]); (L "response", JNull)]);
    exact I || reflexivity.
Defined.

(** ** Failures of the server, operation by operation *)

Section FailureFacts.
Context {lib : Libraries}.
Variable fetch : HTTPRequest -> result HTTPResponse.
Variables (status : N) (response : HTTPResponse).
Hypothesis fails : forall r, fetch r = Raise (HTTPError status (Some response)).

Lemma send_request_fails (self : Solr) (method path : str) (body : option value)
  (headers : list (str * str)) (t : list HTTPRequest) :
  fst (_send_request fetch self method path body headers None t)
  = Raise (SolrError (str_of_N status ++ L ": " ++ resp_reason response)).
Proof. unfold _send_request, issue. rewrite fails. reflexivity. Qed.

Lemma update_fails (self : Solr) (message commit softCommit waitFlush waitSearcher : value)
  (m : str) :
  sanitize message = Ok m ->
  outcome (_update fetch self message (PyBool true) commit softCommit waitFlush waitSearcher)
  = Raise (SolrError (str_of_N status ++ L ": " ++ resp_reason response)).
Proof.
  intro H. unfold outcome, _update, bindIO, lift. rewrite H. cbn [truthy bind].
  apply send_request_fails.
Qed.

Lemma bind_fails {A} (m : IO str) (f : str -> IO A) (e : exn) :
  outcome m = Raise e -> outcome (bindIO m f) = Raise e.
Proof.
  unfold outcome, bindIO. destruct (m []) as [[a|e'] t]; cbn [fst]; intro H;
    [discriminate | injection H as ->; reflexivity].
Qed.

Lemma dispatch_fails (self : Solr) (params : list (str * value)) :
  (exists params_encoded,
     urlencode (dict_set str_eqb (L "wt") (PyStr (L "json")) params) true
     = Ok params_encoded) ->
  outcome (_select fetch self params)
  = Raise (SolrError (str_of_N status ++ L ": " ++ resp_reason response))
  /\ outcome (_mlt fetch self params)
     = Raise (SolrError (str_of_N status ++ L ": " ++ resp_reason response))
  /\ outcome (_suggest_terms fetch self params)
     = Raise (SolrError (str_of_N status ++ L ": " ++ resp_reason response)).
Proof.
  intros [enc H]. unfold outcome, _select, _mlt, _suggest_terms, bindIO, lift. rewrite H.
  destruct (N.of_nat (length enc) <? 1024); repeat split; apply send_request_fails.
Qed.

End FailureFacts.

(** X22: When the server answers with an HTTP error, every operation of
    the facade fails with the same [SolrError], the status and the reason
    phrase: the queries, once their parameters are encoded, and the
    updates, whose messages the sanitizer always accepts. *)
Theorem operations_http_error {lib : Libraries} (fetch : HTTPRequest -> result HTTPResponse)
  (int_other : json -> result Z) (ET_tostring_utf8 : Element -> bytes)
  (status : N) (response : HTTPResponse) (self : Solr)
  (q mltfl fields prefix commit_ softCommit waitFlush waitSearcher expungeDeletes : value)
  (kwargs : list (str * value)) (docs : list (list (str * value)))
  (boost : option (list (str * value))) (fieldUpdates : option (list (str * str)))
  (commitWithin : option str) (maxSegments : option Z) :
  (forall r, fetch r = Raise (HTTPError status (Some response))) ->
  (forall params, exists params_encoded, urlencode params true = Ok params_encoded) ->
  outcome (search fetch int_other self q kwargs)
  = Raise (SolrError (http_error_message status response))
  /\ outcome (more_like_this fetch int_other self q mltfl kwargs)
     = Raise (SolrError (http_error_message status response))
  /\ outcome (suggest_terms fetch self fields prefix kwargs)
     = Raise (SolrError (http_error_message status response))
  /\ outcome (add fetch ET_tostring_utf8 self docs boost fieldUpdates commit_ softCommit
                  commitWithin waitFlush waitSearcher)
     = Raise (SolrError (http_error_message status response))
  /\ outcome (commit fetch self softCommit waitFlush waitSearcher expungeDeletes)
     = Raise (SolrError (http_error_message status response))
  /\ outcome (optimize fetch self waitFlush waitSearcher maxSegments)
     = Raise (SolrError (http_error_message status response)).
Proof.
  intros Hf Hu. unfold http_error_message.
  repeat split.
  - unfold search. apply bind_fails.
    apply (dispatch_fails fetch status response Hf self _ (Hu _)).
  - unfold more_like_this. apply bind_fails.
    apply (dispatch_fails fetch status response Hf self _ (Hu _)).
  - unfold suggest_terms. apply bind_fails.
    apply (dispatch_fails fetch status response Hf self _ (Hu _)).
  - unfold add. cbn [force_unicode].
    apply (update_fails fetch status response Hf _ _ _ _ _ _ _ (sanitize_decoded _)).
  - unfold commit.
    set (msg := if negb (is_none expungeDeletes) then _ else _).
    apply (update_fails fetch status response Hf _ _ _ _ _ _ msg). apply sanitize_plain.
    unfold msg, bool_text. destruct (is_none expungeDeletes), (truthy expungeDeletes);
      reflexivity.
  - unfold optimize.
    set (msg := match maxSegments with Some _ => _ | None => _ end).
    apply (update_fails fetch status response Hf _ _ _ _ _ _ msg). apply sanitize_plain.
    unfold msg. destruct maxSegments as [n|]; [|reflexivity].
    destruct (negb (n =? 0)%Z); [|reflexivity].
    rewrite !forallb_app, str_of_Z_plain. reflexivity.
Qed.

Lemma operations_http_error_witness :
  outcome (search (lib := no_libraries) (failing_transport tomcat_500)
             (fun _ => Raise (ValueError [])) sample_solr (PyStr (L "*:*")) [])
  = Raise (SolrError (L "500: Internal Server Error"))
  /\ outcome (commit (lib := no_libraries) (failing_transport tomcat_500) sample_solr
                (PyBool false) PyNone PyNone PyNone)
     = Raise (SolrError (L "500: Internal Server Error")).
Proof.
  destruct (operations_http_error (lib := no_libraries) (failing_transport tomcat_500)
              (fun _ => Raise (ValueError [])) (fun _ => []) 500 tomcat_500 sample_solr
              (PyStr (L "*:*")) PyNone PyNone PyNone PyNone (PyBool false) PyNone PyNone PyNone
              [] [] None None None None)
    as (H1 & _ & _ & _ & H5 & _).
  - reflexivity.
  - intro params. exists []. reflexivity.
  - split; [exact H1 | exact H5].
Defined.

(** ** A date through the codec *)

(** X23: A date does not come back as a date: what [_from_python] writes
    for it, [_to_python] reads as the date-time of its midnight. *)
Theorem codec_date_becomes_datetime {lib : Libraries} (d : date) :
  valid_date d = true ->
  _to_python (PyStr (_from_python (PyDate d))) = Ok (PyDatetime (midnight d)).
Proof.
  intro Hv. rewrite (from_python_date d Hv).
  pose proof (valid_date_bounds d Hv) as (Hy & Hm & Hd).
  destruct d as [y m dd]. cbn [year month day] in *.
  destruct (four_values_ok y Hy) as [Dy Py]. destruct (two_values_ok m Hm) as [Dm Pm].
  destruct (two_values_ok dd Hd) as [Dd Pd].
  pose proof (as_digits_are_digits _ Dy) as Ay. pose proof (as_digits_are_digits _ Dm) as Am.
  pose proof (as_digits_are_digits _ Dd) as Ad.
  change (iso_date {| year := y; month := m; day := dd |} ++ L "T00:00:00Z")
    with (dt_text (0x30 + y / 1000) (0x30 + y / 100 mod 10) (0x30 + y / 10 mod 10)
                  (0x30 + y mod 10) (0x30 + m / 10) (0x30 + m mod 10)
                  (0x30 + dd / 10) (0x30 + dd mod 10) 0x30 0x30 0x30 0x30 0x30 0x30 []).
  rewrite date_text_to_python.
  - change [0x30 + y / 1000; 0x30 + y / 100 mod 10; 0x30 + y / 10 mod 10; 0x30 + y mod 10]
      with (as_digits (four_values y)).
    change [0x30 + m / 10; 0x30 + m mod 10] with (as_digits (two_values m)).
    change [0x30 + dd / 10; 0x30 + dd mod 10] with (as_digits (two_values dd)).
    assert (V : forall l, forallb digit_value l = true -> digits_value (as_digits l)
                                                          = positional l).
    { intros l Hl. unfold digits_value, as_digits. rewrite map_map. f_equal.
      rewrite <- (map_id l) at 2. apply map_ext_in. intros a _. lia. }
    rewrite !V by assumption. rewrite Py, Pm, Pd.
    change (digits_value [0x30; 0x30]) with 0.
    unfold datetime_new, valid_datetime.
    cbn [dt_date hour minute second microsecond utcoffset]. rewrite Hv. reflexivity.
  - cbn [as_digits four_values two_values map forallb] in Ay, Am, Ad.
    repeat match goal with H : _ && _ = true |- _ => apply andb_prop in H as [?H H] end.
    cbn [forallb]. repeat match goal with H : ?x = true |- context [?x] => rewrite H end.
    reflexivity.
  - left. reflexivity.
Qed.

Lemma codec_date_becomes_datetime_witness :
  valid_date {| year := 2020; month := 2; day := 29 |} = true
  /\ _to_python (lib := no_libraries)
       (PyStr (_from_python (lib := no_libraries)
                 (PyDate {| year := 2020; month := 2; day := 29 |})))
     = Ok (PyDatetime (midnight {| year := 2020; month := 2; day := 29 |})).
Proof.
  split; [reflexivity|].
  apply (codec_date_becomes_datetime (lib := no_libraries)). reflexivity.
Defined.

(** ** One request for each call *)

Section RequestFacts.
Context {lib : Libraries}.
Variable fetch : HTTPRequest -> result HTTPResponse.

Lemma send_request_once (self : Solr) (method path : str) (body : option value)
  (headers : list (str * str)) :
  (length (requests (_send_request fetch self method path body headers None)) <= 1)%nat.
Proof. unfold requests. rewrite send_request_issues. cbn. lia. Qed.

Lemma encoded_once (r : result str) (k : str -> IO str) :
  (forall enc, (length (requests (k enc)) <= 1)%nat) ->
  (length (requests (bindIO (lift r) k)) <= 1)%nat.
Proof.
  intro H. unfold requests, bindIO, lift. destruct r as [enc|e]; [apply H | cbn; lia].
Qed.

Lemma decoded_once {A} (m : IO str) (f : str -> result A) :
  (length (requests m) <= 1)%nat ->
  (length (requests (bindIO m (fun x => lift (f x)))) <= 1)%nat.
Proof.
  unfold requests, bindIO, lift. destruct (m []) as [[a|e] t]; cbn [snd]; intro H; exact H.
Qed.

Lemma update_once (self : Solr)
  (message clean_ctrl_chars commit softCommit waitFlush waitSearcher : value) :
  (length (requests (_update fetch self message clean_ctrl_chars commit softCommit
                             waitFlush waitSearcher)) <= 1)%nat.
Proof.
  unfold _update, requests, bindIO, ret, lift.
  destruct (truthy clean_ctrl_chars); [destruct (sanitize message); cbn [bind]|];
    try (rewrite send_request_issues; cbn; lia).
  cbn. lia.
Qed.

End RequestFacts.

(** X24: No operation of the facade issues more than one request: an
    update carries its commit flag in the URL, and nothing is retried. *)
Theorem one_request_at_most {lib : Libraries} (fetch : HTTPRequest -> result HTTPResponse)
  (int_other : json -> result Z) (ET_tostring_utf8 : Element -> bytes) (self : Solr)
  (q mltfl fields prefix id commit_ softCommit waitFlush waitSearcher expungeDeletes : value)
  (kwargs : list (str * value)) (docs : list (list (str * value)))
  (boost : option (list (str * value))) (fieldUpdates : option (list (str * str)))
  (commitWithin : option str) (maxSegments : option Z) :
  (length (requests (search fetch int_other self q kwargs)) <= 1)%nat
  /\ (length (requests (more_like_this fetch int_other self q mltfl kwargs)) <= 1)%nat
  /\ (length (requests (suggest_terms fetch self fields prefix kwargs)) <= 1)%nat
  /\ (length (requests (add fetch ET_tostring_utf8 self docs boost fieldUpdates commit_
                            softCommit commitWithin waitFlush waitSearcher)) <= 1)%nat
  /\ (length (requests (delete fetch self id q commit_ waitFlush waitSearcher)) <= 1)%nat
  /\ (length (requests (commit fetch self softCommit waitFlush waitSearcher expungeDeletes))
      <= 1)%nat
  /\ (length (requests (optimize fetch self waitFlush waitSearcher maxSegments)) <= 1)%nat.
Proof.
  repeat split.
  - unfold search. apply decoded_once. unfold _select. apply encoded_once. intro enc.
    destruct (_ <? _); apply send_request_once.
  - unfold more_like_this. apply decoded_once. unfold _mlt. apply encoded_once. intro enc.
    apply send_request_once.
  - unfold suggest_terms. apply decoded_once. unfold _suggest_terms. apply encoded_once.
    intro enc. apply send_request_once.
  - unfold add. apply update_once.
  - unfold delete. destruct (is_none id && is_none q); [cbn; lia|].
    destruct (negb (is_none id) && negb (is_none q)); [cbn; lia|].
    apply encoded_once. intro m. apply update_once.
  - unfold commit. apply update_once.
  - unfold optimize. apply update_once.
Qed.

(** ** A search, end to end *)

(** X25: A search that is answered returns the [Results] of the decoded
    answer: its documents are those of the [response], its hits the
    number found, and its truth value says whether that number is
    positive, whatever the documents are. *)
Theorem search_returns_results {lib : Libraries} (fetch : HTTPRequest -> result HTTPResponse)
  (int_other : json -> result Z) (self : Solr) (q : value) (kwargs : list (str * value))
  (params_encoded : str) (resp : HTTPResponse) (d r : list (str * json))
  (l : list json) (n : Z) :
  urlencode (dict_set str_eqb (L "wt") (PyStr (L "json")) (dict_update kwargs [(L "q", q)]))
            true = Ok params_encoded ->
  (forall request, fetch request = Ok resp) ->
  json_decode (force_unicode (PyBytes (resp_body resp))) = Ok (JDict d) ->
  assoc (L "response") d = Some (JDict r) ->
  assoc (L "docs") r = Some (JList l) ->
  assoc (L "numFound") r = Some (JInt n) ->
  match assoc (L "responseHeader") d with
  | Some (JDict _) | None => True
  | Some _ => False
  end ->
  exists results,
    outcome (search fetch int_other self q kwargs) = Ok results
    /\ docs results = Some (JList l) /\ hits results = n
    /\ Results_bool results = (0 <? n)%Z /\ Results_len results = Ok (length l).
Proof.
  intros Hu Hf Hj Hr Hd Hn Hh.
  assert (Hs : outcome (_select fetch self (dict_update kwargs [(L "q", q)]))
               = Ok (force_unicode (PyBytes (resp_body resp)))).
  { unfold outcome, _select, bindIO, lift. rewrite Hu.
    destruct (_ <? _); unfold _send_request, issue; rewrite Hf; reflexivity. }
  unfold search, outcome, bindIO in *.
  destruct (_select fetch self (dict_update kwargs [(L "q", q)]) []) as [[a|e] t];
    cbn [fst] in Hs; [injection Hs as -> | discriminate].
  unfold lift, decode_results. cbn [fst]. cbn [force_unicode] in Hj. rewrite Hj. cbn [bind].
  unfold found_for_log, Results_init, json_get. rewrite Hr.
  assert (Ht : or_empty (JDict r) = JDict r).
  { unfold or_empty. destruct r; [discriminate Hd | reflexivity]. }
  cbn [bind]. rewrite !Ht. cbn [bind]. rewrite Hd, Hn. cbn [bind py_int].
  destruct (assoc (L "responseHeader") d) as [[| | | | | |h]|]; try contradiction;
    cbn [bind]; eexists; repeat split.
Qed.

Lemma search_returns_results_witness :
  exists results,
    outcome (search (lib := answering_libraries (L "q=a&wt=json") found_two)
               (answering_transport tomcat_500) (fun _ => Raise (ValueError []))
               sample_solr (PyStr (L "a")) []) = Ok results
    /\ docs results = Some (JList [JDict [(L "id", JInt 1)]; JDict [(L "id", JInt 2)]])
    /\ hits results = 7%Z
    /\ Results_bool results = (0 <? 7)%Z /\ Results_len results = Ok 2%nat.
Proof.
  apply (search_returns_results (lib := answering_libraries (L "q=a&wt=json") found_two)
           (answering_transport tomcat_500) (fun _ => Raise (ValueError []))
           sample_solr (PyStr (L "a")) [] (L "q=a&wt=json") tomcat_500
           [(L "responseHeader", JDict [(L "QTime", JInt 3)]);
            (L "response",
             JDict [(L "numFound", JInt 7);
                    (L "docs", JList [JDict [(L "id", JInt 1)]; JDict [(L "id", JInt 2)]])])]
           [(L "numFound", JInt 7);
            (L "docs", JList [JDict [(L "id", JInt 1)]; JDict [(L "id", JInt 2)]])]);
    reflexivity || exact I.
Defined.

(** ** The scraper on an HTML page *)

(** X26: For a server other than Tomcat and a body without an XML
    declaration that parses, the reason is the text of one node, as it
    is: the first [body/pre] for Jetty, the first [head/title] for the
    others.  When the node has text, the detail is empty; when the node is
    missing or has no text, the reason is absent and the detail is the
    serialized page, normalized. *)
Theorem scrape_html_page {lib : Libraries} (headers : list (str * str)) (response : value)
  (body : str) (dom_tree : Element) :
  decoded_body response = Ok body ->
  startswith (L "<?xml") body = false ->
  server_type headers <> Tomcat ->
  ET_fromstring body = Ok dom_tree ->
  _scrape_response headers response
  = match find (match server_type headers with
                | Jetty => jetty_path
                | _ => title_path
                end) dom_tree with
    | Some (Elem _ _ (Some t) _) => Ok (Some t, [])
    | _ => Ok (None, normalize_detail (PyBytes (ET_tostring dom_tree)))
    end.
Proof.
  intros Hb Hs Hk Hp. unfold _scrape_response. rewrite Hb. cbn [bind]. rewrite Hs.
  cbn [bind]. destruct (server_type headers); try contradiction; rewrite Hp;
    match goal with |- context [find ?p dom_tree] => destruct (find p dom_tree) as [[g a [t|] c]|] end;
    reflexivity.
Qed.

Lemma scrape_html_page_witness :
  _scrape_response (lib := sample_libraries [] example_documents) jetty_headers
                   (PyStr example_jetty_body)
  = Ok (Some (L "Problem accessing /solr/select. Reason: bad request"), []).
Proof.
  apply (scrape_html_page (lib := sample_libraries [] example_documents) jetty_headers
           (PyStr example_jetty_body) example_jetty_body example_jetty_tree);
    try reflexivity.
  discriminate.
Defined.
